(** * The e-commerce order-processing core (week_11/ecommerce_system)

    A shallow embedding of [models.py], [cart.py], [payments.py],
    [platform.py], [users.py] and the catalog and orders of
    [storage.py], followed by the properties of the
    order workflow, the stock reservation scheme, the account lock-out,
    the catalog, the carts, the payments and the user accounts.

    Conventions.
    - Python objects that are shared and mutated ([Product], [CartItem])
      live in explicit heaps (lists indexed by address); a Python reference
      is an address.  Objects that are reachable from one dictionary only
      ([Order], [ShoppingCart], [PaymentReceipt], [User]) are stored by value
      in that dictionary.
    - A dictionary that the code iterates over ([values()], [items()]) is an
      insertion-ordered association list ([odict]); a dictionary that is
      only accessed by key is a [gmap].
    - A method is a computation in the monad [M]: it takes the state and
      returns the state it leaves behind together with a value or the
      exception raised.  The state that comes with an exception is the
      state at the moment of the [raise]: Python does not roll back.
    - Everything the code draws from its environment (uuid4, [secrets],
      the wall clock) is an explicit argument.
    - The methods of the platform are modelled without their calls of
      [_persist_catalog] and [_persist_orders], which write a snapshot
      and change nothing in memory.  What these calls write, and what
      the platform of a later process loads from it, is modelled apart
      (storage.py). *)

From stdpp Require Import gmap strings list pretty.
From Stdlib Require Import ZArith Lia Ascii.

Local Open Scope Z_scope.

(** ** Exceptions and the state-and-exception monad *)

Inductive exn : Type :=
  | NotFoundError
  | AuthenticationError
  | AuthorizationError
  | InventoryError
  | PaymentError
  | ValueError
  | KeyError
  | AttributeError
  | Overflow
  | InvalidOperation
  | DanglingReference.
(** [Overflow] and [InvalidOperation] are the two signals of the module
    [decimal] that the default context raises as exceptions.
    [DanglingReference] is not a Python exception: it is what the model
    answers when an address is outside its heap, which no state built by
    the operations below contains (see [wf]). *)

Inductive result (A : Type) : Type :=
  | Ok (a : A)
  | Raise (e : exn).
Arguments Ok {A} a.
Arguments Raise {A} e.

Definition M (St A : Type) : Type := St -> result A * St.

Definition ret {St A} (a : A) : M St A := fun s => (Ok a, s).

Definition raise {St A} (e : exn) : M St A := fun s => (Raise e, s).

Definition bind {St A B} (m : M St A) (k : A -> M St B) : M St B :=
  fun s =>
    match m s with
    | (Ok a, s') => k a s'
    | (Raise e, s') => (Raise e, s')
    end.

Definition gets {St A} (f : St -> A) : M St A := fun s => (Ok (f s), s).

Definition modify {St} (f : St -> St) : M St unit := fun s => (Ok tt, f s).

Notation "x <- m ;; k" := (bind m (fun x => k))
  (at level 100, m at next level, k at level 200, right associativity).
Notation "m ;;; k" := (bind m (fun _ => k))
  (at level 100, k at level 200, right associativity).

(** A reference that must be live. *)
Definition deref {St A} (o : option A) : M St A :=
  match o with
  | Some a => ret a
  | None => raise DanglingReference
  end.

(** An expression that has a value or raises. *)
Definition of_result {St A} (r : result A) : M St A := fun s => (r, s).

(** [for x in l: body(x)] *)
Fixpoint for_each {St A} (l : list A) (body : A -> M St unit) : M St unit :=
  match l with
  | [] => ret tt
  | x :: l' => body x ;;; for_each l' body
  end.

(** [[f(x) for x in l]]: the values in the order of [l]; the first
    exception ends the comprehension. *)
Fixpoint collect {St A B} (l : list A) (f : A -> M St B) : M St (list B) :=
  match l with
  | [] => ret []
  | x :: l' => y <- f x ;; ys <- collect l' f ;; ret (y :: ys)
  end.

(** ** Insertion-ordered dictionaries

    A Python [dict] keeps its keys in insertion order; assigning to a key
    that is present keeps its position, a new key goes to the end. *)

Module odict.
Section odict.
Context {V : Type}.

Definition t : Type := list (string * V).

Fixpoint get (k : string) (d : t) : option V :=
  match d with
  | [] => None
  | (k', v) :: d' => if String.eqb k k' then Some v else get k d'
  end.

Fixpoint set (k : string) (v : V) (d : t) : t :=
  match d with
  | [] => [(k, v)]
  | (k', v') :: d' =>
      if String.eqb k k' then (k', v) :: d' else (k', v') :: set k v d'
  end.

Fixpoint del (k : string) (d : t) : t :=
  match d with
  | [] => []
  | (k', v') :: d' =>
      if String.eqb k k' then del k d' else (k', v') :: del k d'
  end.

Definition values (d : t) : list V := map snd d.

Definition mem (k : string) (d : t) : bool :=
  match get k d with Some _ => true | None => false end.

(** [next((v for v in d.values() if P(v)), None)] *)
Fixpoint find_value (P : V -> bool) (d : t) : option V :=
  match d with
  | [] => None
  | (_, v) :: d' => if P v then Some v else find_value P d'
  end.

(** The dictionary after the object that [find_value] returns has been
    mutated by [f]. *)
Fixpoint alter_first (P : V -> bool) (f : V -> V) (d : t) : t :=
  match d with
  | [] => []
  | (k, v) :: d' =>
      if P v then (k, f v) :: d' else (k, v) :: alter_first P f d'
  end.

(** [d.update(new)]: the entries of [new] are assigned in their order. *)
Definition update (new d : t) : t :=
  fold_left (fun d kv => set kv.1 kv.2 d) new d.
End odict.
Arguments t : clear implicits.
End odict.

(** ** Python values that travel in [**kwargs] and in receipt metadata *)

Inductive pyval : Type :=
  | PyNone
  | PyStr (s : string)
  | PyBool (b : bool)
  | PyInt (z : Z).

(** [a == b]; [True == 1] and [False == 0] as in Python. *)
Definition py_eqb (a b : pyval) : bool :=
  match a, b with
  | PyNone, PyNone => true
  | PyStr s, PyStr s' => String.eqb s s'
  | PyBool x, PyBool y => Bool.eqb x y
  | PyInt x, PyInt y => Z.eqb x y
  | PyBool x, PyInt y | PyInt y, PyBool x => Z.eqb (Z.b2z x) y
  | _, _ => false
  end.

(** Truth value of an object in a condition. *)
Definition py_truthy (a : pyval) : bool :=
  match a with
  | PyNone => false
  | PyStr s => negb (String.eqb s "")
  | PyBool b => b
  | PyInt z => negb (Z.eqb z 0)
  end.

(** [kwargs.get(k)] and [kwargs.get(k, d)] *)
Definition kw_get (k : string) (kw : gmap string pyval) : pyval :=
  default PyNone (kw !! k).
Definition kw_get_default (k : string) (d : pyval) (kw : gmap string pyval) : pyval :=
  default d (kw !! k).

(** ** Decimal amounts

    A [decimal.Decimal] is a finite number with a sign, a coefficient and
    an exponent, standing for [(-1) ^ sign * coef * 10 ^ expo], or an
    infinity, or a NaN, quiet or signalling, with its payload.  The
    arithmetic is that of the default context: 28 digits, exponents from
    -999999 to 999999, rounding half to even, and the signals
    [InvalidOperation] and [Overflow] raised as exceptions. *)

Inductive Decimal : Type :=
  | Finite (negative : bool) (coef : N) (expo : Z)
  | Infinity (negative : bool)
  | NaN (negative : bool) (signaling : bool) (payload : N).

Definition PREC : Z := 28.
Definition EMAX : Z := 999999.
Definition EMIN : Z := -999999.
(** [Context.Etiny] and [Context.Etop] *)
Definition ETINY : Z := EMIN - PREC + 1.
Definition ETOP : Z := EMAX - PREC + 1.

(** [len(str(c))], the number of digits of a coefficient *)
Definition dec_digits (c : N) : Z := Z.of_nat (String.length (pretty c)).

(** [Decimal(n)] for an [int] *)
Definition dec_of_int (n : Z) : Decimal := Finite (n <? 0) (Z.abs_N n) 0.

(** [Decimal._fix] on a finite number: the number rounded to the
    precision of the context and brought into its range of exponents. *)
Definition dec_fix (negative : bool) (c : N) (e : Z) : result Decimal :=
  if (c =? 0)%N then Ok (Finite negative 0 (Z.min (Z.max e ETINY) EMAX))
  else
    let exp_min := dec_digits c + e - PREC in
    if ETOP <? exp_min then Raise Overflow
    else
      let exp_min := Z.max exp_min ETINY in
      if e <? exp_min then
        let unit := (10 ^ Z.to_N (exp_min - e))%N in
        let kept := (c / unit)%N in
        let rest := (c mod unit)%N in
        let half := (unit / 2)%N in
        let up := (half <? rest)%N || ((rest =? half)%N && N.odd kept) in
        let coeff := if up then (kept + 1)%N else kept in
        if PREC <? dec_digits coeff then
          if ETOP <? exp_min + 1 then Raise Overflow
          else Ok (Finite negative (coeff / 10)%N (exp_min + 1))
        else Ok (Finite negative coeff exp_min)
      else Ok (Finite negative c e).

(** [Decimal._fix_nan]: a payload longer than the precision loses its
    leading digits. *)
Definition dec_fix_nan (negative : bool) (payload : N) : Decimal :=
  if PREC <? dec_digits payload
  then NaN negative false (payload mod 10 ^ Z.to_N PREC)%N
  else NaN negative false payload.

(** [Decimal._check_nans]: a signalling NaN is an invalid operation, a
    quiet one is the result, the one of [self] first. *)
Definition dec_check_nans (a b : Decimal) : option (result Decimal) :=
  match a, b with
  | NaN _ true _, _ => Some (Raise InvalidOperation)
  | _, NaN _ true _ => Some (Raise InvalidOperation)
  | NaN s false p, _ => Some (Ok (dec_fix_nan s p))
  | _, NaN s false p => Some (Ok (dec_fix_nan s p))
  | _, _ => None
  end.

Definition dec_is_zero (a : Decimal) : bool :=
  match a with Finite _ c _ => (c =? 0)%N | _ => false end.

Definition dec_negative (a : Decimal) : bool :=
  match a with Finite s _ _ | Infinity s | NaN s _ _ => s end.

(** [Decimal.__mul__] *)
Definition dec_mul (a b : Decimal) : result Decimal :=
  match dec_check_nans a b with
  | Some r => r
  | None =>
      let negative := xorb (dec_negative a) (dec_negative b) in
      match a, b with
      | Finite _ ca ea, Finite _ cb eb => dec_fix negative (ca * cb)%N (ea + eb)
      | Infinity _, _ =>
          if dec_is_zero b then Raise InvalidOperation else Ok (Infinity negative)
      | _, _ =>
          if dec_is_zero a then Raise InvalidOperation else Ok (Infinity negative)
      end
  end.

(** [price * quantity], a [Decimal] times an [int] *)
Definition dec_mul_int (a : Decimal) (n : Z) : result Decimal :=
  dec_mul a (dec_of_int n).

(** The value of a finite number at the exponent [e], which is not above
    its own. *)
Definition dec_scaled (negative : bool) (c : N) (expo e : Z) : Z :=
  let m := Z.of_N c * 10 ^ (expo - e) in
  if negative then - m else m.

(** [Decimal.__add__]: the sum of two finite numbers is taken at the
    smaller exponent and rounded once, by [_fix].  (For an operand that
    lies far below the other the code takes a unit in its place; the
    rounded sum is the same.)  A zero operand leaves the other, padded
    by at most [prec + 1] zeros. *)
Definition dec_add (a b : Decimal) : result Decimal :=
  match dec_check_nans a b with
  | Some r => r
  | None =>
      match a, b with
      | Finite sa ca ea, Finite sb cb eb =>
          let e := Z.min ea eb in
          if (ca =? 0)%N && (cb =? 0)%N then dec_fix (sa && sb) 0 e
          else if (ca =? 0)%N then
            let e := Z.max e (eb - PREC - 1) in
            dec_fix sb (cb * 10 ^ Z.to_N (eb - e))%N e
          else if (cb =? 0)%N then
            let e := Z.max e (ea - PREC - 1) in
            dec_fix sa (ca * 10 ^ Z.to_N (ea - e))%N e
          else
            let sum := dec_scaled sa ca ea e + dec_scaled sb cb eb e in
            dec_fix (sum <? 0) (Z.abs_N sum) e
      | Infinity sa, Infinity sb =>
          if Bool.eqb sa sb then Ok a else Raise InvalidOperation
      | Infinity _, _ => Ok a
      | _, _ => Ok b
      end
  end.

(** [a == b] on decimals ([Decimal.__eq__]) compares the numbers, not the
    representations; a NaN equals nothing, and a signalling one is an
    invalid operation. *)
Definition dec_eqb (a b : Decimal) : result bool :=
  match a, b with
  | NaN _ true _, _ | _, NaN _ true _ => Raise InvalidOperation
  | NaN _ false _, _ | _, NaN _ false _ => Ok false
  | Infinity sa, Infinity sb => Ok (Bool.eqb sa sb)
  | Infinity _, _ | _, Infinity _ => Ok false
  | Finite sa ca ea, Finite sb cb eb =>
      let e := Z.min ea eb in
      Ok (dec_scaled sa ca ea e =? dec_scaled sb cb eb e)
  end.

(** [Decimal(format(value, "f"))], the value that comes back from the
    snapshot: a finite number with a positive exponent is written out
    with its zeros. *)
Definition dec_reparse (a : Decimal) : Decimal :=
  match a with
  | Finite s c e =>
      if (c =? 0)%N then Finite s 0 (Z.min e 0)
      else if 0 <? e then Finite s (c * 10 ^ Z.to_N e)%N 0 else a
  | _ => a
  end.

(** ** models.py

    [created_at] and [updated_at] of [TimestampedMixin] are left out:
    [touch()] writes [updated_at] only, and nothing in the modelled code
    reads either field. *)

Record Category : Type := {
  cat_id : string;
  cat_name : string;
  cat_description : string }.

Record Product : Type := {
  p_id : string;
  p_name : string;
  p_price : Decimal;
  p_stock : Z;
  p_category_id : string;
  p_description : string;
  p_metadata : gmap string string }.

Definition with_stock (p : Product) (n : Z) : Product :=
  {| p_id := p_id p; p_name := p_name p; p_price := p_price p; p_stock := n;
     p_category_id := p_category_id p; p_description := p_description p;
     p_metadata := p_metadata p |}.

Definition with_price (p : Product) (d : Decimal) : Product :=
  {| p_id := p_id p; p_name := p_name p; p_price := d; p_stock := p_stock p;
     p_category_id := p_category_id p; p_description := p_description p;
     p_metadata := p_metadata p |}.

(** A [CartItem] holds a reference to its [Product], not a copy. *)
Record CartItem : Type := {
  ci_product : nat;
  ci_quantity : Z }.

Module OrderStatus.
Inductive t : Type := CREATED | PAID | FAILED | SHIPPED.
Definition eqb (a b : t) : bool :=
  match a, b with
  | CREATED, CREATED | PAID, PAID | FAILED, FAILED | SHIPPED, SHIPPED => true
  | _, _ => false
  end.
End OrderStatus.

Module PaymentStatus.
Inductive t : Type := SUCCESS | PENDING | FAILED.
Definition eqb (a b : t) : bool :=
  match a, b with
  | SUCCESS, SUCCESS | PENDING, PENDING | FAILED, FAILED => true
  | _, _ => false
  end.
End PaymentStatus.

(** [o_items] is the Python list built at checkout: references to
    [CartItem] objects, in the order of the cart. *)
Record Order : Type := {
  o_id : string;
  o_user_id : string;
  o_items : list nat;
  o_status : OrderStatus.t;
  o_payment_reference : option string }.

Record PaymentReceipt : Type := {
  r_order_id : string;
  r_method : string;
  r_amount : Decimal;
  r_reference : string;
  r_status : PaymentStatus.t;
  r_metadata : gmap string pyval }.

Definition with_receipt_status (r : PaymentReceipt) (st : PaymentStatus.t)
    : PaymentReceipt :=
  {| r_order_id := r_order_id r; r_method := r_method r;
     r_amount := r_amount r; r_reference := r_reference r;
     r_status := st; r_metadata := r_metadata r |}.

Definition with_receipt_metadata (r : PaymentReceipt) (m : gmap string pyval)
    : PaymentReceipt :=
  {| r_order_id := r_order_id r; r_method := r_method r;
     r_amount := r_amount r; r_reference := r_reference r;
     r_status := r_status r; r_metadata := m |}.

(** The object store: every [Product] and every [CartItem] ever created,
    at the address it was created at.  Python never frees an object that
    is still referenced, and the model never frees at all. *)
Record Store : Type := {
  product_objs : list Product;
  item_objs : list CartItem }.

Definition set_product_objs (f : list Product -> list Product) (s : Store) : Store :=
  {| product_objs := f (product_objs s); item_objs := item_objs s |}.

Definition set_item_objs (f : list CartItem -> list CartItem) (s : Store) : Store :=
  {| product_objs := product_objs s; item_objs := f (item_objs s) |}.

Definition load_product (a : nat) : M Store Product :=
  fun s => deref (product_objs s !! a) s.

Definition load_item (a : nat) : M Store CartItem :=
  fun s => deref (item_objs s !! a) s.

(** [Product(...)] and [CartItem(...)]: a new object at a new address. *)
Definition new_product (p : Product) : M Store nat :=
  fun s => (Ok (length (product_objs s)), set_product_objs (fun h => h ++ [p]) s).

Definition new_item (i : CartItem) : M Store nat :=
  fun s => (Ok (length (item_objs s)), set_item_objs (fun h => h ++ [i]) s).

Module Product_.
(** [Product.adjust_stock] (models.py:53) *)
Definition adjust_stock (self : nat) (quantity : Z) : M Store unit :=
  p <- load_product self ;;
  let new_stock := p_stock p + quantity in
  if new_stock <? 0 then raise InventoryError
  else modify (set_product_objs (fun h => <[self := with_stock p new_stock]> h)).
End Product_.

Module CartItem_.
(** [CartItem.increment] (models.py:69) *)
Definition increment (self : nat) (qty : Z) : M Store unit :=
  i <- load_item self ;;
  modify (set_item_objs (fun h =>
    <[self := {| ci_product := ci_product i; ci_quantity := ci_quantity i + qty |}]> h)).

(** [CartItem.line_total] (models.py:73): the price is read from the
    referenced product at the time of the call. *)
Definition line_total (s : Store) (self : nat) : result Decimal :=
  match item_objs s !! self with
  | Some i =>
      match product_objs s !! ci_product i with
      | Some p => dec_mul_int (p_price p) (ci_quantity i)
      | None => Raise DanglingReference
      end
  | None => Raise DanglingReference
  end.
End CartItem_.

(** [sum(item.line_total for item in items)]: [sum] starts from the
    integer 0 and adds from the left, each line total being computed when
    its turn comes.  The sum of no items, the integer 0, is written as
    the decimal 0. *)
Fixpoint sum_line_totals (s : Store) (acc : Decimal) (items : list nat)
    : result Decimal :=
  match items with
  | [] => Ok acc
  | a :: items' =>
      match CartItem_.line_total s a with
      | Ok d =>
          match dec_add acc d with
          | Ok acc' => sum_line_totals s acc' items'
          | Raise e => Raise e
          end
      | Raise e => Raise e
      end
  end.

Module Order_.
(** [Order.subtotal] (models.py:98) *)
Definition subtotal (s : Store) (self : Order) : result Decimal :=
  sum_line_totals s (dec_of_int 0) (o_items self).

(** [Order.mark_paid] (models.py:101) *)
Definition mark_paid (self : Order) (reference : string) : Order :=
  {| o_id := o_id self; o_user_id := o_user_id self; o_items := o_items self;
     o_status := OrderStatus.PAID; o_payment_reference := Some reference |}.

Definition with_status (self : Order) (st : OrderStatus.t) : Order :=
  {| o_id := o_id self; o_user_id := o_user_id self; o_items := o_items self;
     o_status := st; o_payment_reference := o_payment_reference self |}.

Definition with_payment_reference (self : Order) (r : option string) : Order :=
  {| o_id := o_id self; o_user_id := o_user_id self; o_items := o_items self;
     o_status := o_status self; o_payment_reference := r |}.
End Order_.

(** ** cart.py *)

Record ShoppingCart : Type := {
  cart_user_id : string;
  _items : odict.t nat }.

Module ShoppingCart_.
Definition with_items (self : ShoppingCart) (d : odict.t nat) : ShoppingCart :=
  {| cart_user_id := cart_user_id self; _items := d |}.

(** [ShoppingCart.add_item] (cart.py:17); the key is the [id] attribute
    of the product object. *)
Definition add_item (self : ShoppingCart) (product : nat) (quantity : Z)
    : M Store ShoppingCart :=
  p <- load_product product ;;
  match odict.get (p_id p) (_items self) with
  | Some item =>
      CartItem_.increment item quantity ;;;
      ret self
  | None =>
      item <- new_item {| ci_product := product; ci_quantity := quantity |} ;;
      ret (with_items self (odict.set (p_id p) item (_items self)))
  end.

(** [ShoppingCart.remove_item] (cart.py:23) *)
Definition remove_item (self : ShoppingCart) (product_id : string) (quantity : Z)
    : M Store ShoppingCart :=
  match odict.get product_id (_items self) with
  | None => ret self
  | Some item =>
      i <- load_item item ;;
      let q := ci_quantity i - quantity in
      modify (set_item_objs (fun h =>
        <[item := {| ci_product := ci_product i; ci_quantity := q |}]> h)) ;;;
      if q <=? 0 then ret (with_items self (odict.del product_id (_items self)))
      else ret self
  end.

(** [ShoppingCart.clear] (cart.py:31) *)
Definition clear (self : ShoppingCart) : ShoppingCart := with_items self [].

(** [ShoppingCart.items] (cart.py:34) *)
Definition items (self : ShoppingCart) : list nat := odict.values (_items self).

(** [ShoppingCart.total] (cart.py:38) *)
Definition total (s : Store) (self : ShoppingCart) : result Decimal :=
  sum_line_totals s (dec_of_int 0) (odict.values (_items self)).

(** [ShoppingCart.is_empty] (cart.py:41) *)
Definition is_empty (self : ShoppingCart) : bool :=
  match _items self with [] => true | _ => false end.
End ShoppingCart_.

(** ** payments.py *)

(** What one call of a strategy's [pay] draws from the environment:
    [uuid.uuid4().hex] and [secrets.randbelow(900000)]. *)
Record Entropy : Type := {
  uuid_hex : string;
  randbelow : Z }.

(** [PaymentStrategy] (payments.py:18) is the interface of the payment
    methods: its attributes [name] and [requires_confirmation] and its
    methods [pay] and [complete].  [pay] reads the [id] and the [subtotal]
    of the order; [complete] returns the receipt it was given, updated, or
    raises. *)
Record PaymentStrategy : Type := {
  strategy_name : string;
  strategy_requires_confirmation : bool;
  strategy_pay : Entropy -> string -> Decimal -> PaymentReceipt;
  strategy_complete : PaymentReceipt -> gmap string pyval -> result PaymentReceipt }.

(** [PaymentStrategy.complete] (payments.py:26), inherited by the
    strategies that do not override it. *)
Definition base_complete (r : PaymentReceipt) (kw : gmap string pyval)
    : result PaymentReceipt := Raise PaymentError.

Module CardPayment.
(** [CardPayment.pay] (payments.py:36) *)
Definition pay (name processor : string) (e : Entropy) (order_id : string)
    (subtotal : Decimal) : PaymentReceipt :=
  let reference := processor +:+ "-" +:+ String.substring 0 8 (uuid_hex e) in
  let otp := pretty (randbelow e + 100000) in
  let metadata : gmap string pyval :=
    <["otp" := PyStr otp]> (<["challenge" := PyStr "otp"]>
      (<["processor" := PyStr processor]> ∅)) in
  {| r_order_id := order_id; r_method := name; r_amount := subtotal;
     r_reference := reference; r_status := PaymentStatus.PENDING;
     r_metadata := metadata |}.

(** [CardPayment.complete] (payments.py:49) *)
Definition complete (receipt : PaymentReceipt) (kw : gmap string pyval)
    : result PaymentReceipt :=
  let otp := kw_get "otp" kw in
  if negb (py_eqb otp (default PyNone (r_metadata receipt !! "otp"))) then
    Ok (with_receipt_status receipt PaymentStatus.FAILED)
  else
    let receipt := with_receipt_status receipt PaymentStatus.SUCCESS in
    let receipt := with_receipt_metadata receipt
                     (<["verified_at" := PyStr "otp"]> (r_metadata receipt)) in
    let receipt := with_receipt_metadata receipt
                     (delete "otp" (r_metadata receipt)) in
    Ok receipt.

Definition make (name processor : string) (requires_confirmation : bool)
    : PaymentStrategy :=
  {| strategy_name := name;
     strategy_requires_confirmation := requires_confirmation;
     strategy_pay := pay name processor; strategy_complete := complete |}.
End CardPayment.

Module BankTransferPayment.
(** [BankTransferPayment.pay] (payments.py:66) *)
Definition pay (name bank_name : string) (e : Entropy) (order_id : string)
    (subtotal : Decimal) : PaymentReceipt :=
  let reference := "NEFT-" +:+ String.substring 0 6 (uuid_hex e) in
  {| r_order_id := order_id; r_method := name; r_amount := subtotal;
     r_reference := reference; r_status := PaymentStatus.PENDING;
     r_metadata := <["bank" := PyStr bank_name]> ∅ |}.

(** [BankTransferPayment.complete] (payments.py:77) *)
Definition complete (receipt : PaymentReceipt) (kw : gmap string pyval)
    : result PaymentReceipt :=
  let receipt := with_receipt_status receipt PaymentStatus.SUCCESS in
  Ok (with_receipt_metadata receipt
        (<["bank_ack" := kw_get_default "transaction_id" (PyStr "manual") kw]>
           (r_metadata receipt))).

Definition make (name bank_name : string) (requires_confirmation : bool)
    : PaymentStrategy :=
  {| strategy_name := name;
     strategy_requires_confirmation := requires_confirmation;
     strategy_pay := pay name bank_name; strategy_complete := complete |}.
End BankTransferPayment.

Module UpiPayment.
(** [UpiPayment.pay] (payments.py:88) *)
Definition pay (name handle : string) (e : Entropy) (order_id : string)
    (subtotal : Decimal) : PaymentReceipt :=
  let reference := "UPI-" +:+ String.substring 0 10 (uuid_hex e) in
  {| r_order_id := order_id; r_method := name; r_amount := subtotal;
     r_reference := reference; r_status := PaymentStatus.SUCCESS;
     r_metadata := <["handle" := PyStr handle]> ∅ |}.

(** [requires_confirmation] is the class attribute of the base class. *)
Definition make (name handle : string) : PaymentStrategy :=
  {| strategy_name := name;
     strategy_requires_confirmation := false;
     strategy_pay := pay name handle; strategy_complete := base_complete |}.
End UpiPayment.

Module CashOnDeliveryPayment.
(** [CashOnDeliveryPayment.pay] (payments.py:105) *)
Definition pay (name : string) (e : Entropy) (order_id : string)
    (subtotal : Decimal) : PaymentReceipt :=
  let reference := "COD-" +:+ String.substring 0 5 (uuid_hex e) in
  {| r_order_id := order_id; r_method := name; r_amount := subtotal;
     r_reference := reference; r_status := PaymentStatus.PENDING;
     r_metadata := <["instructions" := PyStr "Collect cash on delivery"]> ∅ |}.

(** [CashOnDeliveryPayment.complete] (payments.py:116) *)
Definition complete (receipt : PaymentReceipt) (kw : gmap string pyval)
    : result PaymentReceipt :=
  let delivered := kw_get_default "delivered" (PyBool false) kw in
  Ok (with_receipt_status receipt
        (if py_truthy delivered then PaymentStatus.SUCCESS
         else PaymentStatus.FAILED)).

Definition make (name : string) (requires_confirmation : bool)
    : PaymentStrategy :=
  {| strategy_name := name;
     strategy_requires_confirmation := requires_confirmation;
     strategy_pay := pay name; strategy_complete := complete |}.
End CashOnDeliveryPayment.

(** [PaymentProcessor] (payments.py:122) *)
Record PaymentProcessor : Type := {
  _strategies : gmap string PaymentStrategy;
  _transactions : gmap string PaymentReceipt }.

Module PaymentProcessor_.
Definition init : PaymentProcessor :=
  {| _strategies := ∅; _transactions := ∅ |}.

Definition set_strategies (f : gmap string PaymentStrategy -> gmap string PaymentStrategy)
    (self : PaymentProcessor) : PaymentProcessor :=
  {| _strategies := f (_strategies self); _transactions := _transactions self |}.

Definition set_transactions (f : gmap string PaymentReceipt -> gmap string PaymentReceipt)
    (self : PaymentProcessor) : PaymentProcessor :=
  {| _strategies := _strategies self; _transactions := f (_transactions self) |}.

(** [PaymentProcessor.register] (payments.py:127) *)
Definition register (strategy : PaymentStrategy) : M PaymentProcessor unit :=
  modify (set_strategies (fun m => <[strategy_name strategy := strategy]> m)).

(** [PaymentProcessor.remove] (payments.py:130) *)
Definition remove (name : string) : M PaymentProcessor unit :=
  modify (set_strategies (fun m => delete name m)).

(** [PaymentProcessor.pay] (payments.py:136).  [subtotal] is the value of
    [order.subtotal], which the strategy evaluates after it has been
    looked up. *)
Definition pay (e : Entropy) (method : string) (order_id : string)
    (subtotal : result Decimal) : M PaymentProcessor PaymentReceipt :=
  strategy <- gets (fun self => _strategies self !! method) ;;
  match strategy with
  | None => raise PaymentError
  | Some strategy =>
      amount <- of_result subtotal ;;
      let receipt := strategy_pay strategy e order_id amount in
      modify (set_transactions (fun m => <[r_reference receipt := receipt]> m)) ;;;
      ret receipt
  end.

(** [PaymentProcessor.complete] (payments.py:144) *)
Definition complete (reference : string) (kw : gmap string pyval)
    : M PaymentProcessor PaymentReceipt :=
  receipt <- gets (fun self => _transactions self !! reference) ;;
  match receipt with
  | None => raise PaymentError
  | Some receipt =>
      strategy <- gets (fun self => _strategies self !! r_method receipt) ;;
      match strategy with
      | None => raise PaymentError
      | Some strategy =>
          if negb (strategy_requires_confirmation strategy) then raise PaymentError
          else
            match strategy_complete strategy receipt kw with
            | Raise e => raise e
            | Ok updated =>
                modify (set_transactions (fun m => <[reference := updated]> m)) ;;;
                ret updated
            end
      end
  end.

(** [PaymentProcessor.get_receipt] (payments.py:155) *)
Definition get_receipt (reference : string) : M PaymentProcessor PaymentReceipt :=
  receipt <- gets (fun self => _transactions self !! reference) ;;
  match receipt with
  | None => raise PaymentError
  | Some receipt => ret receipt
  end.
End PaymentProcessor_.

(** ** users.py (registration of failures, lock-out, login, unlock)

    A [datetime] is a number of microseconds, and so is a [timedelta].
    [role] is [None] for an instance of the base class [User], which has no
    such attribute; the subclasses set it. *)

Record User : Type := {
  username : string;
  full_name : string;
  _password_hash : string;
  active : bool;
  failed_attempts : Z;
  locked_until : option Z;
  user_id : string;
  role : option string }.

(** [hashed.split("$", 1)] when it yields two parts. *)
Fixpoint split_dollar (hashed : string) : option (string * string) :=
  match hashed with
  | EmptyString => None
  | String c rest =>
      if Ascii.eqb c "$"%char then Some (EmptyString, rest)
      else match split_dollar rest with
           | Some (salt, digest) => Some (String c salt, digest)
           | None => None
           end
  end.

Module User_.
Definition with_lock (self : User) (n : Z) (l : option Z) : User :=
  {| username := username self; full_name := full_name self;
     _password_hash := _password_hash self; active := active self;
     failed_attempts := n; locked_until := l;
     user_id := user_id self; role := role self |}.

(** [User.is_locked] (users.py:53) *)
Definition is_locked (now : Z) (self : User) : bool :=
  match locked_until self with
  | Some t => now <? t
  | None => false
  end.

(** [User.register_failed_login] (users.py:57) *)
Definition register_failed_login (now : Z) (self : User)
    (max_attempts : Z) (lock_duration : Z) : User :=
  let n := failed_attempts self + 1 in
  if max_attempts <=? n then with_lock self 0 (Some (now + lock_duration))
  else with_lock self n (locked_until self).

(** [User.reset_lock] (users.py:63) *)
Definition reset_lock (self : User) : User := with_lock self 0 None.
End User_.

(** [require_admin] (users.py:196) *)
Definition require_admin {St} (user : User) : M St unit :=
  match role user with
  | Some "admin"%string => ret tt
  | _ => raise AuthorizationError
  end.

Record AuthService : Type := {
  _users : gmap string User;
  _sessions : gmap string string }.

Section AuthService.
(** [hashlib.sha256(s.encode("utf-8")).hexdigest()] *)
Variable sha256_hexdigest : string -> string.

(** [_hash_password] (users.py:21), the salt given or drawn. *)
Definition _hash_password (password salt : string) : string :=
  salt +:+ "$" +:+ sha256_hexdigest (salt +:+ ":" +:+ password).

(** [_verify_password] (users.py:27); unpacking a hash without ["$"]
    raises [ValueError]; [secrets.compare_digest] is equality. *)
Definition _verify_password (password hashed : string) : result bool :=
  match split_dollar hashed with
  | Some (salt, digest) =>
      Ok (String.eqb (sha256_hexdigest (salt +:+ ":" +:+ password)) digest)
  | None => Raise ValueError
  end.

(** [User.verify_password] (users.py:43) *)
Definition verify_password (self : User) (password : string) : result bool :=
  _verify_password password (_password_hash self).

Definition MAX_FAILED_ATTEMPTS : Z := 5.
Definition LOCK_DURATION : Z := 15 * 60 * 1000000.

Definition set_users (f : gmap string User -> gmap string User)
    (self : AuthService) : AuthService :=
  {| _users := f (_users self); _sessions := _sessions self |}.

Definition set_sessions (f : gmap string string -> gmap string string)
    (self : AuthService) : AuthService :=
  {| _users := _users self; _sessions := f (_sessions self) |}.

(** [AuthService.login] (users.py:111).  [now] is the clock read by
    [is_locked], [now'] the one read by [register_failed_login], [token]
    the value of [secrets.token_urlsafe(24)]. *)
Definition login (now now' : Z) (token : string) (username password : string)
    : M AuthService string :=
  user <- gets (fun self => _users self !! username) ;;
  match user with
  | None => raise AuthenticationError
  | Some user =>
      if negb (active user) then raise AuthenticationError
      else if User_.is_locked now user then raise AuthenticationError
      else
        match verify_password user password with
        | Raise e => raise e
        | Ok false =>
            modify (set_users (fun m =>
              <[username := User_.register_failed_login now' user
                               MAX_FAILED_ATTEMPTS LOCK_DURATION]> m)) ;;;
            raise AuthenticationError
        | Ok true =>
            modify (set_users (fun m => <[username := User_.reset_lock user]> m)) ;;;
            modify (set_sessions (fun m => <[token := user_id user]> m)) ;;;
            ret token
        end
  end.

(** [AuthService.logout] (users.py:127) *)
Definition logout (token : string) : M AuthService unit :=
  modify (set_sessions (fun m => delete token m)).

(** [AuthService.unlock_user] (users.py:172) *)
Definition unlock_user (username : string) (acting_user : User)
    : M AuthService unit :=
  require_admin acting_user ;;;
  user <- gets (fun self => _users self !! username) ;;
  match user with
  | None => raise AuthenticationError
  | Some user =>
      modify (set_users (fun m => <[username := User_.reset_lock user]> m))
  end.
End AuthService.

(** ** platform.py

    [auth_service] is a field of the platform that none of its methods
    uses; it is kept apart, as [AuthService] above. *)

Record ECommercePlatform : Type := {
  payment_processor : PaymentProcessor;
  categories : gmap string Category;
  products : odict.t nat;
  carts : gmap string ShoppingCart;
  orders : odict.t Order;
  store : Store }.

Definition set_payment_processor (f : PaymentProcessor -> PaymentProcessor)
    (s : ECommercePlatform) : ECommercePlatform :=
  {| payment_processor := f (payment_processor s); categories := categories s;
     products := products s; carts := carts s; orders := orders s;
     store := store s |}.

Definition set_categories (f : gmap string Category -> gmap string Category)
    (s : ECommercePlatform) : ECommercePlatform :=
  {| payment_processor := payment_processor s; categories := f (categories s);
     products := products s; carts := carts s; orders := orders s;
     store := store s |}.

Definition set_products (f : odict.t nat -> odict.t nat)
    (s : ECommercePlatform) : ECommercePlatform :=
  {| payment_processor := payment_processor s; categories := categories s;
     products := f (products s); carts := carts s; orders := orders s;
     store := store s |}.

Definition set_carts (f : gmap string ShoppingCart -> gmap string ShoppingCart)
    (s : ECommercePlatform) : ECommercePlatform :=
  {| payment_processor := payment_processor s; categories := categories s;
     products := products s; carts := f (carts s); orders := orders s;
     store := store s |}.

Definition set_orders (f : odict.t Order -> odict.t Order)
    (s : ECommercePlatform) : ECommercePlatform :=
  {| payment_processor := payment_processor s; categories := categories s;
     products := products s; carts := carts s; orders := f (orders s);
     store := store s |}.

Definition set_store (f : Store -> Store)
    (s : ECommercePlatform) : ECommercePlatform :=
  {| payment_processor := payment_processor s; categories := categories s;
     products := products s; carts := carts s; orders := orders s;
     store := f (store s) |}.

(** A method of an object held in a field runs on that field. *)
Definition on_store {A} (m : M Store A) : M ECommercePlatform A :=
  fun s => let '(r, st) := m (store s) in (r, set_store (fun _ => st) s).

Definition on_processor {A} (m : M PaymentProcessor A) : M ECommercePlatform A :=
  fun s =>
    let '(r, pp) := m (payment_processor s) in
    (r, set_payment_processor (fun _ => pp) s).

(** [_require_admin] (platform.py:26) reads the attribute directly. *)
Definition _require_admin {St} (user : User) : M St unit :=
  match role user with
  | None => raise AttributeError
  | Some r => if String.eqb r "admin" then ret tt else raise AuthorizationError
  end.

(** [item.product.adjust_stock(item.quantity)], the body of the two
    restocking loops (platform.py:132 and platform.py:155). *)
Definition restock_item (item : nat) : M Store unit :=
  i <- load_item item ;;
  Product_.adjust_stock (ci_product i) (ci_quantity i).

Definition has_reference (reference : string) (o : Order) : bool :=
  bool_decide (o_payment_reference o = Some reference).

(** ** storage.py (what is written, and what a later process loads)

    [PlatformStorage] keeps one JSON file with the dictionaries of the
    users, the categories, the products and the orders; the receipts of
    the payment processor are not among them.  A payload keeps the
    fields that the model of the object has.  A decimal is written as
    the text [format(value, "f")] and read back by [Decimal(text)]: the
    payload holds the decimal that the text denotes.  The dictionary of
    the users belongs to [AuthService] and is left out. *)

Record ProductPayload : Type := {
  pl_id : string;
  pl_name : string;
  pl_price : Decimal;
  pl_stock : Z;
  pl_category_id : string;
  pl_description : string;
  pl_metadata : gmap string string }.

(** The items of an order are written as pairs of a product id and a
    quantity; the subtotal is written and never read. *)
Record OrderPayload : Type := {
  ol_id : string;
  ol_user_id : string;
  ol_items : list (string * Z);
  ol_status : OrderStatus.t;
  ol_payment_reference : option string;
  ol_subtotal : Decimal }.

Record Snapshot : Type := {
  snap_categories : gmap string Category;
  snap_products : odict.t ProductPayload;
  snap_orders : odict.t OrderPayload }.

Definition _serialize_decimal (value : Decimal) : Decimal := dec_reparse value.

Definition _deserialize_decimal (value : Decimal) : Decimal := value.

Definition _serialize_product (product : Product) : ProductPayload :=
  {| pl_id := p_id product; pl_name := p_name product;
     pl_price := _serialize_decimal (p_price product);
     pl_stock := p_stock product; pl_category_id := p_category_id product;
     pl_description := p_description product;
     pl_metadata := p_metadata product |}.

Definition _deserialize_product (payload : ProductPayload) : Product :=
  {| p_id := pl_id payload; p_name := pl_name payload;
     p_price := _deserialize_decimal (pl_price payload);
     p_stock := pl_stock payload; p_category_id := pl_category_id payload;
     p_description := pl_description payload;
     p_metadata := pl_metadata payload |}.

Definition _serialize_cart_item (item : nat) : M Store (string * Z) :=
  i <- load_item item ;;
  p <- load_product (ci_product i) ;;
  ret (p_id p, ci_quantity i).

(** [_serialize_order] (storage.py:84) evaluates [order.subtotal]. *)
Definition _serialize_order (order : Order) : M Store OrderPayload :=
  items <- collect (o_items order) _serialize_cart_item ;;
  subtotal <- (fun st => of_result (Order_.subtotal st order) st) ;;
  ret {| ol_id := o_id order; ol_user_id := o_user_id order;
         ol_items := items; ol_status := o_status order;
         ol_payment_reference := o_payment_reference order;
         ol_subtotal := _serialize_decimal subtotal |}.

(** [_deserialize_order] (storage.py:97): a new [CartItem] for every
    pair, its product looked up by [products[product_id]]. *)
Definition _deserialize_order (payload : OrderPayload) (products : odict.t nat)
    : M Store Order :=
  items <- collect (ol_items payload) (fun item_payload =>
             match odict.get item_payload.1 products with
             | None => raise KeyError
             | Some product =>
                 new_item {| ci_product := product;
                             ci_quantity := item_payload.2 |}
             end) ;;
  ret {| o_id := ol_id payload; o_user_id := ol_user_id payload;
         o_items := items; o_status := ol_status payload;
         o_payment_reference := ol_payment_reference payload |}.

Module PlatformStorage.
(** The file that [PlatformStorage.__init__] (storage.py:151) writes
    when there is none. *)
Definition init : Snapshot :=
  {| snap_categories := ∅; snap_products := []; snap_orders := [] |}.

(** [load_catalog] (storage.py:177) *)
Definition load_catalog (snapshot : Snapshot)
    : M Store (gmap string Category * odict.t nat) :=
  products <- collect (snap_products snapshot) (fun entry =>
                product <- new_product (_deserialize_product entry.2) ;;
                ret (entry.1, product)) ;;
  ret (snap_categories snapshot, products).

(** [load_orders] (storage.py:187) *)
Definition load_orders (snapshot : Snapshot) (products : odict.t nat)
    : M Store (odict.t Order) :=
  collect (snap_orders snapshot) (fun entry =>
    order <- _deserialize_order entry.2 products ;;
    ret (entry.1, order)).

(** [persist_catalog] (storage.py:198) and [persist_orders]
    (storage.py:204): the file is the state; [st] is the object store in
    which the references of the dictionaries are read.  The file is
    written when all payloads have been built. *)
Definition persist_catalog (categories : gmap string Category)
    (products : odict.t nat) (st : Store) : M Snapshot unit :=
  payloads <- of_result
                (collect products (fun entry =>
                   product <- load_product entry.2 ;;
                   ret (entry.1, _serialize_product product)) st).1 ;;
  modify (fun snapshot =>
    {| snap_categories := categories; snap_products := payloads;
       snap_orders := snap_orders snapshot |}).

Definition persist_orders (orders : odict.t Order) (st : Store)
    : M Snapshot unit :=
  payloads <- of_result
                (collect orders (fun entry =>
                   payload <- _serialize_order entry.2 ;;
                   ret (entry.1, payload)) st).1 ;;
  modify (fun snapshot =>
    {| snap_categories := snap_categories snapshot;
       snap_products := snap_products snapshot;
       snap_orders := payloads |}).
End PlatformStorage.

Module ECommercePlatform_.
(** [__post_init__] (platform.py:41): the catalog and the orders of the
    storage are loaded into the new platform.  Nothing is loaded into
    the payment processor. *)
Definition __post_init__ (storage : option Snapshot) : M ECommercePlatform unit :=
  match storage with
  | None => ret tt
  | Some snapshot =>
      catalog <- on_store (PlatformStorage.load_catalog snapshot) ;;
      modify (set_categories (fun m => catalog.1 ∪ m)) ;;;
      modify (set_products (odict.update catalog.2)) ;;;
      products <- gets products ;;
      loaded <- on_store (PlatformStorage.load_orders snapshot products) ;;
      modify (set_orders (odict.update loaded))
  end.

(** [_persist_catalog] (platform.py:160) and [_persist_orders]
    (platform.py:164) of a platform with a storage, in the state [s]. *)
Definition _persist_catalog (s : ECommercePlatform) : M Snapshot unit :=
  PlatformStorage.persist_catalog (categories s) (products s) (store s).

Definition _persist_orders (s : ECommercePlatform) : M Snapshot unit :=
  PlatformStorage.persist_orders (orders s) (store s).

(** [create_category] (platform.py:49); [id] is the fresh uuid. *)
Definition create_category (id : string) (name description : string)
    (acting_user : User) : M ECommercePlatform Category :=
  _require_admin acting_user ;;;
  let category :=
    {| cat_id := id; cat_name := name; cat_description := description |} in
  modify (set_categories (fun m => <[cat_id category := category]> m)) ;;;
  ret category.

(** [delete_category] (platform.py:56); the loop runs over a copy of the
    values taken before it starts. *)
Definition delete_category (category_id : string) (acting_user : User)
    : M ECommercePlatform unit :=
  _require_admin acting_user ;;;
  modify (set_categories (fun m => delete category_id m)) ;;;
  snapshot <- gets (fun s => odict.values (products s)) ;;
  for_each snapshot (fun product =>
    p <- on_store (load_product product) ;;
    if String.eqb (p_category_id p) category_id then
      present <- gets (fun s => odict.mem (p_id p) (products s)) ;;
      if present then modify (set_products (odict.del (p_id p)))
      else raise KeyError
    else ret tt).

(** [add_product] (platform.py:66); [id] is the fresh uuid. *)
Definition add_product (id : string) (name : string) (price : Decimal)
    (stock : Z) (category_id : string) (acting_user : User)
    (description : string) : M ECommercePlatform nat :=
  _require_admin acting_user ;;;
  known <- gets (fun s => bool_decide (is_Some (categories s !! category_id))) ;;
  if negb known then raise NotFoundError
  else
    product <- on_store (new_product
      {| p_id := id; p_name := name; p_price := price; p_stock := stock;
         p_category_id := category_id; p_description := description;
         p_metadata := ∅ |}) ;;
    modify (set_products (odict.set id product)) ;;;
    ret product.

(** [remove_product] (platform.py:89) *)
Definition remove_product (product_id : string) (acting_user : User)
    : M ECommercePlatform unit :=
  _require_admin acting_user ;;;
  modify (set_products (odict.del product_id)).

(** [get_cart] (platform.py:95) *)
Definition get_cart (user_id : string) : M ECommercePlatform ShoppingCart :=
  cart <- gets (fun s => carts s !! user_id) ;;
  match cart with
  | Some cart => ret cart
  | None =>
      let cart := {| cart_user_id := user_id; _items := [] |} in
      modify (set_carts (fun m => <[user_id := cart]> m)) ;;;
      ret cart
  end.

(** [add_to_cart] (platform.py:100) *)
Definition add_to_cart (user_id product_id : string) (quantity : Z)
    : M ECommercePlatform unit :=
  product <- gets (fun s => odict.get product_id (products s)) ;;
  match product with
  | None => raise NotFoundError
  | Some product =>
      p <- on_store (load_product product) ;;
      if p_stock p <? quantity then raise ValueError
      else
        on_store (Product_.adjust_stock product (- quantity)) ;;;
        cart <- get_cart user_id ;;
        cart <- on_store (ShoppingCart_.add_item cart product quantity) ;;
        modify (set_carts (fun m => <[user_id := cart]> m))
  end.

(** [remove_from_cart] (platform.py:111) *)
Definition remove_from_cart (user_id product_id : string) (quantity : Z)
    : M ECommercePlatform unit :=
  cart <- get_cart user_id ;;
  cart <- on_store (ShoppingCart_.remove_item cart product_id quantity) ;;
  modify (set_carts (fun m => <[user_id := cart]> m)) ;;;
  product <- gets (fun s => odict.get product_id (products s)) ;;
  match product with
  | Some product => on_store (Product_.adjust_stock product quantity)
  | None => ret tt
  end.

(** [checkout] (platform.py:120); [id] is the fresh uuid of the order and
    [e] what the payment strategy draws. *)
Definition checkout (id : string) (e : Entropy) (user_id payment_method : string)
    : M ECommercePlatform Order :=
  cart <- get_cart user_id ;;
  if ShoppingCart_.is_empty cart then raise ValueError
  else
    let order :=
      {| o_id := id; o_user_id := user_id; o_items := ShoppingCart_.items cart;
         o_status := OrderStatus.CREATED; o_payment_reference := None |} in
    subtotal <- gets (fun s => Order_.subtotal (store s) order) ;;
    receipt <- on_processor
                 (PaymentProcessor_.pay e payment_method (o_id order) subtotal) ;;
    order <-
      match r_status receipt with
      | PaymentStatus.SUCCESS =>
          ret (Order_.mark_paid order (r_reference receipt))
      | PaymentStatus.FAILED =>
          let order := Order_.with_status order OrderStatus.FAILED in
          let order :=
            Order_.with_payment_reference order (Some (r_reference receipt)) in
          on_store (for_each (o_items order) restock_item) ;;;
          ret order
      | PaymentStatus.PENDING =>
          ret (Order_.with_payment_reference order (Some (r_reference receipt)))
      end ;;
    modify (set_orders (odict.set (o_id order) order)) ;;;
    modify (set_carts (fun m => <[user_id := ShoppingCart_.clear cart]> m)) ;;;
    ret order.

(** [list_orders] (platform.py:141) *)
Definition list_orders (acting_user : User) : M ECommercePlatform (list Order) :=
  _require_admin acting_user ;;;
  gets (fun s => odict.values (orders s)).

(** [confirm_payment] (platform.py:145).  The order found is an object
    of the dictionary: what is assigned to it is visible there at once. *)
Definition confirm_payment (reference : string) (kw : gmap string pyval)
    : M ECommercePlatform Order :=
  receipt <- on_processor (PaymentProcessor_.complete reference kw) ;;
  order <- gets (fun s => odict.find_value (has_reference reference) (orders s)) ;;
  match order with
  | None => raise NotFoundError
  | Some order =>
      if PaymentStatus.eqb (r_status receipt) PaymentStatus.SUCCESS then
        modify (set_orders (odict.alter_first (has_reference reference)
                              (fun o => Order_.mark_paid o reference))) ;;;
        ret (Order_.mark_paid order reference)
      else
        modify (set_orders (odict.alter_first (has_reference reference)
                              (fun o => Order_.with_status o OrderStatus.FAILED))) ;;;
        on_store (for_each (o_items order) restock_item) ;;;
        ret (Order_.with_status order OrderStatus.FAILED)
  end.

(** [bootstrap_platform] (platform.py:169) over the file that
    [PlatformStorage] writes when there is none, and without the two
    default users. *)
Definition bootstrap_platform : ECommercePlatform :=
  let register st pp := snd (PaymentProcessor_.register st pp) in
  {| payment_processor :=
       register (CashOnDeliveryPayment.make "cod" true)
         (register (UpiPayment.make "upi" "merchant@upi")
            (register (BankTransferPayment.make "bank_transfer" "Demo Bank" true)
               (register (CardPayment.make "card" "VISA" true)
                  PaymentProcessor_.init)));
     categories := ∅; products := []; carts := ∅; orders := [];
     store := {| product_objs := []; item_objs := [] |} |}.

(** [bootstrap_platform] over a file that holds [snapshot]: the payment
    processor is new, and [__post_init__] loads the file.  There is no
    platform when loading raises. *)
Definition bootstrap_platform_from (snapshot : Snapshot)
    : result ECommercePlatform :=
  match __post_init__ (Some snapshot) bootstrap_platform with
  | (Ok _, s) => Ok s
  | (Raise e, _) => Raise e
  end.
End ECommercePlatform_.

(** ** The operations of the core as data

    One constructor per operation that the UI and API layers call, with
    the arguments of the call and what the call draws from the
    environment. *)

Inductive op : Type :=
  | CreateCategory (id name description : string) (acting_user : User)
  | DeleteCategory (category_id : string) (acting_user : User)
  | AddProduct (id name : string) (price : Decimal) (stock : Z)
      (category_id : string) (acting_user : User) (description : string)
  | RemoveProduct (product_id : string) (acting_user : User)
  | GetCart (user_id : string)
  | AddToCart (user_id product_id : string) (quantity : Z)
  | RemoveFromCart (user_id product_id : string) (quantity : Z)
  | Checkout (id : string) (e : Entropy) (user_id payment_method : string)
  | ListOrders (acting_user : User)
  | ConfirmPayment (reference : string) (kw : gmap string pyval)
  | GetReceipt (reference : string).

Definition discard {St A} (m : M St A) : M St unit := m ;;; ret tt.

Definition run (o : op) : M ECommercePlatform unit :=
  match o with
  | CreateCategory id name description u =>
      discard (ECommercePlatform_.create_category id name description u)
  | DeleteCategory c u => ECommercePlatform_.delete_category c u
  | AddProduct id name price stock c u d =>
      discard (ECommercePlatform_.add_product id name price stock c u d)
  | RemoveProduct p u => ECommercePlatform_.remove_product p u
  | GetCart u => discard (ECommercePlatform_.get_cart u)
  | AddToCart u p q => ECommercePlatform_.add_to_cart u p q
  | RemoveFromCart u p q => ECommercePlatform_.remove_from_cart u p q
  | Checkout id e u m => discard (ECommercePlatform_.checkout id e u m)
  | ListOrders u => discard (ECommercePlatform_.list_orders u)
  | ConfirmPayment r kw => discard (ECommercePlatform_.confirm_payment r kw)
  | GetReceipt r => discard (on_processor (PaymentProcessor_.get_receipt r))
  end.

(** The state an operation leaves, whether it returned or raised. *)
Definition exec (o : op) (s : ECommercePlatform) : ECommercePlatform :=
  snd (run o s).

Definition exec_all (l : list op) (s : ECommercePlatform) : ECommercePlatform :=
  fold_left (fun s o => exec o s) l s.

(** The four operations on carts and orders. *)
Definition cart_or_order_op (o : op) : bool :=
  match o with
  | AddToCart _ _ _ | RemoveFromCart _ _ _ | Checkout _ _ _ _
  | ConfirmPayment _ _ => true
  | _ => false
  end.

(** ** Properties of states *)

(** The stock of the product object at address [a]. *)
Definition stock_at (s : ECommercePlatform) (a : nat) : option Z :=
  p_stock <$> product_objs (store s) !! a.

(** The stock of the catalog product [product_id]. *)
Definition stock_of (s : ECommercePlatform) (product_id : string) : option Z :=
  match odict.get product_id (products s) with
  | Some a => stock_at s a
  | None => None
  end.

Definition stock_nonneg_store (st : Store) : Prop :=
  Forall (fun p => 0 <= p_stock p) (product_objs st).

(** Every product object has a non-negative stock. *)
Definition stock_nonneg (s : ECommercePlatform) : Prop :=
  stock_nonneg_store (store s).

(** The cart of a user as [get_cart] shows it. *)
Definition cart_of (s : ECommercePlatform) (user_id : string) : odict.t nat :=
  match carts s !! user_id with
  | Some cart => _items cart
  | None => []
  end.

(** *** Well-formed states

    A Python reference always points to an object.  In the model a
    reference is an address, so this has to be said: every address held
    by the catalog, by a cart, by an order or by a cart item is inside
    its heap. *)

Definition product_ref_ok (st : Store) (a : nat) : Prop :=
  (a < length (product_objs st))%nat.

Definition item_ref_ok (st : Store) (a : nat) : Prop :=
  (a < length (item_objs st))%nat.

Definition cart_refs (c : ShoppingCart) : list nat := odict.values (_items c).

Record refs_ok (s : ECommercePlatform) : Prop := {
  catalog_refs_ok : Forall (product_ref_ok (store s)) (odict.values (products s));
  item_refs_ok : Forall (fun i => product_ref_ok (store s) (ci_product i))
                   (item_objs (store s));
  carts_refs_ok : map_Forall (fun _ c => Forall (item_ref_ok (store s)) (cart_refs c))
                    (carts s);
  orders_refs_ok : Forall (fun o => Forall (item_ref_ok (store s)) (o_items o))
                     (odict.values (orders s)) }.

(** The [CartItem] objects of a stored order are referenced by no cart,
    and no two carts share a [CartItem]: [checkout] hands the items of the
    cart over to the order and empties the cart. *)
Record items_separated (s : ECommercePlatform) : Prop := {
  carts_apart : forall u v cu cv a,
    carts s !! u = Some cu -> carts s !! v = Some cv -> u <> v ->
    a ∈ cart_refs cu -> a ∉ cart_refs cv;
  orders_apart : forall u c o a,
    carts s !! u = Some c -> o ∈ odict.values (orders s) ->
    a ∈ cart_refs c -> a ∉ o_items o }.

Definition wf (s : ECommercePlatform) : Prop := refs_ok s /\ items_separated s.

(** [o] is one of the orders [loaded], but for its status: it has the
    id, the user, the items and the payment reference of that order. *)
Definition loaded_order (loaded : list Order) (o : Order) : Prop :=
  exists o0, o0 ∈ loaded /\
    o_id o = o_id o0 /\ o_user_id o = o_user_id o0 /\
    o_items o = o_items o0 /\
    o_payment_reference o = o_payment_reference o0.

(** [o] carries the reference of a stored receipt. *)
Definition has_receipt (s : ECommercePlatform) (o : Order) : Prop :=
  exists r, o_payment_reference o = Some r /\
            is_Some (_transactions (payment_processor s) !! r).

(** Every stored order is one of the orders [loaded] or carries the
    reference of a stored receipt. *)
Definition orders_have_receipts (loaded : list Order) (s : ECommercePlatform)
    : Prop :=
  Forall (fun o => loaded_order loaded o \/ has_receipt s o)
         (odict.values (orders s)).

(** An invariant of a computation: it holds in the state the computation
    leaves, returned or raised, when it held before. *)
Definition preserves {St A} (I : St -> Prop) (m : M St A) : Prop :=
  forall s, I s -> I (snd (m s)).

(** [wp m Q s]: running [m] from [s] ends, returned or raised, with a
    result and in a state that satisfy [Q]. *)
Definition wp {St A} (m : M St A) (Q : result A -> St -> Prop) (s : St) : Prop :=
  Q (m s).1 (m s).2.
Arguments wp : simpl never.

(** The postcondition of the first half of a [bind]: go on with the
    value, or hand the exception on. *)
Definition on_ok {St A} (Q : exn -> St -> Prop) (K : A -> St -> Prop)
    (r : result A) (s : St) : Prop :=
  match r with
  | Ok a => K a s
  | Raise e => Q e s
  end.

(** ** A small shop, as the tests of the repository set it up

    [tests/test_platform.py] creates a category and one product through
    the administrator of [bootstrap_platform]. *)

Definition test_admin : User :=
  {| username := "admin"; full_name := "Admin User"; _password_hash := "";
     active := true; failed_attempts := 0; locked_until := None;
     user_id := "admin-id"; role := Some "admin"%string |}.

Definition test_price : Decimal := Finite false 1500 (-2).

Definition test_entropy : Entropy :=
  {| uuid_hex := "0123456789abcdef0123456789abcdef"; randbelow := 23456 |}.

(** One category, one product ["novel"] at 15.00 with a stock of 5. *)
Definition test_shop : ECommercePlatform :=
  exec_all
    [CreateCategory "books" "Books" "All books" test_admin;
     AddProduct "novel" "Novel" test_price 5 "books" test_admin ""]
    ECommercePlatform_.bootstrap_platform.

(** A customer reserves two copies, checks out by card, the confirmation
    fails, and a removal with a negative quantity follows. *)
Definition test_ops : list op :=
  [AddToCart "alice" "novel" 2;
   Checkout "order-1" test_entropy "alice" "card";
   ConfirmPayment "VISA-01234567" (<["otp" := PyStr "000000"]> ∅);
   RemoveFromCart "alice" "novel" (-7)].

(** The shop after the card checkout, its payment pending, and after the
    confirmation with a wrong code. *)
Definition test_pending : ECommercePlatform := exec_all (take 2 test_ops) test_shop.
Definition test_failed : ECommercePlatform := exec_all (take 3 test_ops) test_shop.

(** The one-time code that [test_entropy] gives, and a wrong one. *)
Definition right_code : gmap string pyval := <["otp" := PyStr "123456"]> ∅.
Definition wrong_code : gmap string pyval := <["otp" := PyStr "000000"]> ∅.

Definition order_status (s : ECommercePlatform) (id : string) : option OrderStatus.t :=
  o_status <$> odict.get id (orders s).

Definition receipt_status (s : ECommercePlatform) (reference : string)
    : option PaymentStatus.t :=
  r_status <$> _transactions (payment_processor s) !! reference.

(** The quantities of the items of a cart, by key. *)
Definition cart_quantities (s : ECommercePlatform) (user_id : string)
    : list (string * option Z) :=
  map (fun kv => (kv.1, ci_quantity <$> item_objs (store s) !! kv.2))
      (cart_of s user_id).

(** The shop with two copies in the cart of alice. *)
Definition test_cart : ECommercePlatform := exec_all (take 1 test_ops) test_shop.

(** ** Login attempts as data *)

(** One call of [login]: the two readings of the clock, the token drawn
    and the credentials given. *)
Record attempt : Type := {
  at_now : Z;
  at_now' : Z;
  at_token : string;
  at_username : string;
  at_password : string }.

Definition try_login (sha256_hexdigest : string -> string) (a : attempt)
    : M AuthService string :=
  login sha256_hexdigest (at_now a) (at_now' a) (at_token a)
    (at_username a) (at_password a).

(** The service after a series of attempts, whatever their outcomes. *)
Definition after_attempts (sha256_hexdigest : string -> string)
    (l : list attempt) (s : AuthService) : AuthService :=
  fold_left (fun s a => (try_login sha256_hexdigest a s).2) l s.

(** When the lock set by the last of the attempts [l] runs out. *)
Definition lock_expiry (l : list attempt) : Z :=
  default 0 (at_now' <$> last l) + LOCK_DURATION.

(** What makes an attempt a failed login of the user [u] registered as
    [name]: it is made under that name, it is not turned away by a lock,
    and the password does not verify. *)
Definition failed_login (sha256_hexdigest : string -> string) (name : string)
    (u : User) (a : attempt) : Prop :=
  at_username a = name /\
  User_.is_locked (at_now a) u = false /\
  verify_password sha256_hexdigest u (at_password a) = Ok false.

(** *** A small user base for the examples

    [test_sha] stands in for SHA-256 where an example needs some function;
    the theorems hold for every function. *)
Definition test_sha (s : string) : string := s.

Definition test_alice : User :=
  {| username := "alice"; full_name := "Alice Customer";
     _password_hash := _hash_password test_sha "password" "salt";
     active := true; failed_attempts := 0; locked_until := None;
     user_id := "alice-id"; role := Some "customer"%string |}.

Definition test_auth : AuthService :=
  {| _users := <["alice" := test_alice]> (<["admin" := test_admin]> ∅);
     _sessions := ∅ |}.

Definition test_attempt (password : string) (t : Z) : attempt :=
  {| at_now := t; at_now' := t; at_token := "token";
     at_username := "alice"; at_password := password |}.

(** Five wrong passwords, then the right one while the lock lasts. *)
Definition test_fails : list attempt := map (test_attempt "wrong") [1; 2; 3; 4; 5].
Definition test_more : list attempt := [test_attempt "password" 6].

(** No cart and no order holds the [CartItem] at address [a]. *)
Definition unreferenced (s : ECommercePlatform) (a : nat) : Prop :=
  (forall u c, carts s !! u = Some c -> a ∉ cart_refs c) /\
  (forall o, o ∈ odict.values (orders s) -> a ∉ o_items o).

(** The store [st'] has every object of [st] still at its address, and
    each of its cart items refers to a product that exists. *)
Record store_extends (st st' : Store) : Prop := {
  extends_products : (length (product_objs st) <= length (product_objs st'))%nat;
  extends_items : (length (item_objs st) <= length (item_objs st'))%nat;
  extends_refs : Forall (fun i => product_ref_ok st' (ci_product i)) (item_objs st') }.

(** Between [st] and [st'] nothing but stock counts has changed. *)
Record stock_changed (st st' : Store) : Prop := {
  same_items : item_objs st' = item_objs st;
  same_products :
    Forall2 (fun p p' => exists n, p' = with_stock p n)
            (product_objs st) (product_objs st') }.

(** ** What an order shows of its items *)

(** [product.price = d] on the product object at address [a]: a plain
    attribute assignment, which the dataclass allows.  No operation of the
    core does it. *)
Definition set_price (a : nat) (d : Decimal) (s : ECommercePlatform)
    : ECommercePlatform :=
  set_store (set_product_objs (fun h =>
    match h !! a with
    | Some p => <[a := with_price p d]> h
    | None => h
    end)) s.

(** The subtotal of the order stored under [id], computed now: its
    value, or what its evaluation raises. *)
Definition order_subtotal (s : ECommercePlatform) (id : string)
    : option (result Decimal) :=
  match odict.get id (orders s) with
  | Some o => Some (Order_.subtotal (store s) o)
  | None => None
  end.

(** The item objects of an order, as they are now. *)
Definition order_items (s : ECommercePlatform) (o : Order) : list (option CartItem) :=
  map (fun a => item_objs (store s) !! a) (o_items o).

(** The item objects that no cart refers to are in [st'] what they are
    in [s]. *)
Definition items_kept (s : ECommercePlatform) (st' : Store) : Prop :=
  forall a i,
    item_objs (store s) !! a = Some i ->
    (forall u c, carts s !! u = Some c -> a ∉ cart_refs c) ->
    item_objs st' !! a = Some i.

(** The product objects of [st] are in [st'] what they were, up to their
    stock. *)
Definition prices_kept (st st' : Store) : Prop :=
  forall b p,
    product_objs st !! b = Some p ->
    exists n, product_objs st' !! b = Some (with_stock p n).

(** The operation stores a new order under the key [k]. *)
Definition reuses_id (k : string) (o : op) : bool :=
  match o with
  | Checkout id _ _ _ => String.eqb id k
  | _ => false
  end.

(** The shop after a paid checkout of one copy. *)
Definition test_paid : ECommercePlatform :=
  exec_all [AddToCart "alice" "novel" 1;
            Checkout "order-1" test_entropy "alice" "upi"] test_shop.

(** The order of [test_paid], and what happens in the shop afterwards. *)
Definition test_order : Order :=
  {| o_id := "order-1"; o_user_id := "alice"; o_items := [0%nat];
     o_status := OrderStatus.PAID;
     o_payment_reference := Some "UPI-0123456789"%string |}.

Definition test_later_ops : list op :=
  [AddToCart "bob" "novel" 2;
   RemoveFromCart "bob" "novel" 1;
   Checkout "order-2" test_entropy "bob" "card";
   ConfirmPayment "VISA-01234567" wrong_code;
   RemoveProduct "novel" test_admin].

(** ** users.py, the rest of [AuthService]

    The classes of users: [isinstance] asks for the class, which the
    record [User] does not carry. *)

Inductive user_class : Type :=
  | BaseUser
  | AdminUser
  | CustomerUser
  | SupportUser
  | FulfillmentUser.

(** [AuthService._resolve_user_class] (users.py:184), on the role found in
    the payload ([None] when the payload has no role). *)
Definition _resolve_user_class (payload_role : option string) : user_class :=
  let role := default "customer"%string payload_role in
  if String.eqb role "admin" then AdminUser
  else if String.eqb role "customer" then CustomerUser
  else if String.eqb role "support" then SupportUser
  else if String.eqb role "fulfillment" then FulfillmentUser
  else CustomerUser.

(** The service with its third dictionary, [_reset_tokens]: a token maps
    to the user name and the time the token expires. *)
Record AuthState : Type := {
  service : AuthService;
  _reset_tokens : gmap string (string * Z) }.

Definition set_service (f : AuthService -> AuthService) (self : AuthState) : AuthState :=
  {| service := f (service self); _reset_tokens := _reset_tokens self |}.

Definition set_reset_tokens
    (f : gmap string (string * Z) -> gmap string (string * Z))
    (self : AuthState) : AuthState :=
  {| service := service self; _reset_tokens := f (_reset_tokens self) |}.

Definition on_service {A} (m : M AuthService A) : M AuthState A :=
  fun self =>
    let '(r, sv) := m (service self) in (r, set_service (fun _ => sv) self).

Definition with_password_hash (self : User) (h : string) : User :=
  {| username := username self; full_name := full_name self;
     _password_hash := h; active := active self;
     failed_attempts := failed_attempts self; locked_until := locked_until self;
     user_id := user_id self; role := role self |}.

(** [timedelta(minutes=30)] *)
Definition RESET_WINDOW : Z := 30 * 60 * 1000000.

Section AuthServiceRest.
Variable sha256_hexdigest : string -> string.

(** [User.set_password] (users.py:50); [salt] is [secrets.token_hex(8)]. *)
Definition set_password (salt : string) (self : User) (password : string) : User :=
  with_password_hash self (_hash_password sha256_hexdigest password salt).

(** [AuthService.register_user] (users.py:103); [cls] is the class of
    [user]. *)
Definition register_user (cls : user_class) (user : User)
    (acting_user : option User) : M AuthService unit :=
  let is_admin_instance :=
    match cls with AdminUser => true | _ => false end in
  match (if is_admin_instance then acting_user else None) with
  | Some acting =>
      match role acting with
      | None => raise AttributeError
      | Some r =>
          if negb (String.eqb r "admin") then raise AuthorizationError
          else ret tt
      end
  | None => ret tt
  end ;;;
  known <- gets (fun self => bool_decide (is_Some (_users self !! username user))) ;;
  if known then raise ValueError
  else modify (set_users (fun m => <[username user := user]> m)).

(** [AuthService.resolve_user] (users.py:130).  [values] is
    [self._users.values()], the users in the order of the dictionary; an
    empty user id is false in the condition, like [None]. *)
Definition resolve_user (values : list User) (token : string)
    : M AuthService User :=
  user_id_ <- gets (fun self => _sessions self !! token) ;;
  match user_id_ with
  | None => raise AuthenticationError
  | Some uid =>
      if String.eqb uid "" then raise AuthenticationError
      else
        match List.find (fun user => String.eqb (user_id user) uid) values with
        | Some user => ret user
        | None => raise AuthenticationError
        end
  end.

(** [AuthService.get_user] (users.py:139) *)
Definition get_user (username : string) : M AuthService (option User) :=
  gets (fun self => _users self !! username).

(** [AuthService.delete_user] (users.py:142) *)
Definition delete_user (username_ : string) (acting_user : User)
    : M AuthService unit :=
  require_admin acting_user ;;;
  if String.eqb username_ (username acting_user) then raise AuthorizationError
  else modify (set_users (fun m => delete username_ m)).

(** [AuthService.request_password_reset] (users.py:152); [token] is
    [secrets.token_urlsafe(16)]. *)
Definition request_password_reset (now : Z) (token : string) (username_ : string)
    : M AuthState string :=
  user <- gets (fun self => _users (service self) !! username_) ;;
  match user with
  | None => raise AuthenticationError
  | Some _ =>
      modify (set_reset_tokens (fun m =>
        <[token := (username_, now + RESET_WINDOW)]> m)) ;;;
      ret token
  end.

(** [AuthService.reset_password] (users.py:161); [self._users[username]]
    raises [KeyError] when the user has gone. *)
Definition reset_password (now : Z) (salt : string) (token new_password : string)
    : M AuthState unit :=
  payload <- gets (fun self => _reset_tokens self !! token) ;;
  match payload with
  | None => raise AuthenticationError
  | Some (username_, expires_at) =>
      if expires_at <? now then raise AuthenticationError
      else
        user <- gets (fun self => _users (service self) !! username_) ;;
        match user with
        | None => raise KeyError
        | Some user =>
            let user := set_password salt user new_password in
            let user := User_.reset_lock user in
            modify (set_service (set_users (fun m => <[username_ := user]> m))) ;;;
            modify (set_reset_tokens (fun m => delete token m))
        end
  end.
End AuthServiceRest.

(** The users of the dictionary in some order. *)
Definition users_in_order (s : AuthService) (values : list User) : Prop :=
  values ≡ₚ (map_to_list (_users s)).*2.

(** No two users of the service have the same id. *)
Definition user_ids_unique (s : AuthService) : Prop :=
  forall n1 n2 u1 u2,
    _users s !! n1 = Some u1 -> _users s !! n2 = Some u2 ->
    user_id u1 = user_id u2 -> n1 = n2.

(** The string has no ["$"] in it, as the hexadecimal salts that
    [secrets.token_hex] draws. *)
Fixpoint no_dollar (s : string) : bool :=
  match s with
  | EmptyString => true
  | String c rest => negb (Ascii.eqb c "$"%char) && no_dollar rest
  end.

(** A second administrator, not registered in [test_auth]. *)
Definition test_bob : User :=
  {| username := "bob"; full_name := "Bob Admin";
     _password_hash := _hash_password test_sha "hunter2" "a1b2";
     active := true; failed_attempts := 0; locked_until := None;
     user_id := "bob-id"; role := Some "admin"%string |}.

(** [test_auth] after alice has logged in, and with the dictionary of
    reset tokens, still empty. *)
Definition test_auth_logged_in : AuthService :=
  (login test_sha 10 10 "token" "alice" "password" test_auth).2.

Definition test_auth_state : AuthState :=
  {| service := test_auth; _reset_tokens := ∅ |}.

(** The [role] that the class of a user gives it: a field with a default
    in each of the four subclasses; [User] itself has none. *)
Definition class_role (cls : user_class) : option string :=
  match cls with
  | BaseUser => None
  | AdminUser => Some "admin"%string
  | CustomerUser => Some "customer"%string
  | SupportUser => Some "support"%string
  | FulfillmentUser => Some "fulfillment"%string
  end.

(** [User.from_plain_password] (users.py:46), called on the class [cls];
    [salt] is the [secrets.token_hex(8)] that [_hash_password] draws and
    [id] the uuid of the new user. *)
Definition from_plain_password (sha256_hexdigest : string -> string)
    (salt id : string) (cls : user_class)
    (username full_name password : string) : User :=
  {| username := username; full_name := full_name;
     _password_hash := _hash_password sha256_hexdigest password salt;
     active := true; failed_attempts := 0; locked_until := None;
     user_id := id; role := class_role cls |}.

(** ** The catalog

    A Python dictionary holds a key once.  The catalog holds each product
    under the [id] of the product: [add_product] is the only place where
    a key is added. *)
Record catalog_keyed (s : ECommercePlatform) : Prop := {
  keys_once : NoDup (products s).*1;
  keys_are_ids : forall k a, (k, a) ∈ products s ->
    exists p, product_objs (store s) !! a = Some p /\ p_id p = k }.

(** [product.category_id == category_id] for the product object at [a]. *)
Definition in_category (st : Store) (category_id : string) (a : nat) : bool :=
  match product_objs st !! a with
  | Some p => String.eqb (p_category_id p) category_id
  | None => false
  end.

(** The quantity of the line of a product in the cart of a user, if the
    cart has such a line. *)
Definition line_quantity (s : ECommercePlatform) (user_id product_id : string)
    : option Z :=
  match odict.get product_id (cart_of s user_id) with
  | Some item => ci_quantity <$> item_objs (store s) !! item
  | None => None
  end.

(** The user whose cart an operation works on, if it works on a cart. *)
Definition cart_user (o : op) : option string :=
  match o with
  | GetCart u | AddToCart u _ _ | RemoveFromCart u _ _ | Checkout _ _ u _ => Some u
  | _ => None
  end.

(** The cart of alice in [test_cart], and what it comes to. *)
Definition test_alice_cart : ShoppingCart :=
  {| cart_user_id := "alice"; _items := [("novel"%string, 0%nat)] |}.

Definition test_total : Decimal := Finite false 3000 (-2).

(** The two signals that the arithmetic of decimals raises. *)
Definition decimal_signal (e : exn) : Prop :=
  e = Overflow \/ e = InvalidOperation.

(** A shop with a product whose price is at the upper end of the
    exponents, and two pieces of it in the cart of alice. *)
Definition test_dear : ECommercePlatform :=
  exec_all
    [CreateCategory "gems" "Gems" "" test_admin;
     AddProduct "gem" "Gem" (Finite false 9 999999) 5 "gems" test_admin "";
     AddToCart "alice" "gem" 2]
    ECommercePlatform_.bootstrap_platform.

Definition test_dear_cart : ShoppingCart :=
  {| cart_user_id := "alice"; _items := [("gem"%string, 0%nat)] |}.

(** The order that [checkout] builds from the cart [c] when the receipt
    of the payment has not failed (platform.py:124-135). *)
Definition placed_order (id user_id : string) (c : ShoppingCart)
    (receipt : PaymentReceipt) : Order :=
  {| o_id := id; o_user_id := user_id; o_items := ShoppingCart_.items c;
     o_status :=
       (if PaymentStatus.eqb (r_status receipt) PaymentStatus.SUCCESS
        then OrderStatus.PAID else OrderStatus.CREATED);
     o_payment_reference := Some (r_reference receipt) |}.

(** What the restocking loop over [items] adds to the stock of the
    product at address [a]: the quantities of the items of that product.
    [h] is the heap of the cart items. *)
Fixpoint restocked (h : list CartItem) (items : list nat) (a : nat) : Z :=
  match items with
  | [] => 0
  | item :: items' =>
      match h !! item with
      | Some i => if Nat.eqb (ci_product i) a then ci_quantity i else 0
      | None => 0
      end + restocked h items' a
  end.

(** The shop after alice has checked out by UPI, and by cash on
    delivery. *)
Definition test_upi : ECommercePlatform :=
  exec (Checkout "order-1" test_entropy "alice" "upi") test_cart.

Definition test_cod : ECommercePlatform :=
  exec (Checkout "order-1" test_entropy "alice" "cod") test_cart.

(** The shop with a second cart, of bob, and a second drawing whose uuid
    has the first five digits of the uuid of [test_entropy]. *)
Definition test_two_carts : ECommercePlatform :=
  exec (AddToCart "bob" "novel" 1) test_cart.

Definition test_bob_cart : ShoppingCart :=
  {| cart_user_id := "bob"; _items := [("novel"%string, 1%nat)] |}.

Definition test_entropy_again : Entropy :=
  {| uuid_hex := "01234fedcba9876543210fedcba98765"; randbelow := 0 |}.

Definition delivered : gmap string pyval := <["delivered" := PyBool true]> ∅.

(** The file after the checkout by cash on delivery of [test_cod]: the
    catalog was last written by [add_to_cart] (platform.py:109), in the
    state [test_cart]; the orders were written by [checkout]
    (platform.py:137), whose last statement, [cart.clear()], changes
    neither the orders nor the objects, so that [test_cod] has what was
    written. *)
Definition test_disk : Snapshot :=
  ((ECommercePlatform_._persist_catalog test_cart ;;;
    ECommercePlatform_._persist_orders test_cod) PlatformStorage.init).2.

(** The platform of the next process, which starts from that file. *)
Definition test_restarted : result ECommercePlatform :=
  ECommercePlatform_.bootstrap_platform_from test_disk.

Definition test_restarted_shop : ECommercePlatform :=
  (ECommercePlatform_.__post_init__ (Some test_disk)
     ECommercePlatform_.bootstrap_platform).2.

(** The order that the file holds, as it is loaded. *)
Definition test_loaded_order : Order :=
  {| o_id := "order-1"; o_user_id := "alice"; o_items := [0%nat];
     o_status := OrderStatus.CREATED;
     o_payment_reference := Some "COD-01234"%string |}.

(** In the next process bob buys a copy and pays by UPI. *)
Definition test_next_ops : list op :=
  [AddToCart "bob" "novel" 1;
   Checkout "order-2" test_entropy_again "bob" "upi"].

Definition test_next_order : Order :=
  {| o_id := "order-2"; o_user_id := "bob"; o_items := [1%nat];
     o_status := OrderStatus.PAID;
     o_payment_reference := Some "UPI-01234fedcb"%string |}.

(** * Proofs *)

(** ** Invariants through the monad *)

Section Preserves.
Context {St : Type} (I : St -> Prop).

Lemma preserves_ret {A} (a : A) : preserves I (ret a).
Proof. intros s H. exact H. Qed.

Lemma preserves_raise {A} (e : exn) : preserves I (@raise St A e).
Proof. intros s H. exact H. Qed.

Lemma preserves_gets {A} (f : St -> A) : preserves I (gets f).
Proof. intros s H. exact H. Qed.

Lemma preserves_of_result {A} (r : result A) : preserves I (@of_result St A r).
Proof. intros s H. exact H. Qed.

Lemma preserves_deref {A} (o : option A) : preserves I (@deref St A o).
Proof. destruct o; intros s H; exact H. Qed.

Lemma preserves_modify (f : St -> St) :
  (forall s, I s -> I (f s)) -> preserves I (modify f).
Proof. intros Hf s H. apply Hf, H. Qed.

Lemma preserves_bind {A B} (m : M St A) (k : A -> M St B) :
  preserves I m -> (forall a, preserves I (k a)) -> preserves I (bind m k).
Proof.
  intros Hm Hk s H. unfold bind. specialize (Hm s H).
  destruct (m s) as [[a|e] s']; simpl in *; [apply Hk, Hm | exact Hm].
Qed.

Lemma preserves_for_each {A} (l : list A) (body : A -> M St unit) :
  (forall x, preserves I (body x)) -> preserves I (for_each l body).
Proof.
  intros Hb. induction l as [|x l IH]; simpl.
  - apply preserves_ret.
  - apply preserves_bind; [apply Hb | intros _; exact IH].
Qed.

Lemma preserves_discard {A} (m : M St A) :
  preserves I m -> preserves I (discard m).
Proof. intros H. apply preserves_bind; [exact H | intros; apply preserves_ret]. Qed.
End Preserves.

(** An invariant of the store is an invariant of the platform. *)
Lemma preserves_on_store {A} (J : Store -> Prop) (m : M Store A) :
  preserves J m -> preserves (fun s => J (store s)) (on_store m).
Proof.
  intros Hm s H. unfold on_store. specialize (Hm _ H).
  destruct (m (store s)) as [r st]. exact Hm.
Qed.

(** A property of the store alone is not touched by the processor. *)
Lemma preserves_on_processor {A} (J : Store -> Prop) (m : M PaymentProcessor A) :
  preserves (fun s => J (store s)) (on_processor m).
Proof.
  intros s H. unfold on_processor.
  destruct (m (payment_processor s)) as [r pp]. exact H.
Qed.

Create HintDb pres.
#[export] Hint Resolve preserves_ret preserves_raise preserves_gets
  preserves_deref preserves_of_result preserves_discard
  preserves_on_processor : pres.

(** Walks through a computation, one construct at a time. *)
Ltac pres_step :=
  match goal with
  | |- preserves _ (bind _ _) => apply preserves_bind; [| intros ?]
  | |- preserves _ (for_each _ _) => apply preserves_for_each; intros ?
  | |- preserves _ (modify _) => apply preserves_modify; intros ? ?
  | |- preserves _ (match ?x with _ => _ end) => destruct x
  | |- preserves _ (if ?b then _ else _) => destruct b eqn:?
  | |- preserves _ _ => solve [eauto with pres]
  end.

(** ** Symbolic execution with weakest preconditions *)

Section Wp.
Context {St : Type}.

Lemma wp_ret {A} (a : A) (Q : result A -> St -> Prop) s :
  Q (Ok a) s -> wp (ret a) Q s.
Proof. intros H. exact H. Qed.

Lemma wp_raise {A} (e : exn) (Q : result A -> St -> Prop) s :
  Q (Raise e) s -> wp (raise e) Q s.
Proof. intros H. exact H. Qed.

Lemma wp_gets {A} (f : St -> A) (Q : result A -> St -> Prop) s :
  Q (Ok (f s)) s -> wp (gets f) Q s.
Proof. intros H. exact H. Qed.

Lemma wp_modify (f : St -> St) (Q : result unit -> St -> Prop) s :
  Q (Ok tt) (f s) -> wp (modify f) Q s.
Proof. intros H. exact H. Qed.

Lemma wp_of_result {A} (r : result A) (Q : result A -> St -> Prop) s :
  match r with
  | Ok a => Q (Ok a) s
  | Raise e => Q (Raise e) s
  end -> wp (of_result r) Q s.
Proof. destruct r; intros H; exact H. Qed.

Lemma wp_deref {A} (o : option A) (Q : result A -> St -> Prop) s :
  match o with
  | Some a => Q (Ok a) s
  | None => Q (Raise DanglingReference) s
  end -> wp (deref o) Q s.
Proof. destruct o; intros H; exact H. Qed.

Lemma wp_bind {A B} (m : M St A) (k : A -> M St B)
    (Q : result B -> St -> Prop) s :
  wp m (on_ok (fun e => Q (Raise e)) (fun a => wp (k a) Q)) s ->
  wp (bind m k) Q s.
Proof.
  unfold wp, bind, on_ok. destruct (m s) as [[a|e] s']; simpl; intros H; exact H.
Qed.

Lemma wp_mono {A} (m : M St A) (Q Q' : result A -> St -> Prop) s :
  wp m Q s -> (forall r s', Q r s' -> Q' r s') -> wp m Q' s.
Proof. unfold wp. intros H HQ. apply HQ, H. Qed.

Lemma wp_discard {A} (m : M St A) (Q : result unit -> St -> Prop) s :
  wp m (on_ok (fun e => Q (Raise e)) (fun _ => Q (Ok tt))) s ->
  wp (discard m) Q s.
Proof.
  intros H. apply wp_bind. eapply wp_mono; [exact H |].
  intros [a|e] s' Hr; exact Hr.
Qed.

(** A loop whose body keeps [I], whatever it returns or raises. *)
Lemma wp_for_each {A} (I : St -> Prop) (l : list A) (body : A -> M St unit) s :
  I s ->
  (forall x s, I s -> wp (body x) (fun _ s' => I s') s) ->
  wp (for_each l body) (fun _ s' => I s') s.
Proof.
  intros Hs Hb. revert s Hs. induction l as [|x l IH]; intros s Hs; simpl.
  - exact Hs.
  - apply wp_bind. eapply wp_mono; [apply (Hb x s Hs) |].
    intros [[]|e] s' H'; simpl; [apply IH, H' | exact H'].
Qed.
End Wp.

Lemma wp_load_product (a : nat) (Q : result Product -> Store -> Prop) s :
  match product_objs s !! a with
  | Some p => Q (Ok p) s
  | None => Q (Raise DanglingReference) s
  end -> wp (load_product a) Q s.
Proof. unfold wp, load_product. destruct (product_objs s !! a); intros H; exact H. Qed.

Lemma wp_load_item (a : nat) (Q : result CartItem -> Store -> Prop) s :
  match item_objs s !! a with
  | Some i => Q (Ok i) s
  | None => Q (Raise DanglingReference) s
  end -> wp (load_item a) Q s.
Proof. unfold wp, load_item. destruct (item_objs s !! a); intros H; exact H. Qed.

Lemma wp_new_item (i : CartItem) (Q : result nat -> Store -> Prop) s :
  Q (Ok (length (item_objs s))) (set_item_objs (fun h => h ++ [i]) s) ->
  wp (new_item i) Q s.
Proof. intros H. exact H. Qed.

Lemma wp_new_product (p : Product) (Q : result nat -> Store -> Prop) s :
  Q (Ok (length (product_objs s))) (set_product_objs (fun h => h ++ [p]) s) ->
  wp (new_product p) Q s.
Proof. intros H. exact H. Qed.

Lemma wp_on_store {A} (m : M Store A) (Q : result A -> ECommercePlatform -> Prop) s :
  wp m (fun r st => Q r (set_store (fun _ => st) s)) (store s) ->
  wp (on_store m) Q s.
Proof. unfold wp, on_store. destruct (m (store s)) as [r st]. intros H; exact H. Qed.

Lemma wp_on_processor {A} (m : M PaymentProcessor A)
    (Q : result A -> ECommercePlatform -> Prop) s :
  wp m (fun r pp => Q r (set_payment_processor (fun _ => pp) s)) (payment_processor s) ->
  wp (on_processor m) Q s.
Proof.
  unfold wp, on_processor. destruct (m (payment_processor s)) as [r pp].
  intros H; exact H.
Qed.

(** One step of symbolic execution. *)
Ltac wp_step :=
  lazymatch goal with
  | |- wp (bind _ _) _ _ => apply wp_bind
  | |- wp (ret _) _ _ => apply wp_ret
  | |- wp (raise _) _ _ => apply wp_raise
  | |- wp (gets _) _ _ => apply wp_gets
  | |- wp (modify _) _ _ => apply wp_modify
  | |- wp (deref _) _ _ => apply wp_deref
  | |- wp (of_result _) _ _ => apply wp_of_result
  | |- wp (discard _) _ _ => apply wp_discard
  | |- wp (load_product _) _ _ => apply wp_load_product
  | |- wp (load_item _) _ _ => apply wp_load_item
  | |- wp (new_item _) _ _ => apply wp_new_item
  | |- wp (new_product _) _ _ => apply wp_new_product
  | |- wp (on_store _) _ _ => apply wp_on_store
  | |- wp (on_processor _) _ _ => apply wp_on_processor
  | |- on_ok _ _ (Ok _) _ => unfold on_ok at 1
  | |- on_ok _ _ (Raise _) _ => unfold on_ok at 1
  end; cbv beta.

(** A case split on what the computation inspects next. *)
Ltac wp_case :=
  lazymatch goal with
  | |- wp (if ?b then _ else _) _ _ => destruct b eqn:?
  | |- wp (match ?x with _ => _ end) _ _ => destruct x eqn:?
  | |- match ?x with _ => _ end => destruct x eqn:?
  end.

(** The same, when a hypothesis already tells the outcome. *)
Ltac wp_known :=
  lazymatch goal with
  | |- wp (if ?b then _ else _) _ _ =>
      match goal with H : b = _ |- _ => rewrite H end
  | |- wp (match ?x with _ => _ end) _ _ =>
      match goal with H : x = _ |- _ => rewrite H end
  | |- match ?x with _ => _ end =>
      match goal with H : x = _ |- _ => rewrite H end
  end.

(** Projections of updated records. *)
Ltac simpl_state :=
  cbn [store products carts orders categories payment_processor
       set_store set_products set_carts set_orders set_categories
       set_payment_processor product_objs item_objs set_product_objs
       set_item_objs _strategies _transactions
       PaymentProcessor_.set_strategies PaymentProcessor_.set_transactions
       fst snd] in *.

Ltac wp_run := repeat (first [wp_step | wp_known | wp_case]; simpl_state).

(** ** Stock never goes below zero *)

Lemma adjust_stock_nonneg (a : nat) (q : Z) :
  preserves stock_nonneg_store (Product_.adjust_stock a q).
Proof.
  intros s H. unfold Product_.adjust_stock, bind, load_product.
  destruct (product_objs s !! a) as [p|] eqn:Hp; simpl; [| exact H].
  destruct (p_stock p + q <? 0) eqn:Hneg; simpl; [exact H |].
  unfold stock_nonneg_store in *. simpl.
  apply Forall_insert; [exact H | simpl; lia].
Qed.

Lemma restock_item_nonneg (a : nat) :
  preserves stock_nonneg_store (restock_item a).
Proof.
  unfold restock_item, load_item. apply preserves_bind.
  - intros s H. destruct (item_objs s !! a); exact H.
  - intros i. apply adjust_stock_nonneg.
Qed.

Lemma set_item_objs_nonneg (f : list CartItem -> list CartItem) (s : Store) :
  stock_nonneg_store s -> stock_nonneg_store (set_item_objs f s).
Proof. intros H. exact H. Qed.

Lemma load_product_pres (J : Store -> Prop) (a : nat) : preserves J (load_product a).
Proof. intros s H. unfold load_product. destruct (product_objs s !! a); exact H. Qed.

Lemma load_item_pres (J : Store -> Prop) (a : nat) : preserves J (load_item a).
Proof. intros s H. unfold load_item. destruct (item_objs s !! a); exact H. Qed.

#[export] Hint Resolve load_product_pres load_item_pres : pres.

Lemma add_item_nonneg (cart : ShoppingCart) (a : nat) (q : Z) :
  preserves stock_nonneg_store (ShoppingCart_.add_item cart a q).
Proof.
  unfold ShoppingCart_.add_item, CartItem_.increment, new_item.
  repeat pres_step; try exact (set_item_objs_nonneg _ _ ltac:(eassumption)).
  intros s H. exact H.
Qed.

Lemma remove_item_nonneg (cart : ShoppingCart) (p : string) (q : Z) :
  preserves stock_nonneg_store (ShoppingCart_.remove_item cart p q).
Proof.
  unfold ShoppingCart_.remove_item.
  repeat pres_step; exact (set_item_objs_nonneg _ _ ltac:(eassumption)).
Qed.

#[export] Hint Resolve adjust_stock_nonneg restock_item_nonneg
  add_item_nonneg remove_item_nonneg : pres.

Lemma get_cart_store (J : Store -> Prop) (u : string) :
  preserves (fun s => J (store s)) (ECommercePlatform_.get_cart u).
Proof. unfold ECommercePlatform_.get_cart. repeat pres_step; assumption. Qed.

#[export] Hint Resolve get_cart_store : pres.

(** The four cart and order operations keep every stock non-negative,
    also when they raise half-way. *)
Lemma cart_or_order_op_nonneg (o : op) :
  cart_or_order_op o = true -> preserves stock_nonneg (run o).
Proof.
  unfold stock_nonneg.
  destruct o; simpl; try discriminate; intros _.
  - unfold ECommercePlatform_.add_to_cart.
    repeat pres_step; try assumption;
      apply (preserves_on_store stock_nonneg_store); eauto with pres.
  - unfold ECommercePlatform_.remove_from_cart.
    repeat pres_step; try assumption;
      apply (preserves_on_store stock_nonneg_store); eauto with pres.
  - apply preserves_discard. unfold ECommercePlatform_.checkout.
    repeat pres_step; try assumption;
      apply (preserves_on_store stock_nonneg_store);
      apply preserves_for_each; eauto with pres.
  - apply preserves_discard. unfold ECommercePlatform_.confirm_payment.
    repeat pres_step; try assumption;
      apply (preserves_on_store stock_nonneg_store);
      apply preserves_for_each; eauto with pres.
Qed.

Lemma exec_all_invariant (I : ECommercePlatform -> Prop) (ok : op -> bool) :
  (forall o, ok o = true -> preserves I (run o)) ->
  forall (l : list op) (s : ECommercePlatform),
    forallb ok l = true -> I s -> I (exec_all l s).
Proof.
  intros Hstep l. induction l as [|o l IH]; intros s Hl Hs; simpl in *.
  - exact Hs.
  - apply andb_prop in Hl as [Ho Hl].
    apply IH; [exact Hl |]. apply Hstep; assumption.
Qed.

Lemma forallb_take {A} (f : A -> bool) (n : nat) (l : list A) :
  forallb f l = true -> forallb f (take n l) = true.
Proof.
  revert n. induction l as [|x l IH]; intros [|n] H; simpl in *; try reflexivity.
  apply andb_prop in H as [Hx Hl]. rewrite Hx. simpl. apply IH, Hl.
Qed.

(** C5.  Starting from a state in which every product has a non-negative
    stock, after each operation of any finite sequence of add-to-cart,
    remove-from-cart, checkout and confirm-payment operations (that is,
    after every prefix of the sequence) every product still has a
    non-negative stock. *)
Theorem stock_never_negative (s : ECommercePlatform) (l : list op) (n : nat) :
  stock_nonneg s ->
  forallb cart_or_order_op l = true ->
  stock_nonneg (exec_all (take n l) s).
Proof.
  intros Hs Hl.
  apply (exec_all_invariant stock_nonneg cart_or_order_op).
  - exact cart_or_order_op_nonneg.
  - apply forallb_take, Hl.
  - exact Hs.
Qed.

Lemma stock_never_negative_witness :
  stock_nonneg test_shop /\
  forallb cart_or_order_op test_ops = true /\
  stock_nonneg (exec_all (take 4 test_ops) test_shop).
Proof.
  assert (H0 : stock_nonneg test_shop).
  { unfold stock_nonneg, stock_nonneg_store. vm_compute product_objs.
    repeat constructor. simpl. lia. }
  split; [exact H0 |]. split; [reflexivity |].
  apply (stock_never_negative test_shop test_ops 4 H0). reflexivity.
Defined.

(** ** The scenarios of tests/test_platform.py *)

Example test_upi_checkout_succeeds :
  let s := exec_all [AddToCart "alice" "novel" 1;
                     Checkout "order-1" test_entropy "alice" "upi"] test_shop in
  order_status s "order-1" = Some OrderStatus.PAID /\
  (Order_.subtotal (store s) <$> odict.get "order-1" (orders s))
    = Some (Ok test_price) /\
  stock_of s "novel" = Some 4.
Proof. vm_compute. repeat split; reflexivity. Qed.

Example test_card_checkout_requires_confirmation :
  let s := exec_all [AddToCart "alice" "novel" 1;
                     Checkout "order-1" test_entropy "alice" "card"] test_shop in
  order_status s "order-1" = Some OrderStatus.CREATED /\
  order_status (exec (ConfirmPayment "VISA-01234567" right_code) s) "order-1"
    = Some OrderStatus.PAID /\
  stock_of (exec (ConfirmPayment "VISA-01234567" right_code) s) "novel" = Some 4.
Proof. vm_compute. repeat split; reflexivity. Qed.

Example test_failed_confirm_restocks_inventory :
  let s := exec_all [AddToCart "alice" "novel" 1;
                     Checkout "order-1" test_entropy "alice" "card"] test_shop in
  stock_of s "novel" = Some 4 /\
  order_status (exec (ConfirmPayment "VISA-01234567" wrong_code) s) "order-1"
    = Some OrderStatus.FAILED /\
  stock_of (exec (ConfirmPayment "VISA-01234567" wrong_code) s) "novel" = Some 5.
Proof. vm_compute. repeat split; reflexivity. Qed.

(** ** Confirming again after a failed confirmation *)

(** C1.  The claim fails on the code: an order that a wrong code has
    brought to FAILED, its two copies back in stock, becomes PAID when
    [confirm_payment] is called again for the same reference with the
    right code; nothing is reserved again.  A third call with a wrong
    code takes it from PAID back to FAILED and restocks a second time. *)
Theorem failed_order_becomes_paid :
  order_status test_failed "order-1" = Some OrderStatus.FAILED /\
  stock_of test_failed "novel" = Some 5 /\
  (ECommercePlatform_.confirm_payment "VISA-01234567" right_code test_failed).1
    = Ok {| o_id := "order-1"; o_user_id := "alice"; o_items := [0%nat];
            o_status := OrderStatus.PAID;
            o_payment_reference := Some "VISA-01234567" |} /\
  order_status (exec (ConfirmPayment "VISA-01234567" right_code) test_failed)
    "order-1" = Some OrderStatus.PAID /\
  stock_of (exec (ConfirmPayment "VISA-01234567" right_code) test_failed) "novel"
    = Some 5 /\
  order_status
    (exec_all [ConfirmPayment "VISA-01234567" right_code;
               ConfirmPayment "VISA-01234567" wrong_code] test_failed)
    "order-1" = Some OrderStatus.FAILED /\
  stock_of
    (exec_all [ConfirmPayment "VISA-01234567" right_code;
               ConfirmPayment "VISA-01234567" wrong_code] test_failed)
    "novel" = Some 7.
Proof. vm_compute. repeat split; reflexivity. Qed.

(** C3.  The claim fails on the code in its second half: a failed
    confirmation marks the receipt FAILED but leaves the one-time code in
    its metadata, and [PaymentProcessor.complete] does not look at the
    status, so the next attempt with the right code succeeds. *)
Theorem card_code_survives_a_failed_attempt :
  receipt_status test_pending "VISA-01234567" = Some PaymentStatus.PENDING /\
  (r_metadata <$> _transactions (payment_processor test_pending) !! "VISA-01234567")
    ≫= (fun m => m !! "otp") = Some (PyStr "123456") /\
  receipt_status test_failed "VISA-01234567" = Some PaymentStatus.FAILED /\
  (r_metadata <$> _transactions (payment_processor test_failed) !! "VISA-01234567")
    ≫= (fun m => m !! "otp") = Some (PyStr "123456") /\
  receipt_status
    (on_processor (PaymentProcessor_.complete "VISA-01234567" right_code) test_failed).2
    "VISA-01234567" = Some PaymentStatus.SUCCESS.
Proof. vm_compute. repeat split; reflexivity. Qed.

(** ** Removing what is not in the cart *)

(** C4.  The claim fails on the code: [remove_from_cart] puts the quantity
    back on the product whether or not the cart held it.  With no cart and
    no order anywhere, removing three copies takes the stock from 5 to 8. *)
Theorem remove_absent_item_adds_stock :
  carts test_shop = ∅ /\ orders test_shop = [] /\
  stock_of test_shop "novel" = Some 5 /\
  (ECommercePlatform_.remove_from_cart "alice" "novel" 3 test_shop).1 = Ok tt /\
  stock_of (exec (RemoveFromCart "alice" "novel" 3) test_shop) "novel" = Some 8 /\
  cart_of (exec (RemoveFromCart "alice" "novel" 3) test_shop) "alice" = [] /\
  orders (exec (RemoveFromCart "alice" "novel" 3) test_shop) = [].
Proof. vm_compute. repeat split; reflexivity. Qed.

(** ** Quantities that are not positive *)

(** C8.  The claim fails on the code: [add_to_cart] and [remove_from_cart]
    accept a quantity that is zero or negative.  Adding -1 returns
    normally, raises the stock and leaves a line of quantity -1 in the
    cart; adding 0 leaves a line of quantity 0; removing -2 from a line of
    2 makes it 4 and takes 2 from the stock. *)
Theorem non_positive_quantity_is_accepted :
  (ECommercePlatform_.add_to_cart "alice" "novel" (-1) test_shop).1 = Ok tt /\
  stock_of (exec (AddToCart "alice" "novel" (-1)) test_shop) "novel" = Some 6 /\
  cart_quantities (exec (AddToCart "alice" "novel" (-1)) test_shop) "alice"
    = [("novel", Some (-1))] /\
  (ECommercePlatform_.add_to_cart "alice" "novel" 0 test_shop).1 = Ok tt /\
  cart_quantities (exec (AddToCart "alice" "novel" 0) test_shop) "alice"
    = [("novel", Some 0)] /\
  (ECommercePlatform_.remove_from_cart "alice" "novel" (-2)
     (exec (AddToCart "alice" "novel" 2) test_shop)).1 = Ok tt /\
  cart_quantities
    (exec_all [AddToCart "alice" "novel" 2; RemoveFromCart "alice" "novel" (-2)]
       test_shop) "alice" = [("novel", Some 4)] /\
  stock_of
    (exec_all [AddToCart "alice" "novel" 2; RemoveFromCart "alice" "novel" (-2)]
       test_shop) "novel" = Some 1.
Proof. vm_compute. repeat split; reflexivity. Qed.

(** ** Checkout with a payment method that is not registered *)

Lemma set_payment_processor_id (s : ECommercePlatform) :
  set_payment_processor (fun _ => payment_processor s) s = s.
Proof. destruct s; reflexivity. Qed.

Lemma cart_of_insert_empty (s : ECommercePlatform) (u v : string) :
  carts s !! u = None ->
  cart_of (set_carts (fun m => <[u := {| cart_user_id := u; _items := [] |}]> m) s) v
  = cart_of s v.
Proof.
  intros Hu. unfold cart_of. simpl.
  destruct (decide (u = v)) as [->|Hne].
  - rewrite lookup_insert_eq, Hu. reflexivity.
  - rewrite lookup_insert_ne by exact Hne. reflexivity.
Qed.

(** C7, as the code has it.  With a payment method that is not
    registered, [checkout] on a cart that holds something raises
    [PaymentError] and leaves the whole state as it was: no order, no
    receipt, the cart and every stock untouched.  On an empty cart it
    raises [ValueError] instead, the cart being looked at first; orders,
    objects, receipts and the contents of every cart are as before. *)
Theorem checkout_unknown_method (s : ECommercePlatform) (id : string)
    (e : Entropy) (user_id payment_method : string) :
  _strategies (payment_processor s) !! payment_method = None ->
  (cart_of s user_id <> [] ->
     ECommercePlatform_.checkout id e user_id payment_method s
     = (Raise PaymentError, s)) /\
  (cart_of s user_id = [] ->
     let r := ECommercePlatform_.checkout id e user_id payment_method s in
     r.1 = Raise ValueError /\
     orders r.2 = orders s /\ store r.2 = store s /\
     payment_processor r.2 = payment_processor s /\
     forall v, cart_of r.2 v = cart_of s v).
Proof.
  intros Hm. unfold cart_of at 1 2.
  unfold ECommercePlatform_.checkout, ECommercePlatform_.get_cart,
    PaymentProcessor_.pay, ShoppingCart_.is_empty, on_processor,
    bind, gets, modify, ret, raise.
  destruct (carts s !! user_id) as [cart|] eqn:Hc; simpl.
  - destruct (_items cart) as [|kv d] eqn:Hi; simpl.
    + split; [congruence |]. intros _. repeat split; reflexivity.
    + rewrite Hm. simpl. split; [| discriminate].
      intros _. rewrite set_payment_processor_id. reflexivity.
  - split; [congruence |]. intros _. repeat split; try reflexivity.
    intros v. apply cart_of_insert_empty, Hc.
Qed.

Lemma checkout_unknown_method_witness :
  _strategies (payment_processor test_cart) !! "paypal" = None /\
  cart_of test_cart "alice" <> [] /\
  ECommercePlatform_.checkout "order-1" test_entropy "alice" "paypal" test_cart
  = (Raise PaymentError, test_cart).
Proof.
  assert (Hm : _strategies (payment_processor test_cart) !! "paypal" = None)
    by (vm_compute; reflexivity).
  assert (Hc : cart_of test_cart "alice" <> []) by (vm_compute; discriminate).
  split; [exact Hm |]. split; [exact Hc |].
  exact (proj1 (checkout_unknown_method test_cart "order-1" test_entropy
                  "alice" "paypal" Hm) Hc).
Defined.

(** C7 as it is written fails on an empty cart: the method ["paypal"] is
    not registered, and [checkout] raises [ValueError], not
    [PaymentError]. *)
Lemma checkout_unknown_method_empty_cart :
  _strategies (payment_processor test_shop) !! "paypal" = None /\
  (ECommercePlatform_.checkout "order-1" test_entropy "alice" "paypal" test_shop).1
    = Raise ValueError /\
  (ECommercePlatform_.checkout "order-1" test_entropy "alice" "paypal" test_shop).1
    <> Raise PaymentError.
Proof. vm_compute. split; [reflexivity |]. split; [reflexivity | discriminate]. Qed.

(** ** Account lock-out *)

Section Lockout.
Variable sha256_hexdigest : string -> string.

Lemma login_locked (s : AuthService) (name : string) (u : User)
    (now now' : Z) (tok pw : string) :
  _users s !! name = Some u -> active u = true ->
  User_.is_locked now u = true ->
  login sha256_hexdigest now now' tok name pw s = (Raise AuthenticationError, s).
Proof.
  intros Hu Ha Hl. unfold login, bind, gets. simpl.
  rewrite Hu, Ha. simpl. rewrite Hl. reflexivity.
Qed.

Lemma login_wrong_password (s : AuthService) (name : string) (u : User)
    (now now' : Z) (tok pw : string) :
  _users s !! name = Some u -> active u = true ->
  User_.is_locked now u = false ->
  verify_password sha256_hexdigest u pw = Ok false ->
  login sha256_hexdigest now now' tok name pw s
  = (Raise AuthenticationError,
     set_users (fun m => <[name := User_.register_failed_login now' u
                                     MAX_FAILED_ATTEMPTS LOCK_DURATION]> m) s).
Proof.
  intros Hu Ha Hl Hv. unfold login, bind, gets. simpl.
  rewrite Hu, Ha. simpl. rewrite Hl, Hv. reflexivity.
Qed.

Lemma login_right_password (s : AuthService) (name : string) (u : User)
    (now now' : Z) (tok pw : string) :
  _users s !! name = Some u -> active u = true ->
  User_.is_locked now u = false ->
  verify_password sha256_hexdigest u pw = Ok true ->
  login sha256_hexdigest now now' tok name pw s
  = (Ok tok,
     set_sessions (fun m => <[tok := user_id u]> m)
       (set_users (fun m => <[name := User_.reset_lock u]> m) s)).
Proof.
  intros Hu Ha Hl Hv. unfold login, bind, gets. simpl.
  rewrite Hu, Ha. simpl. rewrite Hl, Hv. reflexivity.
Qed.

(** An attempt under another name leaves the record of [name] alone. *)
Lemma login_other_user (s : AuthService) (name : string) (a : attempt) :
  at_username a <> name ->
  _users (try_login sha256_hexdigest a s).2 !! name = _users s !! name.
Proof.
  intros Hne. unfold try_login, login, bind, gets, modify, raise, ret. simpl.
  destruct (_users s !! at_username a) as [v|]; simpl; [| reflexivity].
  destruct (active v); simpl; [| reflexivity].
  destruct (User_.is_locked (at_now a) v); simpl; [reflexivity |].
  destruct (verify_password sha256_hexdigest v (at_password a)) as [[|]|e]; simpl;
    try reflexivity; apply lookup_insert_ne, Hne.
Qed.

Section OneUser.
Variables (name : string) (u : User).
Hypothesis u_active : active u = true.

(** As long as the threshold is not reached, failures only count. *)
Lemma failures_are_counted (fails : list attempt) :
  forall (n : Z) (s : AuthService),
    _users s !! name = Some (User_.with_lock u n (locked_until u)) ->
    n + Z.of_nat (length fails) < MAX_FAILED_ATTEMPTS ->
    Forall (failed_login sha256_hexdigest name u) fails ->
    _users (after_attempts sha256_hexdigest fails s) !! name
    = Some (User_.with_lock u (n + Z.of_nat (length fails)) (locked_until u)).
Proof.
  induction fails as [|a fails IH]; intros n s Hu Hn Hf.
  - simpl. rewrite Z.add_0_r. exact Hu.
  - apply Forall_cons in Hf as [(Hname & Hlock & Hpw) Hf].
    cbn [after_attempts fold_left]. fold (after_attempts sha256_hexdigest fails).
    unfold try_login. rewrite Hname.
    rewrite (login_wrong_password s name _ _ _ _ _ Hu u_active Hlock Hpw).
    cbn [snd].
    replace (n + Z.of_nat (length (a :: fails)))
      with ((n + 1) + Z.of_nat (length fails)) by (cbn [length]; lia).
    apply IH; [| cbn [length] in Hn; lia | exact Hf].
    simpl. rewrite lookup_insert_eq. f_equal.
    unfold User_.register_failed_login. simpl.
    cbn [length] in Hn.
    destruct (MAX_FAILED_ATTEMPTS <=? n + 1) eqn:E; [apply Z.leb_le in E; lia |].
    reflexivity.
Qed.

(** The failure that reaches the threshold locks the account and starts
    the count again. *)
Lemma max_failures_lock (s : AuthService) (fails : list attempt) :
  _users s !! name = Some u ->
  failed_attempts u = 0 ->
  length fails = Z.to_nat MAX_FAILED_ATTEMPTS ->
  Forall (failed_login sha256_hexdigest name u) fails ->
  _users (after_attempts sha256_hexdigest fails s) !! name
  = Some (User_.with_lock u 0 (Some (lock_expiry fails))).
Proof.
  intros Hu H0 Hlen Hf.
  destruct fails as [|a fails _] using rev_ind; [discriminate Hlen |].
  rewrite length_app in Hlen. cbn [length] in Hlen.
  apply Forall_app in Hf as [Hf Ha].
  apply Forall_inv in Ha as (Hname & Hlock & Hpw).
  unfold after_attempts. rewrite fold_left_app. cbn [fold_left].
  fold (after_attempts sha256_hexdigest fails s).
  assert (Hu' : _users (after_attempts sha256_hexdigest fails s) !! name
                = Some (User_.with_lock u (0 + Z.of_nat (length fails))
                          (locked_until u))).
  { apply failures_are_counted; [| unfold MAX_FAILED_ATTEMPTS in *; lia | exact Hf].
    rewrite Hu. f_equal. destruct u; simpl in *; subst; reflexivity. }
  unfold try_login. rewrite Hname.
  rewrite (login_wrong_password _ name _ _ _ _ _ Hu' u_active Hlock Hpw).
  cbn [snd]. simpl. rewrite lookup_insert_eq. f_equal.
  unfold User_.register_failed_login, lock_expiry. rewrite last_snoc. simpl.
  destruct (MAX_FAILED_ATTEMPTS <=? 0 + Z.of_nat (length fails) + 1) eqn:E.
  - reflexivity.
  - apply Z.leb_gt in E. unfold MAX_FAILED_ATTEMPTS in *. lia.
Qed.
End OneUser.

(** While the lock lasts, no attempt changes the record of the user. *)
Lemma locked_record_stays (name : string) (v : User) (t : Z)
    (more : list attempt) :
  active v = true -> locked_until v = Some t ->
  Forall (fun a => at_now a < t) more ->
  forall s : AuthService,
    _users s !! name = Some v ->
    _users (after_attempts sha256_hexdigest more s) !! name = Some v.
Proof.
  intros Ha Ht. induction 1 as [|a more Hnow _ IH]; intros s Hv; [exact Hv |].
  cbn [after_attempts fold_left]. fold (after_attempts sha256_hexdigest more).
  apply IH.
  destruct (decide (at_username a = name)) as [Heq|Hne].
  - unfold try_login. rewrite Heq, (login_locked s name v); try assumption.
    unfold User_.is_locked. rewrite Ht. apply Z.ltb_lt, Hnow.
  - rewrite login_other_user by exact Hne. exact Hv.
Qed.

Lemma unlock_user_by_admin (s : AuthService) (name : string) (v admin : User) :
  role admin = Some "admin"%string ->
  _users s !! name = Some v ->
  unlock_user name admin s
  = (Ok tt, set_users (fun m => <[name := User_.reset_lock v]> m) s).
Proof.
  intros Hr Hv. unfold unlock_user, require_admin, bind, gets. rewrite Hr.
  simpl. rewrite Hv. reflexivity.
Qed.

(** C6.  Let [u] be an active user whose failure count is zero, and let
    [fails] be exactly MAX_FAILED_ATTEMPTS failed logins of [u] in a row.
    Then, whatever attempts [more] are made while the lock lasts, a login
    of [u] before the lock runs out raises [AuthenticationError], with
    any password, the right one included, and changes nothing; a login
    with the right password once the lock has run out returns the token
    and records the session; and after an administrator has unlocked the
    account, a login with the right password returns the token at any
    time. *)
Theorem lockout_after_max_failed_attempts
    (s : AuthService) (name : string) (u : User)
    (fails more : list attempt) (good : string) (admin : User) :
  _users s !! name = Some u -> active u = true -> failed_attempts u = 0 ->
  length fails = Z.to_nat MAX_FAILED_ATTEMPTS ->
  Forall (failed_login sha256_hexdigest name u) fails ->
  verify_password sha256_hexdigest u good = Ok true ->
  Forall (fun a => at_now a < lock_expiry fails) more ->
  role admin = Some "admin"%string ->
  let s' := after_attempts sha256_hexdigest (fails ++ more) s in
  (forall now now' tok pw, now < lock_expiry fails ->
     login sha256_hexdigest now now' tok name pw s'
     = (Raise AuthenticationError, s')) /\
  (forall now now' tok, lock_expiry fails <= now ->
     exists s'',
       login sha256_hexdigest now now' tok name good s' = (Ok tok, s'') /\
       _sessions s'' !! tok = Some (user_id u)) /\
  (unlock_user name admin s').1 = Ok tt /\
  (forall now now' tok,
     exists s'',
       login sha256_hexdigest now now' tok name good
         (unlock_user name admin s').2 = (Ok tok, s'') /\
       _sessions s'' !! tok = Some (user_id u)).
Proof.
  intros Hu Ha H0 Hlen Hf Hgood Hmore Hadmin s'.
  set (v := User_.with_lock u 0 (Some (lock_expiry fails))).
  assert (Hv : _users s' !! name = Some v).
  { unfold s', after_attempts. rewrite fold_left_app.
    apply (locked_record_stays name v (lock_expiry fails) more);
      [exact Ha | reflexivity | exact Hmore |].
    apply max_failures_lock; assumption. }
  split; [| split; [| split]].
  - intros now now' tok pw Hnow.
    apply (login_locked s' name v); [exact Hv | exact Ha |].
    apply Z.ltb_lt, Hnow.
  - intros now now' tok Hnow. eexists. split.
    + apply (login_right_password s' name v); [exact Hv | exact Ha | | exact Hgood].
      apply Z.ltb_ge, Hnow.
    + simpl. apply lookup_insert_eq.
  - rewrite (unlock_user_by_admin s' name v admin Hadmin Hv). reflexivity.
  - intros now now' tok.
    rewrite (unlock_user_by_admin s' name v admin Hadmin Hv). cbn [snd].
    eexists. split.
    + apply (login_right_password _ name (User_.reset_lock v));
        [simpl; apply lookup_insert_eq | exact Ha | reflexivity | exact Hgood].
    + simpl. apply lookup_insert_eq.
Qed.
End Lockout.

Lemma lockout_after_max_failed_attempts_witness :
  _users test_auth !! "alice" = Some test_alice /\
  active test_alice = true /\ failed_attempts test_alice = 0 /\
  length test_fails = Z.to_nat MAX_FAILED_ATTEMPTS /\
  Forall (failed_login test_sha "alice" test_alice) test_fails /\
  verify_password test_sha test_alice "password" = Ok true /\
  Forall (fun a => at_now a < lock_expiry test_fails) test_more /\
  role test_admin = Some "admin"%string /\
  login test_sha 7 7 "token" "alice" "password"
    (after_attempts test_sha (test_fails ++ test_more) test_auth)
  = (Raise AuthenticationError,
     after_attempts test_sha (test_fails ++ test_more) test_auth).
Proof.
  assert (H1 : _users test_auth !! "alice" = Some test_alice) by reflexivity.
  assert (H5 : Forall (failed_login test_sha "alice" test_alice) test_fails).
  { repeat constructor. }
  assert (H7 : Forall (fun a => at_now a < lock_expiry test_fails) test_more).
  { repeat constructor. }
  repeat (split; [first [exact H1 | exact H5 | exact H7 | reflexivity] |]).
  apply (lockout_after_max_failed_attempts test_sha test_auth "alice" test_alice
           test_fails test_more "password" test_admin
           H1 eq_refl eq_refl eq_refl H5 eq_refl H7 eq_refl).
  reflexivity.
Defined.

(** ** Insertion-ordered dictionaries: what the values are after an update *)

Section odict_facts.
Context {V : Type}.
Implicit Types (d : odict.t V) (k : string) (v : V).

Lemma odict_get_values k d v : odict.get k d = Some v -> v ∈ odict.values d.
Proof.
    induction d as [|[k' v'] d IH]; simpl; [discriminate |].
    destruct (String.eqb k k').
    - intros [= ->]. apply list_elem_of_here.
    - intros H. apply list_elem_of_further, IH, H.
Qed.

Lemma odict_values_set k v d v' :
    v' ∈ odict.values (odict.set k v d) -> v' = v \/ v' ∈ odict.values d.
Proof.
    induction d as [|[k0 v0] d IH]; simpl.
    - intros H. apply list_elem_of_singleton in H. left. exact H.
    - destruct (String.eqb k k0); simpl; intros H;
        apply elem_of_cons in H as [H|H].
      + left. exact H.
      + right. apply list_elem_of_further, H.
      + right. rewrite H. apply list_elem_of_here.
      + destruct (IH H) as [H'|H']; [left; exact H' |].
        right. apply list_elem_of_further, H'.
Qed.

Lemma odict_values_del k d v' :
    v' ∈ odict.values (odict.del k d) -> v' ∈ odict.values d.
Proof.
    induction d as [|[k0 v0] d IH]; simpl; [intros H; exact H |].
    destruct (String.eqb k k0); simpl; intros H.
    - apply list_elem_of_further, IH, H.
    - apply elem_of_cons in H as [H|H].
      + rewrite H. apply list_elem_of_here.
      + apply list_elem_of_further, IH, H.
Qed.

Lemma odict_values_alter_first (P : V -> bool) (f : V -> V) d v' :
    v' ∈ odict.values (odict.alter_first P f d) ->
    v' ∈ odict.values d \/ exists v, v ∈ odict.values d /\ v' = f v.
Proof.
    induction d as [|[k0 v0] d IH]; simpl; [intros H; left; exact H |].
    destruct (P v0); simpl; intros H; apply elem_of_cons in H as [H|H].
    - right. exists v0. split; [apply list_elem_of_here | exact H].
    - left. apply list_elem_of_further, H.
    - left. rewrite H. apply list_elem_of_here.
    - destruct (IH H) as [H'|(v & Hv & ->)].
      + left. apply list_elem_of_further, H'.
      + right. exists v. split; [apply list_elem_of_further, Hv | reflexivity].
Qed.

Lemma odict_find_value_values (P : V -> bool) d v :
    odict.find_value P d = Some v -> v ∈ odict.values d /\ P v = true.
Proof.
    induction d as [|[k0 v0] d IH]; simpl; [discriminate |].
    destruct (P v0) eqn:HP.
    - intros [= ->]. split; [apply list_elem_of_here | exact HP].
    - intros H. destruct (IH H) as [Hin Hv].
      split; [apply list_elem_of_further, Hin | exact Hv].
Qed.
End odict_facts.

(** ** Every stored order has a stored receipt *)

Lemma wp_any {St A} (m : M St A) (Q : result A -> St -> Prop) s :
  (forall r s', Q r s') -> wp m Q s.
Proof. intros H. apply H. Qed.

Lemma is_Some_insert_mono {V} (m : gmap string V) (i j : string) (x : V) :
  is_Some (m !! j) -> is_Some (<[i := x]> m !! j).
Proof.
  intros H. destruct (decide (i = j)) as [->|Hne].
  - rewrite lookup_insert_eq. eauto.
  - rewrite lookup_insert_ne by exact Hne. exact H.
Qed.

Lemma orders_have_receipts_intro (loaded : list Order)
    (s s' : ECommercePlatform) :
  orders_have_receipts loaded s ->
  (forall r, is_Some (_transactions (payment_processor s) !! r) ->
             is_Some (_transactions (payment_processor s') !! r)) ->
  (forall o', o' ∈ odict.values (orders s') ->
     loaded_order (odict.values (orders s)) o' \/ has_receipt s' o') ->
  orders_have_receipts loaded s'.
Proof.
  unfold orders_have_receipts. rewrite !Forall_forall.
  intros H Hmono Hnew o' Ho'.
  destruct (Hnew o' Ho') as [(o & Ho & Hid & Huser & Hitems & Href)|Hr];
    [| right; exact Hr].
  destruct (H o Ho) as [(o0 & Ho0 & Hid0 & Huser0 & Hitems0 & Href0)
                       |(r & Hr & Hin)].
  - left. exists o0. split; [exact Ho0 |]. repeat split; congruence.
  - right. exists r. split; [congruence | apply Hmono, Hin].
Qed.

Lemma loaded_order_refl (loaded : list Order) (o : Order) :
  o ∈ loaded -> loaded_order loaded o.
Proof. intros H. exists o. split; [exact H |]. repeat split. Qed.

(** Closes a goal [orders_have_receipts loaded s'] where [s'] is [s]
    with a receipt stored and, at most, one order stored that refers to
    it. *)
Ltac receipts_leaf s H :=
  apply (orders_have_receipts_intro _ s); [exact H | |];
  [ intros ? Hr; simpl; first [exact Hr | apply is_Some_insert_mono, Hr]
  | intros o' Ho'; simpl in Ho';
    first
      [ left; apply loaded_order_refl; exact Ho'
      | apply odict_values_set in Ho' as [->|Ho'];
        [ right; eexists; split; [reflexivity |];
          simpl; rewrite lookup_insert_eq; eauto
        | left; apply loaded_order_refl; exact Ho' ]
      | let o1 := fresh "o" in
        let Ho1 := fresh "Ho" in
        apply odict_values_alter_first in Ho' as [Ho'|(o1 & Ho1 & ->)];
        [ left; apply loaded_order_refl; exact Ho'
        | first
            [ left; exists o1; split; [exact Ho1 | repeat split; reflexivity]
            | right; eexists; split; [reflexivity |];
              simpl; rewrite lookup_insert_eq; eauto ] ] ] ].

Lemma checkout_orders_have_receipts loaded id e u m s :
  orders_have_receipts loaded s ->
  wp (ECommercePlatform_.checkout id e u m)
     (fun _ s' => orders_have_receipts loaded s') s.
Proof.
  intros H.
  unfold ECommercePlatform_.checkout, ECommercePlatform_.get_cart, PaymentProcessor_.pay.
  wp_run; try (apply wp_any; intros [[]|?] ?; wp_run); receipts_leaf s H.
Qed.

Lemma confirm_payment_orders_have_receipts loaded reference kw s :
  orders_have_receipts loaded s ->
  wp (ECommercePlatform_.confirm_payment reference kw)
     (fun _ s' => orders_have_receipts loaded s') s.
Proof.
  intros H.
  unfold ECommercePlatform_.confirm_payment, PaymentProcessor_.complete.
  wp_run; try (apply wp_any; intros [[]|?] ?; wp_run); receipts_leaf s H.
Qed.

(** An invariant that does not read the object store. *)
Lemma preserves_on_store_frame {A} (I : ECommercePlatform -> Prop) (m : M Store A) :
  (forall s st, I s -> I (set_store (fun _ => st) s)) ->
  preserves I (on_store m).
Proof.
  intros Hf s H. unfold on_store. destruct (m (store s)) as [r st]. apply Hf, H.
Qed.

Lemma preserves_wp {St A} (I : St -> Prop) (m : M St A) :
  (forall s, I s -> wp m (fun _ s' => I s') s) -> preserves I m.
Proof. intros H s Hs. apply (H s Hs). Qed.

(** The invariant under every operation of the core. *)
Lemma run_orders_have_receipts (loaded : list Order) (o : op) :
  preserves (orders_have_receipts loaded) (run o).
Proof.
  destruct o; simpl; try apply preserves_discard.
  - unfold ECommercePlatform_.create_category, _require_admin.
    repeat pres_step; assumption.
  - unfold ECommercePlatform_.delete_category, _require_admin.
    repeat pres_step; try assumption;
      apply preserves_on_store_frame; intros; assumption.
  - unfold ECommercePlatform_.add_product, _require_admin.
    repeat pres_step; try assumption;
      apply preserves_on_store_frame; intros; assumption.
  - unfold ECommercePlatform_.remove_product, _require_admin.
    repeat pres_step; assumption.
  - unfold ECommercePlatform_.get_cart. repeat pres_step; assumption.
  - unfold ECommercePlatform_.add_to_cart, ECommercePlatform_.get_cart.
    repeat pres_step; try assumption;
      apply preserves_on_store_frame; intros; assumption.
  - unfold ECommercePlatform_.remove_from_cart, ECommercePlatform_.get_cart.
    repeat pres_step; try assumption;
      apply preserves_on_store_frame; intros; assumption.
  - apply preserves_wp. intros s. apply checkout_orders_have_receipts.
  - unfold ECommercePlatform_.list_orders, _require_admin.
    repeat pres_step; assumption.
  - apply preserves_wp. intros s. apply confirm_payment_orders_have_receipts.
  - unfold PaymentProcessor_.get_receipt. intros s H.
    unfold on_processor, bind, gets. simpl.
    destruct (_transactions (payment_processor s) !! reference); simpl;
      rewrite set_payment_processor_id; exact H.
Qed.

Lemma forallb_true {A} (l : list A) : forallb (fun _ => true) l = true.
Proof. induction l; [reflexivity | exact IHl]. Qed.

Lemma exec_all_orders_have_receipts (loaded : list Order) (l : list op)
    (s : ECommercePlatform) :
  orders_have_receipts loaded s -> orders_have_receipts loaded (exec_all l s).
Proof.
  apply (exec_all_invariant (orders_have_receipts loaded) (fun _ => true)).
  - intros o _. apply run_orders_have_receipts.
  - apply forallb_true.
Qed.

(** A new platform over the file that [PlatformStorage] writes when
    there is none is [bootstrap_platform]. *)
Lemma bootstrap_platform_from_init :
  ECommercePlatform_.bootstrap_platform_from PlatformStorage.init
  = Ok ECommercePlatform_.bootstrap_platform.
Proof. reflexivity. Qed.

(** The order of [test_cod] was stored by [checkout], with the reference
    of the receipt that [get_receipt] returns.  The file keeps the order
    and its reference, and no receipt: in the next process the order is
    there, with its reference, and [get_receipt] raises [PaymentError]. *)
Lemma receipts_are_lost_on_restart :
  odict.get "order-1" (orders test_cod) = Some test_loaded_order /\
  (exists receipt,
     PaymentProcessor_.get_receipt "COD-01234" (payment_processor test_cod)
     = (Ok receipt, payment_processor test_cod)) /\
  odict.get "order-1" (snap_orders test_disk)
  = Some {| ol_id := "order-1"; ol_user_id := "alice";
            ol_items := [("novel"%string, 2)];
            ol_status := OrderStatus.CREATED;
            ol_payment_reference := Some "COD-01234"%string;
            ol_subtotal := test_total |} /\
  match test_restarted with
  | Ok s =>
      odict.get "order-1" (orders s) = Some test_loaded_order /\
      o_payment_reference test_loaded_order = Some "COD-01234"%string /\
      PaymentProcessor_.get_receipt "COD-01234" (payment_processor s)
      = (Raise PaymentError, payment_processor s)
  | Raise _ => False
  end.
Proof.
  split; [reflexivity |]. split; [eexists; reflexivity |].
  split; [reflexivity |].
  vm_compute. repeat split; reflexivity.
Qed.

(** C10.  Start the platform in any state, with any orders and any
    receipts: in particular with the orders that [__post_init__] has
    loaded from the storage, for which the new payment processor holds
    no receipt.  After any sequence of operations of the core, every
    stored order is one of the orders the platform started with (but for
    its status), or it carries a payment reference on which
    [get_receipt] returns a receipt.  The orders that [checkout] stores
    are of the second kind, whatever the status of their payment was or
    has become; when the platform starts without orders, all orders
    are. *)
Theorem every_order_has_a_receipt (s : ECommercePlatform) (l : list op) (o : Order) :
  o ∈ odict.values (orders (exec_all l s)) ->
  loaded_order (odict.values (orders s)) o \/
  exists (r : string) (receipt : PaymentReceipt),
    o_payment_reference o = Some r /\
    PaymentProcessor_.get_receipt r (payment_processor (exec_all l s))
    = (Ok receipt, payment_processor (exec_all l s)).
Proof.
  intros Ho.
  assert (H0 : orders_have_receipts (odict.values (orders s)) s).
  { unfold orders_have_receipts. rewrite Forall_forall.
    intros o0 Ho0. left. apply loaded_order_refl, Ho0. }
  pose proof (exec_all_orders_have_receipts _ l s H0) as H.
  unfold orders_have_receipts in H. rewrite Forall_forall in H.
  destruct (H o Ho) as [Hl|(r & Hr & [receipt Hreceipt])]; [left; exact Hl |].
  right. exists r, receipt. split; [exact Hr |].
  unfold PaymentProcessor_.get_receipt, bind, gets. simpl.
  rewrite Hreceipt. reflexivity.
Qed.

Lemma every_order_has_a_receipt_witness :
  test_restarted = Ok test_restarted_shop /\
  odict.values (orders test_restarted_shop) = [test_loaded_order] /\
  test_next_order
    ∈ odict.values (orders (exec_all test_next_ops test_restarted_shop)) /\
  exists (r : string) (receipt : PaymentReceipt),
    o_payment_reference test_next_order = Some r /\
    PaymentProcessor_.get_receipt r
      (payment_processor (exec_all test_next_ops test_restarted_shop))
    = (Ok receipt,
       payment_processor (exec_all test_next_ops test_restarted_shop)).
Proof.
  assert (H1 : odict.values (orders test_restarted_shop) = [test_loaded_order])
    by reflexivity.
  assert (H2 : test_next_order
               ∈ odict.values
                   (orders (exec_all test_next_ops test_restarted_shop))).
  { vm_compute. apply list_elem_of_further, list_elem_of_here. }
  split; [reflexivity |]. split; [exact H1 |]. split; [exact H2 |].
  destruct (every_order_has_a_receipt test_restarted_shop test_next_ops _ H2)
    as [(o0 & Ho0 & Hid & _)|H]; [| exact H].
  exfalso. rewrite H1 in Ho0. apply list_elem_of_singleton in Ho0.
  subst o0. discriminate Hid.
Defined.

(** ** Well-formed states stay well-formed *)

(** A change that leaves carts and orders alone, only lets the heaps
    grow, and adds to the catalog nothing but live addresses. *)
Lemma wf_frame (s s' : ECommercePlatform) :
  wf s ->
  carts s' = carts s -> orders s' = orders s ->
  (forall a, a ∈ odict.values (products s') ->
     a ∈ odict.values (products s) \/ product_ref_ok (store s') a) ->
  (length (product_objs (store s)) <= length (product_objs (store s')))%nat ->
  (length (item_objs (store s)) <= length (item_objs (store s')))%nat ->
  Forall (fun i => product_ref_ok (store s') (ci_product i)) (item_objs (store s')) ->
  wf s'.
Proof.
  intros [[Hc Hi Hk Ho] [Hca Hoa]] Ecarts Eorders Hcat HP HI Hitems.
  split; constructor.
  - apply Forall_forall. intros a Ha.
    destruct (Hcat a Ha) as [Hold|Hnew]; [| exact Hnew].
    rewrite Forall_forall in Hc. specialize (Hc a Hold).
    unfold product_ref_ok in *. lia.
  - exact Hitems.
  - rewrite Ecarts. intros u c Hu. specialize (Hk u c Hu). simpl in *.
    eapply Forall_impl; [exact Hk |]. intros a Ha. unfold item_ref_ok in *. lia.
  - rewrite Eorders. eapply Forall_impl; [exact Ho |]. intros o Hoo. simpl in *.
    eapply Forall_impl; [exact Hoo |]. intros a Ha. unfold item_ref_ok in *. lia.
  - rewrite Ecarts. exact Hca.
  - rewrite Ecarts, Eorders. exact Hoa.
Qed.

(** The cart of one user is replaced by one that holds addresses it held
    before, or live addresses that nothing refers to. *)
Lemma wf_cart_update (s s' : ECommercePlatform) (u : string) (c' : ShoppingCart) :
  wf s ->
  carts s' = <[u := c']> (carts s) ->
  orders s' = orders s -> products s' = products s -> store s' = store s ->
  (forall a, a ∈ cart_refs c' ->
     (exists c, carts s !! u = Some c /\ a ∈ cart_refs c) \/
     (item_ref_ok (store s) a /\ unreferenced s a)) ->
  wf s'.
Proof.
  intros [[Hc Hi Hk Ho] [Hca Hoa]] Ecarts Eorders Eproducts Estore Hnew.
  split; constructor; rewrite ?Ecarts, ?Eorders, ?Eproducts, ?Estore; try assumption.
  - apply map_Forall_insert_2; [| exact Hk].
    apply Forall_forall. intros a Ha.
    destruct (Hnew a Ha) as [(c & Hu & Hin)|[Hlive _]]; [| exact Hlive].
    specialize (Hk u c Hu). simpl in Hk. rewrite Forall_forall in Hk. apply Hk, Hin.
  - intros v w cv cw a Hv Hw Hne Hav Haw.
    destruct (decide (u = v)) as [->|Huv].
    + rewrite lookup_insert_eq in Hv. injection Hv as <-.
      rewrite lookup_insert_ne in Hw by exact Hne.
      destruct (Hnew a Hav) as [(c & Hu & Hin)|[_ [Hfree _]]].
      * exact (Hca v w c cw a Hu Hw Hne Hin Haw).
      * exact (Hfree w cw Hw Haw).
    + rewrite lookup_insert_ne in Hv by exact Huv.
      destruct (decide (u = w)) as [->|Huw].
      * rewrite lookup_insert_eq in Hw. injection Hw as <-.
        destruct (Hnew a Haw) as [(c & Hu & Hin)|[_ [Hfree _]]].
        -- exact (Hca v w cv c a Hv Hu Hne Hav Hin).
        -- exact (Hfree v cv Hv Hav).
      * rewrite lookup_insert_ne in Hw by exact Huw.
        exact (Hca v w cv cw a Hv Hw Hne Hav Haw).
  - intros v cv o a Hv Hoo Hav Hao.
    destruct (decide (u = v)) as [->|Huv].
    + rewrite lookup_insert_eq in Hv. injection Hv as <-.
      destruct (Hnew a Hav) as [(c & Hu & Hin)|[_ [_ Hfree]]].
      * exact (Hoa v c o a Hu Hoo Hin Hao).
      * exact (Hfree o Hoo Hao).
    + rewrite lookup_insert_ne in Hv by exact Huv.
      exact (Hoa v cv o a Hv Hoo Hav Hao).
Qed.

(** The orders are replaced by orders with the item lists of orders that
    were there. *)
Lemma wf_orders_update (s s' : ECommercePlatform) :
  wf s ->
  carts s' = carts s -> products s' = products s -> store s' = store s ->
  (forall o', o' ∈ odict.values (orders s') ->
     exists o, o ∈ odict.values (orders s) /\ o_items o' = o_items o) ->
  wf s'.
Proof.
  intros [[Hc Hi Hk Ho] [Hca Hoa]] Ecarts Eproducts Estore Hnew.
  split; constructor; rewrite ?Ecarts, ?Eproducts, ?Estore; try assumption.
  - apply Forall_forall. intros o' Ho'.
    destruct (Hnew o' Ho') as (o & Hoo & ->).
    rewrite Forall_forall in Ho. apply Ho, Hoo.
  - intros v cv o' a Hv Ho' Hav.
    destruct (Hnew o' Ho') as (o & Hoo & ->).
    exact (Hoa v cv o a Hv Hoo Hav).
Qed.

(** [checkout]: the items of the cart go to a new order, the cart is
    emptied. *)
Lemma wf_checkout (s s' : ECommercePlatform) (u k : string) (c : ShoppingCart)
    (o : Order) :
  wf s ->
  carts s' = <[u := ShoppingCart_.clear c]> (carts s) ->
  orders s' = odict.set k o (orders s) ->
  products s' = products s -> store s' = store s ->
  carts s !! u = Some c ->
  o_items o = cart_refs c ->
  wf s'.
Proof.
  intros [[Hc Hi Hk Ho] [Hca Hoa]] Ecarts Eorders Eproducts Estore Hu Hitems.
  split; constructor; rewrite ?Ecarts, ?Eorders, ?Eproducts, ?Estore; try assumption.
  - apply map_Forall_insert_2; [constructor | exact Hk].
  - apply Forall_forall. intros o' Ho'.
    apply odict_values_set in Ho' as [->|Ho'].
    + rewrite Hitems. exact (Hk u c Hu).
    + rewrite Forall_forall in Ho. apply Ho, Ho'.
  - intros v w cv cw a Hv Hw Hne Hav Haw.
    destruct (decide (u = v)) as [->|Huv].
    + rewrite lookup_insert_eq in Hv. injection Hv as <-.
      apply elem_of_nil in Hav. exact Hav.
    + rewrite lookup_insert_ne in Hv by exact Huv.
      destruct (decide (u = w)) as [->|Huw].
      * rewrite lookup_insert_eq in Hw. injection Hw as <-.
        apply elem_of_nil in Haw. exact Haw.
      * rewrite lookup_insert_ne in Hw by exact Huw.
        exact (Hca v w cv cw a Hv Hw Hne Hav Haw).
  - intros v cv o' a Hv Ho' Hav Hao.
    destruct (decide (u = v)) as [->|Huv].
    + rewrite lookup_insert_eq in Hv. injection Hv as <-.
      apply elem_of_nil in Hav. exact Hav.
    + rewrite lookup_insert_ne in Hv by exact Huv.
      apply odict_values_set in Ho' as [->|Ho'].
      * rewrite Hitems in Hao.
        exact (Hca v u cv c a Hv Hu (not_eq_sym Huv) Hav Hao).
      * exact (Hoa v cv o' a Hv Ho' Hav Hao).
Qed.

(** The next address of the item heap is referred to by nothing. *)
Lemma fresh_item_unreferenced (s s' : ECommercePlatform) :
  refs_ok s -> carts s' = carts s -> orders s' = orders s ->
  unreferenced s' (length (item_objs (store s))).
Proof.
  intros [_ _ Hk Ho] Ecarts Eorders. split.
  - rewrite Ecarts. intros u c Hu Hin. specialize (Hk u c Hu). simpl in Hk.
    rewrite Forall_forall in Hk. specialize (Hk _ Hin). unfold item_ref_ok in Hk. lia.
  - rewrite Eorders. intros o Hoo Hin. rewrite Forall_forall in Ho.
    specialize (Ho o Hoo). simpl in Ho. rewrite Forall_forall in Ho.
    specialize (Ho _ Hin). unfold item_ref_ok in Ho. lia.
Qed.

Section StoreExtends.
Variable st : Store.
Hypothesis st_ok : Forall (fun i => product_ref_ok st (ci_product i)) (item_objs st).

Lemma store_extends_refl : store_extends st st.
Proof. constructor; [lia | lia | exact st_ok]. Qed.

Lemma store_extends_insert_product (a : nat) (p : Product) :
  store_extends st (set_product_objs (fun h => <[a := p]> h) st).
Proof.
  constructor; simpl.
  - rewrite length_insert. lia.
  - lia.
  - eapply Forall_impl; [exact st_ok |]. intros i Hi.
    unfold product_ref_ok in *. simpl. rewrite length_insert. exact Hi.
Qed.

Lemma store_extends_append_product (p : Product) :
  store_extends st (set_product_objs (fun h => h ++ [p]) st).
Proof.
  constructor; simpl.
  - rewrite length_app. lia.
  - lia.
  - eapply Forall_impl; [exact st_ok |]. intros i Hi.
    unfold product_ref_ok in *. simpl. rewrite length_app. lia.
Qed.

Lemma store_extends_insert_item (a : nat) (i : CartItem) (q : Z) :
  item_objs st !! a = Some i ->
  store_extends st
    (set_item_objs (fun h => <[a := {| ci_product := ci_product i;
                                       ci_quantity := q |}]> h) st).
Proof.
  intros Hi. constructor; simpl.
  - lia.
  - rewrite length_insert. lia.
  - apply Forall_insert; [exact st_ok |]. simpl.
    rewrite Forall_forall in st_ok. apply (st_ok i).
    apply list_elem_of_lookup_2 with a. exact Hi.
Qed.

Lemma store_extends_append_item (a : nat) (p : Product) (q : Z) :
  product_objs st !! a = Some p ->
  store_extends st
    (set_item_objs (fun h => h ++ [{| ci_product := a; ci_quantity := q |}]) st).
Proof.
  intros Hp. constructor; simpl.
  - lia.
  - rewrite length_app. lia.
  - apply Forall_app. split; [exact st_ok |].
    constructor; [| constructor]. simpl.
    apply lookup_lt_Some with p. exact Hp.
Qed.
End StoreExtends.

Lemma wf_store_ok (s : ECommercePlatform) :
  wf s -> Forall (fun i => product_ref_ok (store s) (ci_product i)) (item_objs (store s)).
Proof. intros [[_ Hi _ _] _]. exact Hi. Qed.

(** [wf_frame] for a store that extends the old one. *)
Lemma wf_frame_store (s s' : ECommercePlatform) :
  wf s ->
  carts s' = carts s -> orders s' = orders s ->
  (forall a, a ∈ odict.values (products s') ->
     a ∈ odict.values (products s) \/ product_ref_ok (store s') a) ->
  store_extends (store s) (store s') ->
  wf s'.
Proof.
  intros Hwf Ec Eo Hcat [HP HI Hr]. apply (wf_frame s); assumption.
Qed.

(** *** The restocking loop changes stock counts only *)

Lemma with_stock_same (p : Product) : p = with_stock p (p_stock p).
Proof. destruct p; reflexivity. Qed.

Lemma stock_changed_refl (st : Store) : stock_changed st st.
Proof.
  constructor; [reflexivity |].
  apply Forall2_same_length_lookup. split; [reflexivity |].
  intros i p p' Hp Hp'. rewrite Hp in Hp'. injection Hp' as <-.
  exists (p_stock p). apply with_stock_same.
Qed.

Lemma stock_changed_trans (st1 st2 st3 : Store) :
  stock_changed st1 st2 -> stock_changed st2 st3 -> stock_changed st1 st3.
Proof.
  intros [Hi12 Hp12] [Hi23 Hp23]. constructor; [congruence |].
  revert Hp23. generalize (product_objs st3).
  induction Hp12 as [|p p' l l' (n & ->) _ IH]; intros l3 H3.
  - inversion H3. constructor.
  - inversion H3 as [|x p3 lx l3' (m & Hm) Hrest]; subst.
    constructor; [exists m; reflexivity | apply IH, Hrest].
Qed.

Lemma stock_changed_insert (st : Store) (a : nat) (p : Product) (n : Z) :
  product_objs st !! a = Some p ->
  stock_changed st (set_product_objs (fun h => <[a := with_stock p n]> h) st).
Proof.
  intros Hp. constructor; [reflexivity |]. simpl.
  apply Forall2_same_length_lookup. split; [rewrite length_insert; reflexivity |].
  intros i x y Hx Hy.
  destruct (decide (a = i)) as [->|Hne].
  - rewrite list_lookup_insert_eq in Hy by (eapply lookup_lt_Some; exact Hp).
    injection Hy as <-. rewrite Hp in Hx. injection Hx as <-. exists n. reflexivity.
  - rewrite list_lookup_insert_ne in Hy by exact Hne.
    rewrite Hx in Hy. injection Hy as <-. exists (p_stock x). apply with_stock_same.
Qed.

Lemma adjust_stock_changed (a : nat) (q : Z) (st : Store) :
  wp (Product_.adjust_stock a q) (fun _ st' => stock_changed st st') st.
Proof.
  unfold Product_.adjust_stock. wp_run;
    first [apply stock_changed_refl | apply stock_changed_insert; assumption].
Qed.

Lemma restock_item_changed (a : nat) (st : Store) :
  wp (restock_item a) (fun _ st' => stock_changed st st') st.
Proof.
  unfold restock_item. wp_run; [| apply stock_changed_refl].
  apply adjust_stock_changed.
Qed.

(** The rule for the two restocking loops of the platform. *)
Lemma wp_restock_loop (l : list nat) (Q : result unit -> Store -> Prop) (st : Store) :
  (forall r st', stock_changed st st' -> Q r st') ->
  wp (for_each l restock_item) Q st.
Proof.
  intros HQ. unfold wp. apply HQ.
  apply (wp_for_each (fun st' => stock_changed st st') l restock_item st).
  - apply stock_changed_refl.
  - intros x st1 H1. eapply wp_mono; [apply restock_item_changed |].
    intros r st2 H2. simpl in *. eapply stock_changed_trans; eassumption.
Qed.

Lemma store_extends_stock_changed (st st' : Store) :
  Forall (fun i => product_ref_ok st (ci_product i)) (item_objs st) ->
  stock_changed st st' -> store_extends st st'.
Proof.
  intros Hok [Hi Hp]. apply Forall2_length in Hp.
  constructor.
  - rewrite Hp. lia.
  - rewrite Hi. lia.
  - rewrite Hi. eapply Forall_impl; [exact Hok |].
    intros i H. unfold product_ref_ok in *. rewrite <- Hp. exact H.
Qed.

(** *** The layers of an updated state

    The state an operation leaves is the old state under a pile of
    updates.  [wf_build] goes through the pile from the inside and shows
    that each layer is well-formed. *)

Ltac wp_loop :=
  lazymatch goal with
  | |- wp (for_each _ restock_item) _ _ =>
      apply wp_restock_loop; intros [[]|?] ? ?
  end.

Ltac wp_run ::= repeat (first [wp_step | wp_loop | wp_known | wp_case]; simpl_state).

Ltac wf_store_ok_of s1 :=
  apply (wf_store_ok s1); assumption.

Ltac wf_store_layer s1 :=
  apply (wf_frame_store s1);
  [ assumption | reflexivity | reflexivity
  | intros ? ?; left; assumption
  | simpl_state;
    first
      [ apply store_extends_refl; wf_store_ok_of s1
      | apply store_extends_insert_product; wf_store_ok_of s1
      | apply store_extends_append_product; wf_store_ok_of s1
      | eapply store_extends_insert_item; [wf_store_ok_of s1 | eassumption]
      | eapply store_extends_append_item; [wf_store_ok_of s1 | eassumption]
      | apply store_extends_stock_changed; [wf_store_ok_of s1 | eassumption] ] ].

(** The address that [new_item] has just returned is live and free. *)
Ltac wf_fresh s1 :=
  right; split;
  [ unfold item_ref_ok; simpl_state; rewrite length_app; simpl; lia
  | lazymatch s1 with
    | set_store _ ?s2 =>
        apply (fresh_item_unreferenced s2 s1);
        [ match goal with H : wf s2 |- _ => exact (proj1 H) end
        | reflexivity | reflexivity ]
    end ].

(** Where the addresses of the new cart come from. *)
Ltac wf_cart_refs s1 :=
  let a := fresh "a" in
  let Ha := fresh "Ha" in
  intros a Ha; unfold cart_refs in Ha; simpl in Ha;
  first
    [ apply elem_of_nil in Ha; contradiction
    | left; eexists; split; [simpl_state; eassumption | exact Ha]
    | left; eexists; split;
      [simpl_state; apply lookup_insert_eq | apply elem_of_nil in Ha; contradiction]
    | apply odict_values_del in Ha;
      left; eexists; split; [simpl_state; eassumption | exact Ha]
    | apply list_elem_of_singleton in Ha as ->; wf_fresh s1
    | apply odict_values_set in Ha as [->|Ha];
      [ wf_fresh s1
      | first
          [ apply elem_of_nil in Ha; contradiction
          | left; eexists; split; [simpl_state; eassumption | exact Ha] ] ] ].

Ltac wf_cart_layer s1 :=
  eapply (wf_cart_update s1);
  [ assumption | simpl; reflexivity | reflexivity | reflexivity | reflexivity
  | wf_cart_refs s1 ].

Ltac wf_plain_layer s1 :=
  apply (wf_frame_store s1);
  [ assumption | reflexivity | reflexivity
  | intros ? ?; left; assumption
  | simpl_state; apply store_extends_refl; wf_store_ok_of s1 ].

(** The catalog gains the product just created, or loses one. *)
Ltac wf_products_layer s1 :=
  let a := fresh "a" in
  let Ha := fresh "Ha" in
  apply (wf_frame_store s1);
  [ assumption | reflexivity | reflexivity
  | intros a Ha; simpl in Ha;
    first
      [ apply odict_values_del in Ha; left; exact Ha
      | apply odict_values_set in Ha as [->|Ha];
        [ right; unfold product_ref_ok; simpl_state; rewrite length_app; simpl; lia
        | left; exact Ha ] ]
  | simpl_state; apply store_extends_refl; wf_store_ok_of s1 ].

(** An order is updated in place: its items stay. *)
Ltac wf_orders_layer s1 :=
  let o' := fresh "o'" in
  let Ho' := fresh "Ho'" in
  let o1 := fresh "o" in
  let Ho1 := fresh "Ho" in
  apply (wf_orders_update s1);
  [ assumption | reflexivity | reflexivity | reflexivity
  | intros o' Ho'; simpl in Ho';
    apply odict_values_alter_first in Ho' as [Ho'|(o1 & Ho1 & ->)];
    eexists; (split; [eassumption | reflexivity]) ].

(** The last two steps of [checkout]. *)
Ltac wf_checkout_layer s1 :=
  eapply (wf_checkout s1);
  [ assumption | simpl; reflexivity | simpl; reflexivity
  | reflexivity | reflexivity
  | simpl_state; first [eassumption | apply lookup_insert_eq]
  | reflexivity ].

Ltac wf_build t :=
  lazymatch t with
  | set_carts ?f (set_orders ?g ?s1) =>
      wf_build s1; assert (wf t) by (wf_checkout_layer s1)
  | set_store ?f ?s1 =>
      wf_build s1; assert (wf t) by (wf_store_layer s1)
  | set_carts ?f ?s1 =>
      wf_build s1; assert (wf t) by (wf_cart_layer s1)
  | set_orders ?f ?s1 =>
      wf_build s1; assert (wf t) by (wf_orders_layer s1)
  | set_products ?f ?s1 =>
      wf_build s1; assert (wf t) by (wf_products_layer s1)
  | set_categories ?f ?s1 =>
      wf_build s1; assert (wf t) by (wf_plain_layer s1)
  | set_payment_processor ?f ?s1 =>
      wf_build s1; assert (wf t) by (wf_plain_layer s1)
  | _ => idtac
  end.

Ltac wf_leaf :=
  lazymatch goal with
  | |- wf ?t => wf_build t; assumption
  end.

Lemma add_to_cart_wf u pid q s :
  wf s -> wp (ECommercePlatform_.add_to_cart u pid q) (fun _ s' => wf s') s.
Proof.
  intros Hwf.
  unfold ECommercePlatform_.add_to_cart, Product_.adjust_stock,
    ECommercePlatform_.get_cart, ShoppingCart_.add_item, CartItem_.increment.
  wp_run; wf_leaf.
Qed.

Lemma remove_from_cart_wf u pid q s :
  wf s -> wp (ECommercePlatform_.remove_from_cart u pid q) (fun _ s' => wf s') s.
Proof.
  intros Hwf.
  unfold ECommercePlatform_.remove_from_cart, Product_.adjust_stock,
    ECommercePlatform_.get_cart, ShoppingCart_.remove_item.
  wp_run; wf_leaf.
Qed.

Lemma checkout_wf id e u m s :
  wf s -> wp (ECommercePlatform_.checkout id e u m) (fun _ s' => wf s') s.
Proof.
  intros Hwf.
  unfold ECommercePlatform_.checkout, ECommercePlatform_.get_cart,
    PaymentProcessor_.pay.
  wp_run; wf_leaf.
Qed.

Lemma confirm_payment_wf reference kw s :
  wf s -> wp (ECommercePlatform_.confirm_payment reference kw) (fun _ s' => wf s') s.
Proof.
  intros Hwf.
  unfold ECommercePlatform_.confirm_payment, PaymentProcessor_.complete.
  wp_run; wf_leaf.
Qed.

Lemma create_category_wf id name d a s :
  wf s -> wp (ECommercePlatform_.create_category id name d a) (fun _ s' => wf s') s.
Proof.
  intros Hwf. unfold ECommercePlatform_.create_category, _require_admin.
  wp_run; wf_leaf.
Qed.

Lemma add_product_wf id name price stock c a d s :
  wf s -> wp (ECommercePlatform_.add_product id name price stock c a d) (fun _ s' => wf s') s.
Proof.
  intros Hwf. unfold ECommercePlatform_.add_product, _require_admin.
  wp_run; wf_leaf.
Qed.

Lemma remove_product_wf p a s :
  wf s -> wp (ECommercePlatform_.remove_product p a) (fun _ s' => wf s') s.
Proof.
  intros Hwf. unfold ECommercePlatform_.remove_product, _require_admin.
  wp_run; wf_leaf.
Qed.

Lemma get_cart_wf u s :
  wf s -> wp (ECommercePlatform_.get_cart u) (fun _ s' => wf s') s.
Proof.
  intros Hwf. unfold ECommercePlatform_.get_cart.
  wp_run; wf_leaf.
Qed.

Lemma list_orders_wf a s :
  wf s -> wp (ECommercePlatform_.list_orders a) (fun _ s' => wf s') s.
Proof.
  intros Hwf. unfold ECommercePlatform_.list_orders, _require_admin.
  wp_run; wf_leaf.
Qed.

Lemma get_receipt_wf r s :
  wf s -> wp (on_processor (PaymentProcessor_.get_receipt r)) (fun _ s' => wf s') s.
Proof.
  intros Hwf. unfold PaymentProcessor_.get_receipt.
  wp_run; wf_leaf.
Qed.

Lemma delete_category_wf c a s :
  wf s -> wp (ECommercePlatform_.delete_category c a) (fun _ s' => wf s') s.
Proof.
  intros Hwf. unfold ECommercePlatform_.delete_category, _require_admin.
  wp_run; try wf_leaf.
  all: apply (wp_for_each wf); [wf_leaf |];
    intros x s2 H2; wp_run; wf_leaf.
Qed.

(** Every operation of the core keeps the state well-formed. *)
Lemma run_wf (o : op) : preserves wf (run o).
Proof.
  apply preserves_wp. intros s Hwf.
  destruct o; simpl; try apply wp_discard;
    (eapply wp_mono;
     [ first
         [ apply create_category_wf | apply delete_category_wf
         | apply add_product_wf | apply remove_product_wf
         | apply get_cart_wf | apply add_to_cart_wf
         | apply remove_from_cart_wf | apply checkout_wf
         | apply list_orders_wf | apply confirm_payment_wf
         | apply get_receipt_wf ]; exact Hwf
     | intros [?|?] ? H; exact H ]).
Qed.

Lemma exec_all_wf (l : list op) (s : ECommercePlatform) :
  wf s -> wf (exec_all l s).
Proof.
  apply (exec_all_invariant wf (fun _ => true)).
  - intros o _. apply run_wf.
  - apply forallb_true.
Qed.

(** The platform that [bootstrap_platform] builds is well-formed, and so
    is every state reached from it. *)
Lemma bootstrap_platform_wf : wf ECommercePlatform_.bootstrap_platform.
Proof.
  split; constructor; simpl; try constructor.
  - intros u c Hu. rewrite lookup_empty in Hu. discriminate.
  - intros u v cu cv a Hu. rewrite lookup_empty in Hu. discriminate.
  - intros u c o a Hu. rewrite lookup_empty in Hu. discriminate.
Qed.

(** ** Adding to the cart and removing again *)

(** In a well-formed state the items of a cart are live objects. *)
Lemma cart_item_live (s : ECommercePlatform) (u k : string) (c : ShoppingCart)
    (item : nat) :
  wf s -> carts s !! u = Some c -> odict.get k (_items c) = Some item ->
  item_objs (store s) !! item = None -> False.
Proof.
  intros [[_ _ Hk _] _] Hu Hget Hnone.
  specialize (Hk u c Hu). simpl in Hk. rewrite Forall_forall in Hk.
  specialize (Hk item (odict_get_values _ _ _ Hget)).
  apply lookup_lt_is_Some_2 in Hk. rewrite Hnone in Hk. destruct Hk; discriminate.
Qed.

(** Tidies the facts that symbolic execution has collected. *)
Ltac tidy :=
  repeat match goal with
  | H : <[?a := _]> ?l !! ?a = _ |- _ =>
      rewrite list_lookup_insert_eq in H by (eapply lookup_lt_Some; eassumption)
  | H : Some _ = Some _ |- _ => injection H as H; try subst
  | H : Some _ = None |- _ => discriminate H
  | H : None = Some _ |- _ => discriminate H
  | H : (_ <? _) = true |- _ => apply Z.ltb_lt in H
  | H : (_ <? _) = false |- _ => apply Z.ltb_ge in H
  | H : (_ <=? _) = true |- _ => apply Z.leb_le in H
  | H : (_ <=? _) = false |- _ => apply Z.leb_gt in H
  end.

Lemma add_to_cart_returns (s : ECommercePlatform) (u pid : string) (q : Z)
    (a : nat) (p : Product) :
  wf s ->
  odict.get pid (products s) = Some a ->
  product_objs (store s) !! a = Some p ->
  0 <= q <= p_stock p ->
  wp (ECommercePlatform_.add_to_cart u pid q) (fun r s1 =>
    r = Ok tt /\ products s1 = products s /\
    product_objs (store s1)
    = <[a := with_stock p (p_stock p - q)]> (product_objs (store s))) s.
Proof.
  intros Hwf Ha Hp Hq.
  unfold ECommercePlatform_.add_to_cart, Product_.adjust_stock,
    ECommercePlatform_.get_cart, ShoppingCart_.add_item, CartItem_.increment.
  wp_run; tidy; simpl in *; try lia;
    try (exfalso; eapply cart_item_live; eassumption); try congruence;
    repeat split; reflexivity.
Qed.

Lemma remove_from_cart_returns (s : ECommercePlatform) (u pid : string) (q : Z)
    (a : nat) (p : Product) :
  wf s ->
  odict.get pid (products s) = Some a ->
  product_objs (store s) !! a = Some p ->
  0 <= p_stock p + q ->
  wp (ECommercePlatform_.remove_from_cart u pid q) (fun r s2 =>
    r = Ok tt /\ products s2 = products s /\
    product_objs (store s2)
    = <[a := with_stock p (p_stock p + q)]> (product_objs (store s))) s.
Proof.
  intros Hwf Ha Hp Hq.
  unfold ECommercePlatform_.remove_from_cart, Product_.adjust_stock,
    ECommercePlatform_.get_cart, ShoppingCart_.remove_item.
  wp_run; tidy; simpl in *; try lia;
    try (exfalso; eapply cart_item_live; eassumption); try congruence;
    repeat split; reflexivity.
Qed.

Lemma stock_of_inv (s : ECommercePlatform) (pid : string) (z : Z) :
  stock_of s pid = Some z ->
  exists a p, odict.get pid (products s) = Some a /\
              product_objs (store s) !! a = Some p /\ p_stock p = z.
Proof.
  unfold stock_of, stock_at. intros H.
  destruct (odict.get pid (products s)) as [a|]; [| discriminate].
  destruct (product_objs (store s) !! a) as [p|] eqn:Hp; [| discriminate].
  simpl in H. exists a, p. repeat split; congruence.
Qed.

Lemma stock_of_insert (s s' : ECommercePlatform) (pid : string) (a : nat)
    (p : Product) (n : Z) :
  products s' = products s ->
  odict.get pid (products s) = Some a ->
  product_objs (store s) !! a = Some p ->
  product_objs (store s') = <[a := with_stock p n]> (product_objs (store s)) ->
  stock_of s' pid = Some n /\
  product_objs (store s') !! a = Some (with_stock p n).
Proof.
  intros Eprod Ha Hp Estore.
  assert (Hl : product_objs (store s') !! a = Some (with_stock p n)).
  { rewrite Estore. apply list_lookup_insert_eq. eapply lookup_lt_Some. exact Hp. }
  split; [| exact Hl].
  unfold stock_of, stock_at. rewrite Eprod, Ha, Hl. reflexivity.
Qed.

(** C9.  In a well-formed state, for a product of the catalog with stock
    [z] and a quantity [q] with [0 < q <= z]: [add_to_cart] returns and
    leaves the stock at [z - q], the [remove_from_cart] that follows at
    once returns too, and the stock is [z] again. *)
Theorem add_then_remove_restores_stock (s : ECommercePlatform)
    (user_id product_id : string) (q z : Z) :
  wf s ->
  stock_of s product_id = Some z ->
  0 < q <= z ->
  let r1 := ECommercePlatform_.add_to_cart user_id product_id q s in
  let r2 := ECommercePlatform_.remove_from_cart user_id product_id q r1.2 in
  r1.1 = Ok tt /\ stock_of r1.2 product_id = Some (z - q) /\
  r2.1 = Ok tt /\ stock_of r2.2 product_id = stock_of s product_id.
Proof.
  intros Hwf Hz Hq r1 r2.
  destruct (stock_of_inv s product_id z Hz) as (a & p & Ha & Hp & Hpz).
  assert (Hq1 : 0 <= q <= p_stock p) by lia.
  pose proof (add_to_cart_returns s user_id product_id q a p Hwf Ha Hp Hq1)
    as (Hr1 & Eprod1 & Estore1).
  pose proof (add_to_cart_wf user_id product_id q s Hwf) as Hwf1.
  unfold wp in Hwf1. fold r1 in Hr1, Eprod1, Estore1, Hwf1.
  destruct (stock_of_insert s r1.2 product_id a p _ Eprod1 Ha Hp Estore1)
    as [Hs1 Hp1].
  assert (Ha1 : odict.get product_id (products r1.2) = Some a) by congruence.
  assert (Hq2 : 0 <= p_stock (with_stock p (p_stock p - q)) + q) by (simpl; lia).
  pose proof (remove_from_cart_returns r1.2 user_id product_id q a _
                Hwf1 Ha1 Hp1 Hq2) as (Hr2 & Eprod2 & Estore2).
  fold r2 in Hr2, Eprod2, Estore2.
  destruct (stock_of_insert r1.2 r2.2 product_id a _ _ Eprod2 Ha1 Hp1 Estore2)
    as [Hs2 _].
  split; [exact Hr1 |]. split; [rewrite Hs1, Hpz; reflexivity |].
  split; [exact Hr2 |]. rewrite Hs2, Hz. simpl. f_equal. lia.
Qed.

Lemma test_shop_wf : wf test_shop.
Proof. apply exec_all_wf, bootstrap_platform_wf. Qed.

Lemma add_then_remove_restores_stock_witness :
  wf test_shop /\ stock_of test_shop "novel" = Some 5 /\ 0 < 2 <= 5 /\
  (ECommercePlatform_.add_to_cart "alice" "novel" 2 test_shop).1 = Ok tt /\
  stock_of (ECommercePlatform_.add_to_cart "alice" "novel" 2 test_shop).2 "novel"
    = Some (5 - 2) /\
  (ECommercePlatform_.remove_from_cart "alice" "novel" 2
     (ECommercePlatform_.add_to_cart "alice" "novel" 2 test_shop).2).1 = Ok tt /\
  stock_of
    (ECommercePlatform_.remove_from_cart "alice" "novel" 2
       (ECommercePlatform_.add_to_cart "alice" "novel" 2 test_shop).2).2 "novel"
    = stock_of test_shop "novel".
Proof.
  assert (H2 : stock_of test_shop "novel" = Some 5) by reflexivity.
  assert (H3 : 0 < 2 <= 5) by lia.
  split; [exact test_shop_wf |]. split; [exact H2 |]. split; [exact H3 |].
  exact (add_then_remove_restores_stock test_shop "alice" "novel" 2 5
           test_shop_wf H2 H3).
Defined.

(** ** The items and the subtotal of a stored order *)

Lemma prices_kept_same (st st' : Store) :
  product_objs st' = product_objs st -> prices_kept st st'.
Proof.
  intros E b p Hp. exists (p_stock p). rewrite E, <- with_stock_same. exact Hp.
Qed.

Lemma prices_kept_insert (st st' : Store) (a : nat) (p : Product) (n : Z) :
  product_objs st !! a = Some p ->
  product_objs st' = <[a := with_stock p n]> (product_objs st) ->
  prices_kept st st'.
Proof.
  intros Hp E b x Hx. rewrite E.
  destruct (decide (a = b)) as [->|Hne].
  - rewrite list_lookup_insert_eq by (eapply lookup_lt_Some; exact Hp).
    rewrite Hp in Hx. injection Hx as <-. exists n. reflexivity.
  - rewrite list_lookup_insert_ne by exact Hne.
    exists (p_stock x). rewrite <- with_stock_same. exact Hx.
Qed.

Lemma prices_kept_append (st st' : Store) (p : Product) :
  product_objs st' = product_objs st ++ [p] -> prices_kept st st'.
Proof.
  intros E b x Hx. rewrite E. exists (p_stock x).
  rewrite lookup_app_l by (eapply lookup_lt_Some; exact Hx).
  rewrite <- with_stock_same. exact Hx.
Qed.

Lemma prices_kept_stock_changed (st st' : Store) :
  stock_changed st st' -> prices_kept st st'.
Proof.
  intros [_ H] b p Hp.
  destruct (Forall2_lookup_l _ _ _ _ _ H Hp) as (p' & Hp' & n & ->).
  exists n. exact Hp'.
Qed.

Lemma items_kept_same (s : ECommercePlatform) (st' : Store) :
  item_objs st' = item_objs (store s) -> items_kept s st'.
Proof. intros E a i Hi _. rewrite E. exact Hi. Qed.

Lemma items_kept_append (s : ECommercePlatform) (st' : Store) (i : CartItem) :
  item_objs st' = item_objs (store s) ++ [i] -> items_kept s st'.
Proof.
  intros E a x Hx _. rewrite E.
  rewrite lookup_app_l by (eapply lookup_lt_Some; exact Hx). exact Hx.
Qed.

Lemma items_kept_insert (s : ECommercePlatform) (st' : Store) (u k : string)
    (c : ShoppingCart) (item : nat) (i : CartItem) :
  carts s !! u = Some c -> odict.get k (_items c) = Some item ->
  item_objs st' = <[item := i]> (item_objs (store s)) ->
  items_kept s st'.
Proof.
  intros Hu Hget E a x Hx Hfree. rewrite E.
  rewrite list_lookup_insert_ne; [exact Hx |].
  intros ->. apply (Hfree u c Hu). apply (odict_get_values _ _ _ Hget).
Qed.

(** Closes a goal about the store that an operation has left. *)
Ltac kept_leaf :=
  simpl_state; split;
  [ first
      [ apply items_kept_same; simpl; first [reflexivity | eapply same_items; eassumption]
      | eapply items_kept_append; simpl; reflexivity
      | eapply items_kept_insert; [eassumption | eassumption | simpl; reflexivity] ]
  | first
      [ apply prices_kept_same; simpl; reflexivity
      | eapply prices_kept_insert; [eassumption | simpl; reflexivity]
      | eapply prices_kept_append; simpl; reflexivity
      | apply prices_kept_stock_changed; assumption ] ].

(** A cart that has just been created holds nothing. *)
Ltac absurd_empty_cart :=
  exfalso;
  match goal with
  | H : odict.get _ (_items _) = Some _ |- _ => simpl in H; discriminate H
  end.

Lemma add_to_cart_kept u pid q s :
  wp (ECommercePlatform_.add_to_cart u pid q)
     (fun _ s' => items_kept s (store s') /\ prices_kept (store s) (store s')) s.
Proof.
  unfold ECommercePlatform_.add_to_cart, Product_.adjust_stock,
    ECommercePlatform_.get_cart, ShoppingCart_.add_item, CartItem_.increment.
  wp_run; first [kept_leaf | absurd_empty_cart].
Qed.

Lemma remove_from_cart_kept u pid q s :
  wp (ECommercePlatform_.remove_from_cart u pid q)
     (fun _ s' => items_kept s (store s') /\ prices_kept (store s) (store s')) s.
Proof.
  unfold ECommercePlatform_.remove_from_cart, Product_.adjust_stock,
    ECommercePlatform_.get_cart, ShoppingCart_.remove_item.
  wp_run; first [kept_leaf | absurd_empty_cart].
Qed.

Lemma checkout_kept id e u m s :
  wp (ECommercePlatform_.checkout id e u m)
     (fun _ s' => items_kept s (store s') /\ prices_kept (store s) (store s')) s.
Proof.
  unfold ECommercePlatform_.checkout, ECommercePlatform_.get_cart,
    PaymentProcessor_.pay.
  wp_run; kept_leaf.
Qed.

Lemma confirm_payment_kept reference kw s :
  wp (ECommercePlatform_.confirm_payment reference kw)
     (fun _ s' => items_kept s (store s') /\ prices_kept (store s) (store s')) s.
Proof.
  unfold ECommercePlatform_.confirm_payment, PaymentProcessor_.complete.
  wp_run; kept_leaf.
Qed.

Lemma delete_category_kept c a s :
  wp (ECommercePlatform_.delete_category c a)
     (fun _ s' => items_kept s (store s') /\ prices_kept (store s) (store s')) s.
Proof.
  unfold ECommercePlatform_.delete_category, _require_admin.
  wp_run; try kept_leaf.
  all: eapply wp_mono;
    [ apply (wp_for_each (fun s2 => store s2 = store s)); [reflexivity |];
      intros x s2 H2; wp_run; exact H2
    | intros r s2 H2; simpl in H2; rewrite H2;
      split; [apply items_kept_same | apply prices_kept_same]; reflexivity ].
Qed.

(** Every operation of the core leaves the item objects outside the carts
    and the price of every product as they are. *)
Lemma run_kept (o : op) (s : ECommercePlatform) :
  items_kept s (store (exec o s)) /\ prices_kept (store s) (store (exec o s)).
Proof.
  unfold exec. change (wp (run o)
    (fun _ s' => items_kept s (store s') /\ prices_kept (store s) (store s')) s).
  destruct o; simpl; try apply wp_discard.
  - unfold ECommercePlatform_.create_category, _require_admin. wp_run; kept_leaf.
  - apply delete_category_kept.
  - unfold ECommercePlatform_.add_product, _require_admin. wp_run; kept_leaf.
  - unfold ECommercePlatform_.remove_product, _require_admin. wp_run; kept_leaf.
  - unfold ECommercePlatform_.get_cart. wp_run; kept_leaf.
  - apply add_to_cart_kept.
  - apply remove_from_cart_kept.
  - eapply wp_mono; [apply checkout_kept | intros [?|?] ? H; exact H].
  - unfold ECommercePlatform_.list_orders, _require_admin. wp_run; kept_leaf.
  - eapply wp_mono; [apply confirm_payment_kept | intros [?|?] ? H; exact H].
  - unfold PaymentProcessor_.get_receipt. wp_run; kept_leaf.
Qed.

Section odict_lookup.
Context {V : Type}.

Lemma odict_get_set_ne (k k' : string) (v : V) (d : odict.t V) :
  String.eqb k' k = false -> odict.get k (odict.set k' v d) = odict.get k d.
Proof.
  intros Hne. induction d as [|[k0 v0] d IH]; simpl.
  - rewrite String.eqb_sym, Hne. reflexivity.
  - destruct (String.eqb k' k0) eqn:E0; simpl.
    + apply String.eqb_eq in E0. subst k0.
      rewrite String.eqb_sym, Hne. reflexivity.
    + rewrite IH. reflexivity.
Qed.

Lemma odict_get_alter_first (P : V -> bool) (f : V -> V) (k : string)
    (d : odict.t V) (v : V) :
  odict.get k d = Some v ->
  exists v', odict.get k (odict.alter_first P f d) = Some v' /\ (v' = v \/ v' = f v).
Proof.
  induction d as [|[k0 v0] d IH]; simpl; [discriminate |].
  destruct (P v0); simpl; destruct (String.eqb k k0); intros H.
  - injection H as ->. exists (f v). split; [reflexivity | right; reflexivity].
  - exists v. split; [exact H | left; reflexivity].
  - injection H as ->. exists v. split; [reflexivity | left; reflexivity].
  - apply IH, H.
Qed.
End odict_lookup.

(** Closes a goal about the order under [k] after an operation. *)
Ltac order_leaf :=
  simpl_state; simpl;
  first
    [ eexists; split; [eassumption | reflexivity]
    | rewrite odict_get_set_ne by assumption;
      eexists; split; [eassumption | reflexivity]
    | match goal with
      | H : odict.get ?k (orders ?s) = Some ?v
        |- context [odict.alter_first ?P ?f (orders ?s)] =>
          let v' := fresh "v'" in
          let Hv' := fresh "Hv'" in
          destruct (odict_get_alter_first P f k (orders s) v H)
            as (v' & Hv' & [->| ->]);
          eexists; (split; [exact Hv' | reflexivity])
      end ].

(** An order stays stored under its key, with the item list it has,
    unless a later [checkout] is given the same key. *)
Lemma run_keeps_order (o : op) (s : ECommercePlatform) (k : string) (ord : Order) :
  odict.get k (orders s) = Some ord ->
  reuses_id k o = false ->
  exists ord', odict.get k (orders (exec o s)) = Some ord' /\
               o_items ord' = o_items ord.
Proof.
  intros Hk Hid. unfold exec.
  change (wp (run o) (fun _ s' =>
    exists ord', odict.get k (orders s') = Some ord' /\
                 o_items ord' = o_items ord) s).
  destruct o; simpl in *; try apply wp_discard.
  - unfold ECommercePlatform_.create_category, _require_admin. wp_run; order_leaf.
  - unfold ECommercePlatform_.delete_category, _require_admin.
    wp_run; try order_leaf.
    all: eapply wp_mono;
      [ apply (wp_for_each (fun s2 => orders s2 = orders s)); [reflexivity |];
        intros x s2 H2; wp_run; exact H2
      | intros r s2 H2; simpl in H2; rewrite H2;
        eexists; split; [eassumption | reflexivity] ].
  - unfold ECommercePlatform_.add_product, _require_admin. wp_run; order_leaf.
  - unfold ECommercePlatform_.remove_product, _require_admin. wp_run; order_leaf.
  - unfold ECommercePlatform_.get_cart. wp_run; order_leaf.
  - unfold ECommercePlatform_.add_to_cart, Product_.adjust_stock,
      ECommercePlatform_.get_cart, ShoppingCart_.add_item, CartItem_.increment.
    wp_run; order_leaf.
  - unfold ECommercePlatform_.remove_from_cart, Product_.adjust_stock,
      ECommercePlatform_.get_cart, ShoppingCart_.remove_item.
    wp_run; order_leaf.
  - unfold ECommercePlatform_.checkout, ECommercePlatform_.get_cart,
      PaymentProcessor_.pay.
    wp_run; order_leaf.
  - unfold ECommercePlatform_.list_orders, _require_admin. wp_run; order_leaf.
  - unfold ECommercePlatform_.confirm_payment, PaymentProcessor_.complete.
    wp_run; order_leaf.
  - unfold PaymentProcessor_.get_receipt. wp_run; order_leaf.
Qed.

(** [sum] adds the first line total to the integer 0, which hands the
    addition over to the decimal: [0 + d] is [d + Decimal(0)]. *)
Lemma dec_add_int_zero (d : Decimal) :
  dec_add (dec_of_int 0) d = dec_add d (dec_of_int 0).
Proof.
  destruct d as [s c e|s|s [|] p]; try reflexivity.
  unfold dec_add, dec_of_int. simpl.
  rewrite (Z.min_comm e 0), Bool.andb_false_r.
  destruct (c =? 0)%N; reflexivity.
Qed.

Lemma sum_line_totals_ext (st st' : Store) (l : list nat) :
  (forall a, a ∈ l -> CartItem_.line_total st' a = CartItem_.line_total st a) ->
  forall acc, sum_line_totals st' acc l = sum_line_totals st acc l.
Proof.
  induction l as [|a l IH]; intros H acc; simpl; [reflexivity |].
  rewrite (H a) by apply list_elem_of_here.
  destruct (CartItem_.line_total st a) as [d|e]; [| reflexivity].
  destruct (dec_add acc d); [| reflexivity].
  apply IH. intros b Hb. apply H, list_elem_of_further, Hb.
Qed.

(** One step: what an order of a well-formed state shows is not changed
    by a step that keeps the items outside the carts and the prices. *)
Lemma order_view_kept (s : ECommercePlatform) (st' : Store) (ord : Order) :
  wf s -> ord ∈ odict.values (orders s) ->
  items_kept s st' -> prices_kept (store s) st' ->
  map (fun a => item_objs st' !! a) (o_items ord) = order_items s ord /\
  Order_.subtotal st' ord = Order_.subtotal (store s) ord.
Proof.
  intros [[_ Hi _ Ho] [_ Hoa]] Hord Hitems Hprices.
  rewrite Forall_forall in Ho. specialize (Ho ord Hord). simpl in Ho.
  rewrite Forall_forall in Ho.
  assert (Hitem : forall a, a ∈ o_items ord ->
            exists i, item_objs (store s) !! a = Some i /\
                      item_objs st' !! a = Some i).
  { intros a Ha.
    destruct (lookup_lt_is_Some_2 _ _ (Ho a Ha)) as [i Hai].
    exists i. split; [exact Hai |].
    apply (Hitems a i Hai). intros u c Hu Hin. exact (Hoa u c ord a Hu Hord Hin Ha). }
  split.
  - unfold order_items. apply map_ext_in. intros a Ha.
    apply list_elem_of_In in Ha.
    destruct (Hitem a Ha) as (i & H1 & H2). congruence.
  - unfold Order_.subtotal. apply sum_line_totals_ext. intros a Ha.
    destruct (Hitem a Ha) as (i & H1 & H2).
    unfold CartItem_.line_total. rewrite H1, H2.
    rewrite Forall_forall in Hi.
    assert (Hlive : product_ref_ok (store s) (ci_product i)).
    { apply Hi. apply list_elem_of_lookup_2 with a. exact H1. }
    destruct (lookup_lt_is_Some_2 _ _ Hlive) as [p Hp].
    destruct (Hprices _ _ Hp) as (n & Hp'). rewrite Hp, Hp'. reflexivity.
Qed.

Lemma order_subtotal_items (s : ECommercePlatform) (k : string) (ord ord' : Order) :
  odict.get k (orders s) = Some ord' -> o_items ord' = o_items ord ->
  order_subtotal s k = Some (Order_.subtotal (store s) ord).
Proof.
  intros Hk Hitems. unfold order_subtotal, Order_.subtotal. rewrite Hk, Hitems.
  reflexivity.
Qed.

(** C2, as the code has it.  Take an order stored in a well-formed state
    and any sequence of operations of the core in which no [checkout] is
    given the key of that order again.  After the sequence the order is
    still stored under its key with the same list of items, each item
    object is what it was (same product, same quantity), and the subtotal
    computed in the new state is the subtotal computed in the old one. *)
Theorem order_snapshot_is_stable (l : list op) :
  forall (s : ECommercePlatform) (k : string) (ord : Order),
    wf s ->
    odict.get k (orders s) = Some ord ->
    existsb (reuses_id k) l = false ->
    exists ord',
      odict.get k (orders (exec_all l s)) = Some ord' /\
      o_items ord' = o_items ord /\
      order_items (exec_all l s) ord' = order_items s ord /\
      order_subtotal (exec_all l s) k = order_subtotal s k.
Proof.
  induction l as [|o l IH]; intros s k ord Hwf Hk Hids; simpl in *.
  - exists ord. split; [exact Hk |]. repeat split; reflexivity.
  - apply orb_false_elim in Hids as [Hid Hids].
    destruct (run_keeps_order o s k ord Hk Hid) as (ord1 & Hk1 & Hitems1).
    destruct (run_kept o s) as [Hkept Hprices].
    destruct (order_view_kept s (store (exec o s)) ord Hwf
                (odict_get_values _ _ _ Hk) Hkept Hprices) as [Hview Hsub].
    destruct (IH (exec o s) k ord1 (run_wf o s Hwf) Hk1 Hids)
      as (ord' & Hk' & Hitems' & Hview' & Hsub').
    exists ord'. split; [exact Hk' |]. split; [congruence |]. split.
    + rewrite Hview'. unfold order_items at 1. rewrite Hitems1. exact Hview.
    + rewrite Hsub'.
      rewrite (order_subtotal_items (exec o s) k ord ord1 Hk1 Hitems1).
      rewrite (order_subtotal_items s k ord ord Hk eq_refl). rewrite Hsub.
      reflexivity.
Qed.

Lemma test_paid_wf : wf test_paid.
Proof. apply exec_all_wf, test_shop_wf. Qed.

Lemma order_snapshot_is_stable_witness :
  wf test_paid /\
  odict.get "order-1" (orders test_paid) = Some test_order /\
  existsb (reuses_id "order-1") test_later_ops = false /\
  exists ord',
    odict.get "order-1" (orders (exec_all test_later_ops test_paid)) = Some ord' /\
    o_items ord' = o_items test_order /\
    order_items (exec_all test_later_ops test_paid) ord'
    = order_items test_paid test_order /\
    order_subtotal (exec_all test_later_ops test_paid) "order-1"
    = order_subtotal test_paid "order-1".
Proof.
  assert (H2 : odict.get "order-1" (orders test_paid) = Some test_order)
    by reflexivity.
  assert (H3 : existsb (reuses_id "order-1") test_later_ops = false)
    by reflexivity.
  split; [exact test_paid_wf |]. split; [exact H2 |]. split; [exact H3 |].
  exact (order_snapshot_is_stable test_later_ops test_paid "order-1" test_order
           test_paid_wf H2 H3).
Defined.

(** C2 as it is written fails: the subtotal is computed from the price
    that the product object has when it is asked for.  The paid order of
    one copy at 15.00 has the subtotal 15.00; after the price of the
    product has been set to 20.00 the same order, its item list and the
    quantity of its item unchanged, has the subtotal 20.00. *)
Lemma price_change_alters_subtotal :
  order_subtotal test_paid "order-1" = Some (Ok (Finite false 1500 (-2))) /\
  order_subtotal (set_price 0 (Finite false 2000 (-2)) test_paid) "order-1"
    = Some (Ok (Finite false 2000 (-2))) /\
  dec_eqb (Finite false 2000 (-2)) (Finite false 1500 (-2)) = Ok false /\
  orders (set_price 0 (Finite false 2000 (-2)) test_paid) = orders test_paid /\
  order_items (set_price 0 (Finite false 2000 (-2)) test_paid) test_order
    = order_items test_paid test_order /\
  order_subtotal (set_price 0 (Finite false 2000 (-2)) test_paid) "order-1"
    <> order_subtotal test_paid "order-1".
Proof.
  vm_compute. repeat split; try reflexivity. discriminate.
Qed.

(** ** The parts of the failing claims that do hold *)

(** A confirmation by card sets the status by comparing the code given
    with the code stored, whatever the status was (first half of C3). *)
Lemma card_complete_compares_codes (receipt : PaymentReceipt)
    (kw : gmap string pyval) :
  exists updated,
    CardPayment.complete receipt kw = Ok updated /\
    r_status updated
    = (if py_eqb (kw_get "otp" kw) (default PyNone (r_metadata receipt !! "otp"))
       then PaymentStatus.SUCCESS else PaymentStatus.FAILED) /\
    r_reference updated = r_reference receipt.
Proof.
  unfold CardPayment.complete.
  destruct (py_eqb (kw_get "otp" kw) (default PyNone (r_metadata receipt !! "otp")));
    simpl; eexists; repeat split; reflexivity.
Qed.

(** [checkout] on an empty cart raises [ValueError] and changes nothing
    that can be seen (the empty-cart part of C8). *)
Lemma checkout_empty_cart (s : ECommercePlatform) (id : string) (e : Entropy)
    (user_id payment_method : string) :
  cart_of s user_id = [] ->
  (ECommercePlatform_.checkout id e user_id payment_method s).1 = Raise ValueError /\
  orders (ECommercePlatform_.checkout id e user_id payment_method s).2 = orders s /\
  store (ECommercePlatform_.checkout id e user_id payment_method s).2 = store s /\
  payment_processor (ECommercePlatform_.checkout id e user_id payment_method s).2
    = payment_processor s /\
  forall v,
    cart_of (ECommercePlatform_.checkout id e user_id payment_method s).2 v
    = cart_of s v.
Proof.
  unfold cart_of at 1.
  unfold ECommercePlatform_.checkout, ECommercePlatform_.get_cart,
    ShoppingCart_.is_empty, bind, gets, modify, ret, raise.
  destruct (carts s !! user_id) as [cart|] eqn:Hc; simpl.
  - intros ->. repeat split; reflexivity.
  - intros _. repeat split; try reflexivity.
    intros v. apply cart_of_insert_empty, Hc.
Qed.

(** [add_to_cart] with more than the stock raises [ValueError] and leaves
    the state as it was. *)
Lemma add_to_cart_insufficient_stock (s : ECommercePlatform)
    (user_id product_id : string) (q z : Z) :
  stock_of s product_id = Some z -> z < q ->
  ECommercePlatform_.add_to_cart user_id product_id q s = (Raise ValueError, s).
Proof.
  intros Hz Hq.
  destruct (stock_of_inv s product_id z Hz) as (a & p & Ha & Hp & Hpz).
  unfold ECommercePlatform_.add_to_cart, on_store, load_product, bind, gets, raise.
  simpl. rewrite Ha. simpl. rewrite Hp. simpl.
  destruct (p_stock p <? q) eqn:E; [| apply Z.ltb_ge in E; lia].
  destruct s as [pp cats prods cs os st]. reflexivity.
Qed.

(** * Further properties of the code *)

(** ** Password hashes *)

Lemma split_dollar_salt (salt rest : string) :
  no_dollar salt = true ->
  split_dollar (salt +:+ "$" +:+ rest) = Some (salt, rest).
Proof.
  induction salt as [|c salt IH]; simpl; intros H.
  - reflexivity.
  - apply andb_prop in H as [Hc Hs].
    apply negb_true_iff in Hc. rewrite Hc.
    change (String.append salt (String "$" rest)) with (salt +:+ "$" +:+ rest).
    rewrite (IH Hs). reflexivity.
Qed.

Lemma split_dollar_none (h : string) :
  no_dollar h = true -> split_dollar h = None.
Proof.
  induction h as [|c h IH]; simpl; intros H; [reflexivity |].
  apply andb_prop in H as [Hc Hs]. apply negb_true_iff in Hc.
  rewrite Hc, (IH Hs). reflexivity.
Qed.

(** The password that was hashed verifies against the hash. *)
Lemma hash_then_verify (sha256_hexdigest : string -> string)
    (salt password : string) :
  no_dollar salt = true ->
  _verify_password sha256_hexdigest password
    (_hash_password sha256_hexdigest password salt) = Ok true.
Proof.
  intros Hsalt. unfold _verify_password, _hash_password.
  rewrite (split_dollar_salt salt _ Hsalt), String.eqb_refl. reflexivity.
Qed.

(** A password is checked against a hash made with a salt without ["$"]
    by hashing it with the same salt: the password that was hashed
    verifies, and any other verifies exactly when its digest is the same.
    A stored hash without ["$"] makes the check raise [ValueError]. *)
Theorem verify_hash_round_trip (sha256_hexdigest : string -> string)
    (salt password other hashed : string) :
  no_dollar salt = true ->
  no_dollar hashed = true ->
  _verify_password sha256_hexdigest password
    (_hash_password sha256_hexdigest password salt) = Ok true /\
  _verify_password sha256_hexdigest other
    (_hash_password sha256_hexdigest password salt)
  = Ok (String.eqb (sha256_hexdigest (salt +:+ ":" +:+ other))
                   (sha256_hexdigest (salt +:+ ":" +:+ password))) /\
  _verify_password sha256_hexdigest password hashed = Raise ValueError.
Proof.
  intros Hsalt Hhashed. unfold _verify_password, _hash_password.
  rewrite (split_dollar_salt salt _ Hsalt), (split_dollar_none hashed Hhashed).
  rewrite String.eqb_refl. repeat split; reflexivity.
Qed.

Lemma verify_hash_round_trip_witness :
  no_dollar "3fa9c2" = true /\ no_dollar "deadbeef" = true /\
  _verify_password test_sha "secret" (_hash_password test_sha "secret" "3fa9c2")
    = Ok true /\
  _verify_password test_sha "guess" (_hash_password test_sha "secret" "3fa9c2")
    = Ok (String.eqb (test_sha ("3fa9c2" +:+ ":" +:+ "guess"))
                     (test_sha ("3fa9c2" +:+ ":" +:+ "secret"))) /\
  _verify_password test_sha "secret" "deadbeef" = Raise ValueError.
Proof.
  split; [reflexivity |]. split; [reflexivity |].
  exact (verify_hash_round_trip test_sha "3fa9c2" "secret" "guess" "deadbeef"
           eq_refl eq_refl).
Defined.

(** ** Registering users *)

(** [register_user] never replaces a user: under a name that is taken it
    raises [ValueError] and the service is what it was.  The check of the
    administrator comes first: an [AdminUser] registered by an acting
    user who is no administrator is answered with [AuthorizationError]
    (with [AttributeError] when the acting user has no [role]), the
    service unchanged as well. *)
Theorem register_user_never_overwrites (cls : user_class) (user : User)
    (acting_user : option User) (s : AuthService) (u : User) :
  _users s !! username user = Some u ->
  register_user cls user acting_user s
  = (Raise match cls, acting_user with
           | AdminUser, Some acting =>
               match role acting with
               | None => AttributeError
               | Some r =>
                   if String.eqb r "admin" then ValueError
                   else AuthorizationError
               end
           | _, _ => ValueError
           end,
     s).
Proof.
  intros Hu. unfold register_user, bind, gets, modify, ret, raise.
  destruct cls; simpl; rewrite ?Hu; simpl;
    rewrite ?bool_decide_eq_true_2 by eauto; try reflexivity.
  destruct acting_user as [a|]; simpl.
  - destruct (role a) as [r|]; [| reflexivity].
    destruct (String.eqb r "admin"); simpl; [| reflexivity].
    rewrite Hu. rewrite bool_decide_eq_true_2 by eauto. reflexivity.
  - rewrite Hu. rewrite bool_decide_eq_true_2 by eauto. reflexivity.
Qed.

Lemma register_user_never_overwrites_witness :
  _users test_auth !! username test_alice = Some test_alice /\
  register_user CustomerUser test_alice (Some test_admin) test_auth
  = (Raise ValueError, test_auth) /\
  register_user AdminUser test_alice (Some test_alice) test_auth
  = (Raise AuthorizationError, test_auth).
Proof.
  split; [reflexivity |]. split.
  - exact (register_user_never_overwrites CustomerUser test_alice
             (Some test_admin) test_auth test_alice eq_refl).
  - exact (register_user_never_overwrites AdminUser test_alice
             (Some test_alice) test_auth test_alice eq_refl).
Defined.

(** Under a free name the user is stored and found again by [get_user];
    the other users stay.  An [AdminUser] is refused with
    [AuthorizationError] when an acting user is given who is no
    administrator, and accepted when no acting user is given at all. *)
Theorem register_user_new (cls : user_class) (user : User)
    (acting_user : option User) (s : AuthService) :
  _users s !! username user = None ->
  match cls, acting_user with
  | AdminUser, Some acting =>
      match role acting with
      | None => register_user cls user acting_user s = (Raise AttributeError, s)
      | Some r =>
          if String.eqb r "admin"
          then register_user cls user acting_user s
               = (Ok tt, set_users (fun m => <[username user := user]> m) s)
          else register_user cls user acting_user s = (Raise AuthorizationError, s)
      end
  | _, _ =>
      register_user cls user acting_user s
      = (Ok tt, set_users (fun m => <[username user := user]> m) s)
  end /\
  (get_user (username user)
     (set_users (fun m => <[username user := user]> m) s)).1 = Ok (Some user) /\
  forall other, other <> username user ->
    (get_user other (set_users (fun m => <[username user := user]> m) s)).1
    = (get_user other s).1.
Proof.
  intros Hu. split; [| split].
  - unfold register_user, bind, gets, modify, ret, raise.
    destruct cls; simpl; rewrite ?Hu; simpl;
      rewrite ?bool_decide_eq_false_2 by (rewrite ?Hu; intros [? ?]; discriminate);
      try reflexivity.
    destruct acting_user as [a|]; simpl.
    + destruct (role a) as [r|]; [| reflexivity].
      destruct (String.eqb r "admin"); simpl; [| reflexivity].
      rewrite bool_decide_eq_false_2 by (rewrite Hu; intros [? ?]; discriminate).
      reflexivity.
    + rewrite bool_decide_eq_false_2 by (rewrite Hu; intros [? ?]; discriminate).
      reflexivity.
  - unfold get_user, gets. simpl. rewrite lookup_insert_eq. reflexivity.
  - intros other Hne. unfold get_user, gets. simpl.
    rewrite lookup_insert_ne by (intros E; apply Hne; symmetry; exact E).
    reflexivity.
Qed.

Lemma register_user_new_witness :
  _users test_auth !! username test_bob = None /\
  register_user AdminUser test_bob (Some test_alice) test_auth
  = (Raise AuthorizationError, test_auth) /\
  register_user AdminUser test_bob None test_auth
  = (Ok tt, set_users (fun m => <[username test_bob := test_bob]> m) test_auth) /\
  (get_user (username test_bob)
     (set_users (fun m => <[username test_bob := test_bob]> m) test_auth)).1
  = Ok (Some test_bob).
Proof.
  assert (H : _users test_auth !! username test_bob = None) by reflexivity.
  split; [exact H |].
  split; [exact (proj1 (register_user_new AdminUser test_bob (Some test_alice)
                          test_auth H)) |].
  split; [exact (proj1 (register_user_new AdminUser test_bob None test_auth H)) |].
  exact (proj1 (proj2 (register_user_new AdminUser test_bob None test_auth H))).
Defined.

(** ** Sessions *)

Lemma users_in_order_elem (s : AuthService) (values : list User) (x : User) :
  users_in_order s values ->
  (x ∈ values <-> exists n, _users s !! n = Some x).
Proof.
  unfold users_in_order. intros Hp. rewrite Hp. split.
  - intros H. apply list_elem_of_fmap in H as ([n y] & -> & Hin).
    exists n. apply elem_of_map_to_list. exact Hin.
  - intros [n Hn]. apply list_elem_of_fmap. exists (n, x).
    split; [reflexivity |]. apply elem_of_map_to_list. exact Hn.
Qed.

(** With distinct user ids, the scan of [resolve_user] for the id of a
    user of the dictionary finds that user, in whatever order the
    dictionary is walked. *)
Lemma find_user_by_id (s : AuthService) (values : list User) (n : string)
    (u : User) :
  users_in_order s values -> user_ids_unique s ->
  _users s !! n = Some u ->
  List.find (fun user => String.eqb (user_id user) (user_id u)) values = Some u.
Proof.
  intros Hord Huniq Hu.
  destruct (List.find _ values) as [x|] eqn:Hfind.
  - apply find_some in Hfind as [Hin Hid].
    apply String.eqb_eq in Hid.
    apply list_elem_of_In, (users_in_order_elem s values x Hord) in Hin as [m Hm].
    pose proof (Huniq m n x u Hm Hu Hid) as ->.
    rewrite Hm in Hu. exact Hu.
  - exfalso.
    assert (Hin : u ∈ values)
      by (apply (users_in_order_elem s values u Hord); eauto).
    apply list_elem_of_In in Hin.
    pose proof (find_none _ _ Hfind u Hin) as Hne. simpl in Hne.
    rewrite String.eqb_refl in Hne. discriminate.
Qed.

Lemma user_ids_unique_update (s : AuthService) (n : string) (u u' : User) :
  user_ids_unique s -> _users s !! n = Some u -> user_id u' = user_id u ->
  user_ids_unique (set_users (fun m => <[n := u']> m) s).
Proof.
  intros Huniq Hu Hid n1 n2 u1 u2. simpl.
  destruct (decide (n = n1)) as [<-|H1]; destruct (decide (n = n2)) as [<-|H2];
    rewrite ?lookup_insert_eq, ?lookup_insert_ne by assumption.
  - reflexivity.
  - intros [= <-] H2' E. apply (Huniq n n2 u u2 Hu H2'). congruence.
  - intros H1' [= <-] E. apply (Huniq n1 n u1 u H1' Hu). congruence.
  - apply Huniq.
Qed.

(** The token that a successful [login] returns resolves to the user who
    logged in (with the failure count and the lock cleared), whatever the
    order of the dictionary, when the ids of the users are distinct and
    the id of the user is not empty. *)
Theorem login_then_resolve_user (sha256_hexdigest : string -> string)
    (s : AuthService) (name password token : string) (u : User) (now now' : Z)
    (values : list User) :
  _users s !! name = Some u -> active u = true ->
  User_.is_locked now u = false ->
  verify_password sha256_hexdigest u password = Ok true ->
  user_id u <> ""%string ->
  user_ids_unique s ->
  users_in_order (login sha256_hexdigest now now' token name password s).2 values ->
  (login sha256_hexdigest now now' token name password s).1 = Ok token /\
  resolve_user values token (login sha256_hexdigest now now' token name password s).2
  = (Ok (User_.reset_lock u),
     (login sha256_hexdigest now now' token name password s).2).
Proof.
  intros Hu Ha Hl Hv Hid Huniq.
  rewrite (login_right_password sha256_hexdigest s name u now now' token password
             Hu Ha Hl Hv).
  cbn [fst snd]. intros Hord. split; [reflexivity |].
  unfold resolve_user, bind, gets. cbn [fst snd _sessions set_sessions].
  rewrite lookup_insert_eq.
  destruct (String.eqb (user_id u) "") eqn:E;
    [apply String.eqb_eq in E; contradiction |].
  change (user_id u) with (user_id (User_.reset_lock u)).
  rewrite (find_user_by_id _ values name (User_.reset_lock u) Hord).
  - reflexivity.
  - intros n1 n2 u1 u2. cbn [_users set_sessions].
    apply (user_ids_unique_update s name u (User_.reset_lock u) Huniq Hu eq_refl).
  - cbn [_users set_sessions set_users]. apply lookup_insert_eq.
Qed.

Lemma test_auth_ids_unique : user_ids_unique test_auth.
Proof.
  intros n1 n2 u1 u2 H1 H2 E. simpl in H1, H2.
  apply lookup_insert_Some in H1 as [[<- <-]|[_ H1]];
    [| apply lookup_insert_Some in H1 as [[<- <-]|[_ H1]];
       [| rewrite lookup_empty in H1; discriminate H1]];
    (apply lookup_insert_Some in H2 as [[<- <-]|[_ H2]];
     [| apply lookup_insert_Some in H2 as [[<- <-]|[_ H2]];
        [| rewrite lookup_empty in H2; discriminate H2]]);
    try reflexivity; discriminate E.
Qed.

Lemma login_then_resolve_user_witness :
  _users test_auth !! "alice" = Some test_alice /\
  active test_alice = true /\
  User_.is_locked 10 test_alice = false /\
  verify_password test_sha test_alice "password" = Ok true /\
  user_id test_alice <> ""%string /\
  user_ids_unique test_auth /\
  users_in_order (login test_sha 10 10 "token" "alice" "password" test_auth).2
    (map_to_list
       (_users (login test_sha 10 10 "token" "alice" "password" test_auth).2)).*2 /\
  resolve_user
    (map_to_list
       (_users (login test_sha 10 10 "token" "alice" "password" test_auth).2)).*2
    "token" (login test_sha 10 10 "token" "alice" "password" test_auth).2
  = (Ok (User_.reset_lock test_alice),
     (login test_sha 10 10 "token" "alice" "password" test_auth).2).
Proof.
  assert (H5 : user_id test_alice <> ""%string) by discriminate.
  assert (H7 : users_in_order
                 (login test_sha 10 10 "token" "alice" "password" test_auth).2
                 (map_to_list
                    (_users (login test_sha 10 10 "token" "alice" "password"
                               test_auth).2)).*2)
    by (unfold users_in_order; reflexivity).
  repeat (split; [first [reflexivity | exact H5 | exact test_auth_ids_unique
                        | exact H7] |]).
  exact (proj2 (login_then_resolve_user test_sha test_auth "alice" "password"
                  "token" test_alice 10 10 _ eq_refl eq_refl eq_refl eq_refl
                  H5 test_auth_ids_unique H7)).
Defined.

(** After [logout] the token resolves to nobody, whatever the users are,
    and a second [logout] changes nothing any more. *)
Theorem logout_ends_the_session (s : AuthService) (token : string)
    (values : list User) :
  resolve_user values token (logout token s).2
  = (Raise AuthenticationError, (logout token s).2) /\
  logout token (logout token s).2 = (Ok tt, (logout token s).2).
Proof.
  unfold logout, resolve_user, modify, bind, gets, raise. simpl.
  rewrite lookup_delete_eq. split; [reflexivity |].
  unfold set_sessions. simpl. rewrite delete_delete_eq. reflexivity.
Qed.

(** The [logout] of a token that is no session changes nothing. *)
Lemma logout_unknown_token (s : AuthService) (token : string) :
  _sessions s !! token = None -> logout token s = (Ok tt, s).
Proof.
  intros Hnone. unfold logout, modify, set_sessions.
  rewrite delete_id by exact Hnone. destruct s; reflexivity.
Qed.

(** A token whose session holds the empty string as user id does not
    resolve either: the empty id is taken for no id. *)
Lemma resolve_user_empty_id (s : AuthService) (token : string) (values : list User) :
  _sessions s !! token = Some ""%string ->
  resolve_user values token s = (Raise AuthenticationError, s).
Proof.
  intros H. unfold resolve_user, bind, gets. simpl. rewrite H. reflexivity.
Qed.

(** ** Deleting users *)

Lemma require_admin_spec {St} (user : User) (s : St) :
  require_admin user s
  = if bool_decide (role user = Some "admin"%string)
    then (Ok tt, s) else (Raise AuthorizationError, s).
Proof.
  unfold require_admin. destruct (role user) as [r|].
  - destruct (decide (r = "admin"%string)) as [->|Hne].
    + reflexivity.
    + rewrite bool_decide_eq_false_2 by congruence.
      repeat (destruct r as [|[[] [] [] [] [] [] [] []] r]; try reflexivity);
        contradiction Hne; reflexivity.
  - reflexivity.
Qed.

(** [delete_user] is for administrators, and not on themselves: anyone
    else, and an administrator naming their own account, gets [AuthorizationError]
    and nothing is changed. *)
Theorem delete_user_refused (s : AuthService) (name : string) (acting : User) :
  role acting <> Some "admin"%string \/ name = username acting ->
  delete_user name acting s = (Raise AuthorizationError, s).
Proof.
  intros H. unfold delete_user, bind. rewrite require_admin_spec.
  destruct (decide (role acting = Some "admin"%string)) as [Hr|Hr].
  - rewrite bool_decide_eq_true_2 by exact Hr.
    destruct H as [H| ->]; [contradiction |].
    rewrite String.eqb_refl. reflexivity.
  - rewrite bool_decide_eq_false_2 by exact Hr. reflexivity.
Qed.

Lemma delete_user_refused_witness :
  (role test_alice <> Some "admin"%string \/ "admin"%string = username test_alice) /\
  delete_user "admin" test_alice test_auth = (Raise AuthorizationError, test_auth).
Proof.
  assert (H : role test_alice <> Some "admin"%string
              \/ "admin"%string = username test_alice)
    by (left; discriminate).
  split; [exact H |].
  exact (delete_user_refused test_auth "admin" test_alice H).
Defined.

Lemma users_in_order_delete_elem (s : AuthService) (values : list User)
    (name : string) (x : User) :
  users_in_order (set_users (fun m => delete name m) s) values ->
  x ∈ values -> exists n, n <> name /\ _users s !! n = Some x.
Proof.
  intros Hord Hin.
  apply (users_in_order_elem _ values x Hord) in Hin as [n Hn]. simpl in Hn.
  apply lookup_delete_Some in Hn as [Hne Hn]. exists n. split; congruence.
Qed.

(** An administrator deletes another user: the user is gone from the
    dictionary, a login under the name fails with [AuthenticationError],
    and a session of the deleted user, which [delete_user] leaves in
    place, no longer resolves (the ids of the users being distinct). *)
Theorem delete_user_removes (sha256_hexdigest : string -> string)
    (s : AuthService) (name : string) (u acting : User)
    (now now' : Z) (token password session : string) (values : list User) :
  role acting = Some "admin"%string -> name <> username acting ->
  _users s !! name = Some u ->
  user_ids_unique s ->
  _sessions s !! session = Some (user_id u) ->
  users_in_order (delete_user name acting s).2 values ->
  delete_user name acting s = (Ok tt, set_users (fun m => delete name m) s) /\
  login sha256_hexdigest now now' token name password (delete_user name acting s).2
  = (Raise AuthenticationError, (delete_user name acting s).2) /\
  _sessions (delete_user name acting s).2 !! session = Some (user_id u) /\
  resolve_user values session (delete_user name acting s).2
  = (Raise AuthenticationError, (delete_user name acting s).2).
Proof.
  intros Hr Hne Hu Huniq Hsess.
  assert (E : delete_user name acting s
              = (Ok tt, set_users (fun m => delete name m) s)).
  { unfold delete_user, bind. rewrite require_admin_spec.
    rewrite bool_decide_eq_true_2 by exact Hr.
    destruct (String.eqb name (username acting)) eqn:Eq;
      [apply String.eqb_eq in Eq; contradiction | reflexivity]. }
  rewrite E. cbn [snd]. intros Hord.
  split; [reflexivity |]. split; [| split].
  - unfold login, bind, gets, raise. simpl. rewrite lookup_delete_eq. reflexivity.
  - exact Hsess.
  - unfold resolve_user, bind, gets, raise, ret. simpl. rewrite Hsess.
    destruct (String.eqb (user_id u) ""); [reflexivity |].
    destruct (List.find _ values) as [x|] eqn:Hfind; [| reflexivity].
    exfalso. apply find_some in Hfind as [Hin Hid].
    apply String.eqb_eq in Hid. apply list_elem_of_In in Hin.
    destruct (users_in_order_delete_elem s values name x Hord Hin) as (n & Hn & Hx).
    apply Hn. exact (Huniq n name x u Hx Hu Hid).
Qed.

Lemma test_auth_logged_in_ids_unique : user_ids_unique test_auth_logged_in.
Proof.
  apply (user_ids_unique_update test_auth "alice" test_alice
           (User_.reset_lock test_alice) test_auth_ids_unique);
    reflexivity.
Qed.

Lemma delete_user_removes_witness :
  role test_admin = Some "admin"%string /\
  "alice"%string <> username test_admin /\
  _users test_auth_logged_in !! "alice" = Some test_alice /\
  user_ids_unique test_auth_logged_in /\
  _sessions test_auth_logged_in !! "token" = Some (user_id test_alice) /\
  users_in_order (delete_user "alice" test_admin test_auth_logged_in).2
    (map_to_list
       (_users (delete_user "alice" test_admin test_auth_logged_in).2)).*2 /\
  resolve_user
    (map_to_list
       (_users (delete_user "alice" test_admin test_auth_logged_in).2)).*2
    "token" (delete_user "alice" test_admin test_auth_logged_in).2
  = (Raise AuthenticationError,
     (delete_user "alice" test_admin test_auth_logged_in).2).
Proof.
  assert (H2 : "alice"%string <> username test_admin) by discriminate.
  assert (H6 : users_in_order
                 (delete_user "alice" test_admin test_auth_logged_in).2
                 (map_to_list
                    (_users (delete_user "alice" test_admin
                               test_auth_logged_in).2)).*2)
    by (unfold users_in_order; reflexivity).
  repeat (split; [first [reflexivity | exact H2
                        | exact test_auth_logged_in_ids_unique | exact H6] |]).
  exact (proj2 (proj2 (proj2
    (delete_user_removes test_sha test_auth_logged_in "alice" test_alice
       test_admin 0 0 "t" "p" "token" _ eq_refl H2 eq_refl
       test_auth_logged_in_ids_unique eq_refl H6)))).
Defined.

(** ** Password reset *)

Section PasswordReset.
Variable sha256_hexdigest : string -> string.

Lemma request_password_reset_known (s : AuthState) (now : Z)
    (token name : string) (u : User) :
  _users (service s) !! name = Some u ->
  request_password_reset now token name s
  = (Ok token,
     set_reset_tokens (fun m => <[token := (name, now + RESET_WINDOW)]> m) s).
Proof.
  intros Hu. unfold request_password_reset, bind, gets. simpl. rewrite Hu.
  reflexivity.
Qed.

(** A reset token is good once, until it expires.  Within the window,
    [reset_password] sets the new password, which then verifies, clears
    the failure count and the lock, so that a login with the new password
    succeeds at once, and takes the token away: every later
    [reset_password] with it raises [AuthenticationError] and changes
    nothing. *)
Theorem password_reset_flow (s : AuthState) (name token new_password salt : string)
    (u : User) (now now2 : Z) :
  _users (service s) !! name = Some u ->
  active u = true ->
  now2 <= now + RESET_WINDOW ->
  no_dollar salt = true ->
  let s1 := (request_password_reset now token name s).2 in
  let s2 := (reset_password sha256_hexdigest now2 salt token new_password s1).2 in
  (request_password_reset now token name s).1 = Ok token /\
  (reset_password sha256_hexdigest now2 salt token new_password s1).1 = Ok tt /\
  _users (service s2) !! name
  = Some (User_.reset_lock (set_password sha256_hexdigest salt u new_password)) /\
  (forall now3 salt3 password3,
     reset_password sha256_hexdigest now3 salt3 token password3 s2
     = (Raise AuthenticationError, s2)) /\
  (forall t t' session,
     (login sha256_hexdigest t t' session name new_password (service s2)).1
     = Ok session).
Proof.
  intros Hu Ha Hnow Hsalt s1 s2.
  assert (E1 : request_password_reset now token name s
               = (Ok token,
                  set_reset_tokens
                    (fun m => <[token := (name, now + RESET_WINDOW)]> m) s))
    by (apply request_password_reset_known with u; exact Hu).
  assert (E2 : reset_password sha256_hexdigest now2 salt token new_password s1
               = (Ok tt,
                  set_reset_tokens (fun m => delete token m)
                    (set_service
                       (set_users (fun m =>
                          <[name := User_.reset_lock
                                      (set_password sha256_hexdigest salt u
                                         new_password)]> m)) s1))).
  { unfold s1. rewrite E1. cbn [snd].
    unfold reset_password, bind, gets, modify. simpl.
    rewrite lookup_insert_eq. simpl.
    destruct (now + RESET_WINDOW <? now2) eqn:E; [apply Z.ltb_lt in E; lia |].
    simpl. rewrite Hu. reflexivity. }
  subst s2. rewrite E1, E2. cbn [fst snd].
  split; [reflexivity |]. split; [reflexivity |]. split; [| split].
  - simpl. apply lookup_insert_eq.
  - intros now3 salt3 password3.
    unfold reset_password, bind, gets, raise. simpl.
    rewrite lookup_delete_eq. reflexivity.
  - intros t t' session.
    rewrite (login_right_password sha256_hexdigest _ name
               (User_.reset_lock (set_password sha256_hexdigest salt u new_password))
               t t' session new_password).
    + reflexivity.
    + simpl. apply lookup_insert_eq.
    + exact Ha.
    + reflexivity.
    + unfold verify_password. simpl.
      apply (hash_then_verify sha256_hexdigest salt new_password Hsalt).
Qed.

(** A token that is unknown or past its time is refused with
    [AuthenticationError], and so is the request for a user who does not
    exist; nothing is changed. *)
Theorem password_reset_refused (s : AuthState) (now : Z)
    (salt token new_password name : string) :
  match _reset_tokens s !! token with
  | Some (_, expires_at) => expires_at < now
  | None => True
  end ->
  _users (service s) !! name = None ->
  reset_password sha256_hexdigest now salt token new_password s
  = (Raise AuthenticationError, s) /\
  request_password_reset now token name s = (Raise AuthenticationError, s).
Proof.
  intros Htok Hname. split.
  - unfold reset_password, bind, gets, raise. simpl.
    destruct (_reset_tokens s !! token) as [[n e]|]; [| reflexivity].
    simpl. destruct (e <? now) eqn:E; [reflexivity | apply Z.ltb_ge in E; lia].
  - unfold request_password_reset, bind, gets, raise. simpl. rewrite Hname.
    reflexivity.
Qed.

(** A user is deleted while a reset token for that user is out: the token is
    then answered with [KeyError], not with [AuthenticationError], and
    stays in the dictionary. *)
Theorem reset_after_delete_raises_key_error (s : AuthState)
    (name token new_password salt : string) (u acting : User) (now now2 : Z) :
  _users (service s) !! name = Some u ->
  role acting = Some "admin"%string -> name <> username acting ->
  now2 <= now + RESET_WINDOW ->
  let s1 := (request_password_reset now token name s).2 in
  let s2 := (on_service (delete_user name acting) s1).2 in
  (on_service (delete_user name acting) s1).1 = Ok tt /\
  reset_password sha256_hexdigest now2 salt token new_password s2
  = (Raise KeyError, s2).
Proof.
  intros Hu Hr Hne Hnow s1 s2.
  assert (E1 : s1 = set_reset_tokens
                      (fun m => <[token := (name, now + RESET_WINDOW)]> m) s).
  { unfold s1. rewrite (request_password_reset_known s now token name u Hu).
    reflexivity. }
  assert (E2 : on_service (delete_user name acting) s1
               = (Ok tt, set_service (fun _ =>
                           set_users (fun m => delete name m) (service s1)) s1)).
  { unfold on_service, delete_user, bind. rewrite require_admin_spec.
    rewrite bool_decide_eq_true_2 by exact Hr.
    destruct (String.eqb name (username acting)) eqn:Eq;
      [apply String.eqb_eq in Eq; contradiction | reflexivity]. }
  subst s2. rewrite E2. cbn [fst snd]. split; [reflexivity |].
  rewrite E1. unfold reset_password, bind, gets, raise. simpl.
  rewrite lookup_insert_eq. simpl.
  destruct (now + RESET_WINDOW <? now2) eqn:E; [apply Z.ltb_lt in E; lia |].
  simpl. rewrite lookup_delete_eq. reflexivity.
Qed.
End PasswordReset.

Lemma password_reset_flow_witness :
  _users (service test_auth_state) !! "alice" = Some test_alice /\
  active test_alice = true /\
  5 <= 0 + RESET_WINDOW /\
  no_dollar "ab12" = true /\
  (request_password_reset 0 "reset" "alice" test_auth_state).1 = Ok "reset"%string /\
  (reset_password test_sha 5 "ab12" "reset" "secret"
     (request_password_reset 0 "reset" "alice" test_auth_state).2).1 = Ok tt.
Proof.
  assert (Hnow : 5 <= 0 + RESET_WINDOW) by (unfold RESET_WINDOW; lia).
  repeat (split; [first [exact Hnow | reflexivity] |]).
  apply (password_reset_flow test_sha test_auth_state "alice" "reset" "secret"
           "ab12" test_alice 0 5 eq_refl eq_refl Hnow eq_refl).
Defined.

Lemma password_reset_refused_witness :
  _reset_tokens test_auth_state !! "reset" = None /\
  _users (service test_auth_state) !! "carol" = None /\
  reset_password test_sha 5 "ab12" "reset" "secret" test_auth_state
  = (Raise AuthenticationError, test_auth_state) /\
  request_password_reset 5 "reset" "carol" test_auth_state
  = (Raise AuthenticationError, test_auth_state).
Proof.
  split; [reflexivity |]. split; [reflexivity |].
  apply (password_reset_refused test_sha test_auth_state 5 "ab12" "reset"
           "secret" "carol" I eq_refl).
Defined.

Lemma reset_after_delete_raises_key_error_witness :
  _users (service test_auth_state) !! "alice" = Some test_alice /\
  role test_admin = Some "admin"%string /\
  "alice"%string <> username test_admin /\
  5 <= 0 + RESET_WINDOW /\
  (on_service (delete_user "alice" test_admin)
     (request_password_reset 0 "reset" "alice" test_auth_state).2).1 = Ok tt.
Proof.
  assert (Hnow : 5 <= 0 + RESET_WINDOW) by (unfold RESET_WINDOW; lia).
  assert (Hne : "alice"%string <> username test_admin) by discriminate.
  repeat (split; [first [exact Hnow | exact Hne | reflexivity] |]).
  apply (reset_after_delete_raises_key_error test_sha test_auth_state "alice"
           "reset" "secret" "ab12" test_alice test_admin 0 5
           eq_refl eq_refl Hne Hnow).
Defined.

(** ** Administrators only *)

(** The five operations on the catalog and on the list of orders are
    refused to a user whose role is not ["admin"], and nothing is changed.
    The exception is [AuthorizationError]; for a user object without a
    [role] (a plain [User]) it is [AttributeError], since [_require_admin]
    of platform.py reads the attribute directly. *)
Theorem admin_operations_refused (s : ECommercePlatform) (user : User)
    (id name description category_id product_id : string) (price : Decimal)
    (stock : Z) :
  role user <> Some "admin"%string ->
  let e := match role user with
           | None => AttributeError
           | Some _ => AuthorizationError
           end in
  ECommercePlatform_.create_category id name description user s = (Raise e, s) /\
  ECommercePlatform_.delete_category category_id user s = (Raise e, s) /\
  ECommercePlatform_.add_product id name price stock category_id user description s
  = (Raise e, s) /\
  ECommercePlatform_.remove_product product_id user s = (Raise e, s) /\
  ECommercePlatform_.list_orders user s = (Raise e, s).
Proof.
  intros Hrole e.
  assert (H : forall St (st : St), @_require_admin St user st = (Raise e, st)).
  { intros St st. unfold _require_admin, e.
    destruct (role user) as [r|]; [| reflexivity].
    destruct (String.eqb r "admin") eqn:E; [| reflexivity].
    apply String.eqb_eq in E. subst r. contradiction. }
  unfold ECommercePlatform_.create_category, ECommercePlatform_.delete_category,
    ECommercePlatform_.add_product, ECommercePlatform_.remove_product,
    ECommercePlatform_.list_orders, bind.
  rewrite !H. repeat split; reflexivity.
Qed.

Lemma admin_operations_refused_witness :
  role test_alice <> Some "admin"%string /\
  ECommercePlatform_.remove_product "novel" test_alice test_shop
  = (Raise AuthorizationError, test_shop).
Proof.
  assert (H : role test_alice <> Some "admin"%string) by discriminate.
  split; [exact H |].
  apply (admin_operations_refused test_shop test_alice "id" "name" "text"
           "books" "novel" test_price 1 H).
Defined.

(** ** Insertion-ordered dictionaries: entries and keys *)

Section odict_entries.
Context {V : Type}.
Implicit Types (d : odict.t V) (k : string) (v : V).

Lemma odict_get_elem k d v : odict.get k d = Some v -> (k, v) ∈ d.
Proof.
  induction d as [|[k' v'] d IH]; simpl; [discriminate |].
  destruct (String.eqb_spec k k') as [->|Hne].
  - intros [= ->]. apply list_elem_of_here.
  - intros H. apply list_elem_of_further, IH, H.
Qed.

Lemma odict_get_none k d : odict.get k d = None <-> k ∉ d.*1.
Proof.
  induction d as [|[k' v'] d IH]; simpl.
  - split; [intros _; apply not_elem_of_nil | reflexivity].
  - destruct (String.eqb_spec k k') as [->|Hne].
    + split; [discriminate |]. intros H. exfalso. apply H, list_elem_of_here.
    + rewrite IH. rewrite not_elem_of_cons. tauto.
Qed.

Lemma odict_elem_get k d v : NoDup d.*1 -> (k, v) ∈ d -> odict.get k d = Some v.
Proof.
  induction d as [|[k' v'] d IH]; simpl; intros Hn Hin.
  - apply elem_of_nil in Hin. contradiction.
  - apply NoDup_cons in Hn as [Hk' Hn].
    apply elem_of_cons in Hin as [[= -> ->]|Hin].
    + rewrite String.eqb_refl. reflexivity.
    + destruct (String.eqb_spec k k') as [->|Hne].
      * exfalso. apply Hk'. apply list_elem_of_fmap. exists (k', v). auto.
      * apply IH; assumption.
Qed.

Lemma odict_get_del k k' d :
  odict.get k' (odict.del k d)
  = if String.eqb k' k then None else odict.get k' d.
Proof.
  induction d as [|[k0 v0] d IH]; simpl.
  - destruct (String.eqb k' k); reflexivity.
  - destruct (String.eqb_spec k k0) as [->|Hne].
    + rewrite IH. destruct (String.eqb_spec k' k0); reflexivity.
    + simpl. destruct (String.eqb_spec k' k0) as [->|Hne'].
      * destruct (String.eqb_spec k0 k); [congruence | reflexivity].
      * exact IH.
Qed.

Lemma odict_get_set k k' v d :
  odict.get k' (odict.set k v d)
  = if String.eqb k' k then Some v else odict.get k' d.
Proof.
  induction d as [|[k0 v0] d IH]; simpl.
  - destruct (String.eqb k' k); reflexivity.
  - destruct (String.eqb_spec k k0) as [->|Hne]; simpl.
    + destruct (String.eqb_spec k' k0); reflexivity.
    + destruct (String.eqb_spec k' k0) as [->|Hne'].
      * destruct (String.eqb_spec k0 k); [congruence | reflexivity].
      * exact IH.
Qed.

Lemma odict_del_elem k d (kv : string * V) :
  kv ∈ odict.del k d -> kv ∈ d.
Proof.
  induction d as [|[k0 v0] d IH]; simpl; [tauto |].
  destruct (String.eqb k k0).
  - intros H. apply list_elem_of_further, IH, H.
  - intros H. apply elem_of_cons in H as [->|H];
      [apply list_elem_of_here | apply list_elem_of_further, IH, H].
Qed.

Lemma odict_set_elem k v d (kv : string * V) :
  kv ∈ odict.set k v d -> kv = (k, v) \/ kv ∈ d.
Proof.
  induction d as [|[k0 v0] d IH]; simpl.
  - intros H. apply list_elem_of_singleton in H. left. exact H.
  - destruct (String.eqb_spec k k0) as [->|Hne]; intros H;
      apply elem_of_cons in H as [->|H].
    + left. reflexivity.
    + right. apply list_elem_of_further, H.
    + right. apply list_elem_of_here.
    + destruct (IH H) as [->|H']; [left; reflexivity |].
      right. apply list_elem_of_further, H'.
Qed.

Lemma odict_del_keys_once k d : NoDup d.*1 -> NoDup (odict.del k d).*1.
Proof.
  induction d as [|[k0 v0] d IH]; simpl; [auto |].
  intros Hn. apply NoDup_cons in Hn as [Hk0 Hn].
  destruct (String.eqb k k0); [apply IH, Hn |].
  simpl. apply NoDup_cons. split; [| apply IH, Hn].
  intros Hin. apply Hk0.
  apply list_elem_of_fmap in Hin as (kv & -> & Hin).
  apply list_elem_of_fmap. exists kv. split; [reflexivity |].
  eapply odict_del_elem, Hin.
Qed.

Lemma odict_set_keys_once k v d : NoDup d.*1 -> NoDup (odict.set k v d).*1.
Proof.
  induction d as [|[k0 v0] d IH]; simpl.
  - intros _. apply NoDup_singleton.
  - intros Hn. apply NoDup_cons in Hn as [Hk0 Hn].
    destruct (String.eqb_spec k k0) as [->|Hne]; simpl.
    + apply NoDup_cons. split; assumption.
    + apply NoDup_cons. split; [| apply IH, Hn].
      intros Hin. apply list_elem_of_fmap in Hin as (kv & E & Hin).
      apply odict_set_elem in Hin as [->|Hin]; [simpl in E; congruence |].
      apply Hk0. apply list_elem_of_fmap. exists kv. auto.
Qed.
End odict_entries.

(** ** The catalog is keyed by the ids of its products *)

Lemma catalog_keyed_sub (s s' : ECommercePlatform) :
  catalog_keyed s ->
  NoDup (products s').*1 ->
  (forall kv, kv ∈ products s' -> kv ∈ products s) ->
  prices_kept (store s) (store s') ->
  catalog_keyed s'.
Proof.
  intros [Hn Hid] Hn' Hsub Hk. constructor; [exact Hn' |].
  intros k a Hin. destruct (Hid k a (Hsub _ Hin)) as (p & Hp & <-).
  destruct (Hk a p Hp) as [n Hp']. exists (with_stock p n).
  split; [exact Hp' | reflexivity].
Qed.

Lemma catalog_keyed_same (s s' : ECommercePlatform) :
  catalog_keyed s -> products s' = products s ->
  prices_kept (store s) (store s') -> catalog_keyed s'.
Proof.
  intros Hc Ep Hk. apply (catalog_keyed_sub s s' Hc); [| | exact Hk].
  - rewrite Ep. apply Hc.
  - intros kv. rewrite Ep. tauto.
Qed.

Lemma catalog_keyed_del (s s' : ECommercePlatform) (k : string) :
  catalog_keyed s -> products s' = odict.del k (products s) ->
  store s' = store s -> catalog_keyed s'.
Proof.
  intros Hc Ep Es. apply (catalog_keyed_sub s s' Hc).
  - rewrite Ep. apply odict_del_keys_once, Hc.
  - intros kv. rewrite Ep. apply odict_del_elem.
  - apply prices_kept_same. rewrite Es. reflexivity.
Qed.

Lemma catalog_keyed_add (s s' : ECommercePlatform) (id : string) (p : Product) :
  catalog_keyed s ->
  products s' = odict.set id (length (product_objs (store s))) (products s) ->
  product_objs (store s') = product_objs (store s) ++ [p] ->
  p_id p = id ->
  catalog_keyed s'.
Proof.
  intros [Hn Hid] Ep Es Eid. constructor.
  - rewrite Ep. apply odict_set_keys_once, Hn.
  - intros k a. rewrite Ep, Es. intros Hin.
    apply odict_set_elem in Hin as [[= -> ->]|Hin].
    + exists p. split; [| exact Eid].
      rewrite lookup_app_r by lia. rewrite Nat.sub_diag. reflexivity.
    + destruct (Hid k a Hin) as (p0 & Hp0 & <-). exists p0.
      split; [| reflexivity]. rewrite lookup_app_l; [exact Hp0 |].
      eapply lookup_lt_Some, Hp0.
Qed.

Ltac catalog_leaf :=
  first
    [ assumption
    | eapply catalog_keyed_same; [eassumption | reflexivity |];
      apply prices_kept_same; reflexivity
    | eapply catalog_keyed_del; [eassumption | reflexivity | reflexivity]
    | eapply catalog_keyed_add;
      [eassumption | simpl; reflexivity | simpl; reflexivity | reflexivity] ].

Lemma delete_category_catalog_keyed c a s :
  catalog_keyed s ->
  wp (ECommercePlatform_.delete_category c a) (fun _ s' => catalog_keyed s') s.
Proof.
  intros Hc. unfold ECommercePlatform_.delete_category, _require_admin.
  wp_run; try catalog_leaf.
  all: apply (wp_for_each catalog_keyed); [catalog_leaf |];
    intros x s2 H2; wp_run; catalog_leaf.
Qed.

(** The operations other than the three on the catalog leave the
    catalog as it is. *)
Lemma run_keeps_catalog (o : op) (s : ECommercePlatform) :
  match o with
  | DeleteCategory _ _ | AddProduct _ _ _ _ _ _ _ | RemoveProduct _ _ => True
  | _ => products (exec o s) = products s
  end.
Proof.
  destruct o; try exact I; unfold exec;
    match goal with
    | |- products (run ?o s).2 = _ =>
        change (wp (run o) (fun _ s' => products s' = products s) s)
    end; simpl; try apply wp_discard.
  - unfold ECommercePlatform_.create_category, _require_admin. wp_run; reflexivity.
  - unfold ECommercePlatform_.get_cart. wp_run; reflexivity.
  - unfold ECommercePlatform_.add_to_cart, Product_.adjust_stock,
      ECommercePlatform_.get_cart, ShoppingCart_.add_item, CartItem_.increment.
    wp_run; reflexivity.
  - unfold ECommercePlatform_.remove_from_cart, Product_.adjust_stock,
      ECommercePlatform_.get_cart, ShoppingCart_.remove_item.
    wp_run; reflexivity.
  - unfold ECommercePlatform_.checkout, ECommercePlatform_.get_cart,
      PaymentProcessor_.pay.
    wp_run; reflexivity.
  - unfold ECommercePlatform_.list_orders, _require_admin. wp_run; reflexivity.
  - unfold ECommercePlatform_.confirm_payment, PaymentProcessor_.complete.
    wp_run; reflexivity.
  - unfold PaymentProcessor_.get_receipt. wp_run; reflexivity.
Qed.

Lemma run_catalog_keyed (o : op) : preserves catalog_keyed (run o).
Proof.
  intros s Hc.
  pose proof (run_keeps_catalog o s) as Hsame.
  pose proof (run_kept o s) as [_ Hk]. unfold exec in *.
  destruct o;
    try (eapply catalog_keyed_same; [exact Hc | exact Hsame | exact Hk]).
  - apply (delete_category_catalog_keyed _ _ s Hc).
  - simpl. change (wp (discard (ECommercePlatform_.add_product id name price stock
                                  category_id acting_user description))
                      (fun _ s' => catalog_keyed s') s).
    apply wp_discard.
    unfold ECommercePlatform_.add_product, _require_admin. wp_run; catalog_leaf.
  - simpl. change (wp (ECommercePlatform_.remove_product product_id acting_user)
                      (fun _ s' => catalog_keyed s') s).
    unfold ECommercePlatform_.remove_product, _require_admin. wp_run; catalog_leaf.
Qed.

Lemma bootstrap_platform_catalog_keyed :
  catalog_keyed ECommercePlatform_.bootstrap_platform.
Proof.
  constructor; simpl.
  - apply NoDup_nil_2.
  - intros k a H. apply elem_of_nil in H. contradiction.
Qed.

Lemma reachable_catalog_keyed (l : list op) :
  catalog_keyed (exec_all l ECommercePlatform_.bootstrap_platform).
Proof.
  apply (exec_all_invariant catalog_keyed (fun _ => true)).
  - intros o _. apply run_catalog_keyed.
  - apply forallb_true.
  - apply bootstrap_platform_catalog_keyed.
Qed.

(** In every state that the operations of the core reach from
    [bootstrap_platform], a key of the catalog is the [id] of the product
    stored under it, and that product is a live object. *)
Theorem catalog_is_keyed_by_id (l : list op) (k : string) (a : nat) :
  odict.get k (products (exec_all l ECommercePlatform_.bootstrap_platform))
  = Some a ->
  exists p,
    product_objs (store (exec_all l ECommercePlatform_.bootstrap_platform)) !! a
    = Some p /\
    p_id p = k.
Proof.
  intros Hget.
  apply (keys_are_ids _ (reachable_catalog_keyed l)), odict_get_elem, Hget.
Qed.

Lemma catalog_is_keyed_by_id_witness :
  odict.get "novel" (products test_shop) = Some 0%nat /\
  exists p, product_objs (store test_shop) !! 0%nat = Some p /\
            p_id p = "novel"%string.
Proof.
  split; [reflexivity |].
  apply (catalog_is_keyed_by_id
           [CreateCategory "books" "Books" "All books" test_admin;
            AddProduct "novel" "Novel" test_price 5 "books" test_admin ""]
           "novel" 0%nat eq_refl).
Defined.

Lemma test_shop_catalog_keyed : catalog_keyed test_shop.
Proof. apply reachable_catalog_keyed. Qed.

(** ** Deleting a category *)

Lemma set_store_id (s : ECommercePlatform) : set_store (fun _ => store s) s = s.
Proof. destruct s; reflexivity. Qed.

(** One round of the loop of [delete_category], for a product that is
    still in the catalog under its own id. *)
Lemma delete_category_round (c : string) (a : nat) (p : Product)
    (s : ECommercePlatform) :
  product_objs (store s) !! a = Some p ->
  odict.mem (p_id p) (products s) = true ->
  (p <- on_store (load_product a) ;;
   if String.eqb (p_category_id p) c then
     present <- gets (fun s => odict.mem (p_id p) (products s)) ;;
     if present then modify (set_products (odict.del (p_id p)))
     else raise KeyError
   else ret tt) s
  = (Ok tt, if in_category (store s) c a
            then set_products (odict.del (p_id p)) s else s).
Proof.
  intros Hp Hmem. unfold in_category. rewrite Hp.
  unfold bind, on_store, load_product. rewrite Hp. simpl.
  rewrite set_store_id.
  destruct (String.eqb (p_category_id p) c); [| reflexivity].
  unfold gets, modify. rewrite Hmem. reflexivity.
Qed.

(** What the loop has deleted after it has gone through [l]. *)
Lemma delete_category_loop (c : string) (l : odict.t nat) (s : ECommercePlatform) :
  NoDup l.*1 ->
  (forall k a, (k, a) ∈ l ->
     exists p, product_objs (store s) !! a = Some p /\ p_id p = k) ->
  (forall k a, (k, a) ∈ l -> odict.mem k (products s) = true) ->
  for_each (odict.values l) (fun product =>
    p <- on_store (load_product product) ;;
    if String.eqb (p_category_id p) c then
      present <- gets (fun s => odict.mem (p_id p) (products s)) ;;
      if present then modify (set_products (odict.del (p_id p)))
      else raise KeyError
    else ret tt) s
  = (Ok tt,
     set_products (fun d =>
       fold_left (fun d kv =>
         if in_category (store s) c kv.2 then odict.del kv.1 d else d) l d) s).
Proof.
  revert s. induction l as [|[k a] l IH]; intros s Hn Hid Hmem.
  - simpl. destruct s; reflexivity.
  - apply NoDup_cons in Hn as [Hk Hn].
    destruct (Hid k a (list_elem_of_here _ _)) as (p & Hp & Ek).
    pose proof (Hmem k a (list_elem_of_here _ _)) as Hm. rewrite <- Ek in Hm.
    cbn [odict.values map for_each snd]. unfold bind at 1.
    rewrite (delete_category_round c a p s Hp Hm). rewrite Ek.
    destruct (in_category (store s) c a) eqn:Hcat.
    + rewrite IH.
      * cbn [fold_left snd fst]. rewrite Hcat. destruct s; reflexivity.
      * exact Hn.
      * intros k' a' Hin. apply (Hid k' a'), list_elem_of_further, Hin.
      * intros k' a' Hin. cbn [products set_products].
        unfold odict.mem. rewrite odict_get_del.
        destruct (String.eqb_spec k' k) as [->|Hne].
        -- exfalso. apply Hk, list_elem_of_fmap. exists (k, a'). auto.
        -- apply (Hmem k' a'), list_elem_of_further, Hin.
    + rewrite IH.
      * cbn [fold_left snd fst]. rewrite Hcat. reflexivity.
      * exact Hn.
      * intros k' a' Hin. apply (Hid k' a'), list_elem_of_further, Hin.
      * intros k' a' Hin. apply (Hmem k' a'), list_elem_of_further, Hin.
Qed.

Section deletes.
Context {V : Type}.

(** A lookup after a run of deletions. *)
Lemma odict_get_deletes (sel : V -> bool) (l : odict.t V) (d : odict.t V)
    (k : string) :
  odict.get k (fold_left (fun d kv => if sel kv.2 then odict.del kv.1 d else d) l d)
  = if existsb (fun kv => String.eqb k kv.1 && sel kv.2) l then None
    else odict.get k d.
Proof.
  revert d. induction l as [|[k0 v0] l IH]; intros d; simpl; [reflexivity |].
  rewrite IH. destruct (existsb _ l).
  - rewrite orb_true_r. reflexivity.
  - rewrite orb_false_r. destruct (sel v0); simpl.
    + rewrite odict_get_del, andb_true_r. reflexivity.
    + rewrite andb_false_r. reflexivity.
Qed.

Lemma odict_selected (sel : V -> bool) (d : odict.t V) (k : string) :
  NoDup d.*1 ->
  existsb (fun kv => String.eqb k kv.1 && sel kv.2) d
  = match odict.get k d with Some v => sel v | None => false end.
Proof.
  induction d as [|[k0 v0] d IH]; simpl; intros Hn; [reflexivity |].
  apply NoDup_cons in Hn as [Hk0 Hn].
  destruct (String.eqb_spec k k0) as [->|Hne]; simpl.
  - assert (Hnone : odict.get k0 d = None) by (apply odict_get_none, Hk0).
    rewrite (IH Hn), Hnone. apply orb_false_r.
  - apply IH, Hn.
Qed.
End deletes.

(** [delete_category] by an administrator, on a catalog that is keyed by
    the ids of its products, returns; the category is gone, and of the
    products exactly those of the category are gone from the catalog.
    Nothing else changes: the product objects, the carts (which keep
    their lines of the deleted products) and the orders are as before. *)
Theorem delete_category_cascade (s : ECommercePlatform) (category_id : string)
    (acting_user : User) (k : string) :
  role acting_user = Some "admin"%string ->
  catalog_keyed s ->
  (ECommercePlatform_.delete_category category_id acting_user s).1 = Ok tt /\
  categories (ECommercePlatform_.delete_category category_id acting_user s).2
  = delete category_id (categories s) /\
  odict.get k
    (products (ECommercePlatform_.delete_category category_id acting_user s).2)
  = match odict.get k (products s) with
    | Some a => if in_category (store s) category_id a then None else Some a
    | None => None
    end /\
  store (ECommercePlatform_.delete_category category_id acting_user s).2 = store s /\
  carts (ECommercePlatform_.delete_category category_id acting_user s).2 = carts s /\
  orders (ECommercePlatform_.delete_category category_id acting_user s).2 = orders s.
Proof.
  intros Hrole [Hn Hid].
  assert (E : ECommercePlatform_.delete_category category_id acting_user s
              = (Ok tt,
                 set_products (fun d =>
                   fold_left (fun d kv =>
                     if in_category (store s) category_id kv.2
                     then odict.del kv.1 d else d) (products s) d)
                   (set_categories (fun m => delete category_id m) s))).
  { unfold ECommercePlatform_.delete_category, _require_admin.
    rewrite Hrole. simpl String.eqb. unfold bind at 1. unfold ret at 1.
    unfold bind at 1. unfold modify at 1. unfold bind at 1. unfold gets at 1.
    cbn [products set_categories].
    rewrite (delete_category_loop category_id (products s)
               (set_categories (fun m => delete category_id m) s)).
    - reflexivity.
    - exact Hn.
    - exact Hid.
    - intros k' a' Hin. unfold odict.mem. cbn [products set_categories].
      rewrite (odict_elem_get k' (products s) a' Hn Hin). reflexivity. }
  rewrite E.
  cbn [fst snd products categories store carts orders set_products
       set_categories].
  repeat split; try reflexivity.
  rewrite (odict_get_deletes (in_category (store s) category_id)
             (products s) (products s) k), (odict_selected _ _ _ Hn).
  destruct (odict.get k (products s)) as [a|]; [| reflexivity].
  destruct (in_category (store s) category_id a); reflexivity.
Qed.

Lemma delete_category_cascade_witness :
  role test_admin = Some "admin"%string /\
  catalog_keyed test_shop /\
  (ECommercePlatform_.delete_category "books" test_admin test_shop).1 = Ok tt /\
  odict.get "novel"
    (products (ECommercePlatform_.delete_category "books" test_admin test_shop).2)
  = None.
Proof.
  split; [reflexivity |]. split; [exact test_shop_catalog_keyed |].
  pose proof (delete_category_cascade test_shop "books" test_admin "novel"
                eq_refl test_shop_catalog_keyed) as (H1 & _ & H3 & _).
  split; [exact H1 | exact H3].
Defined.

(** ** Adding a product *)

(** [add_product] by an administrator: for a category that does not exist
    it raises [NotFoundError] and changes nothing.  Otherwise it returns
    the new product, which is then in the catalog under its id with the
    name, price, stock and category given (none of them is checked); every
    other key of the catalog and the stock found under it are as
    before. *)
Theorem add_product_by_admin (s : ECommercePlatform) (id name : string)
    (price : Decimal) (stock : Z) (category_id : string) (acting_user : User)
    (description : string) (k : string) :
  role acting_user = Some "admin"%string ->
  wf s ->
  match categories s !! category_id with
  | None =>
      ECommercePlatform_.add_product id name price stock category_id
        acting_user description s
      = (Raise NotFoundError, s)
  | Some _ =>
      exists a,
        (ECommercePlatform_.add_product id name price stock category_id
           acting_user description s).1 = Ok a /\
        odict.get id
          (products (ECommercePlatform_.add_product id name price stock
                       category_id acting_user description s).2) = Some a /\
        product_objs
          (store (ECommercePlatform_.add_product id name price stock
                    category_id acting_user description s).2) !! a
        = Some {| p_id := id; p_name := name; p_price := price;
                  p_stock := stock; p_category_id := category_id;
                  p_description := description; p_metadata := ∅ |} /\
        (k <> id ->
         odict.get k
           (products (ECommercePlatform_.add_product id name price stock
                        category_id acting_user description s).2)
         = odict.get k (products s) /\
         stock_of (ECommercePlatform_.add_product id name price stock
                     category_id acting_user description s).2 k
         = stock_of s k)
  end.
Proof.
  intros Hrole Hwf.
  destruct (categories s !! category_id) as [c|] eqn:Hc.
  - assert (E : ECommercePlatform_.add_product id name price stock category_id
                  acting_user description s
                = (Ok (length (product_objs (store s))),
                   set_products (odict.set id (length (product_objs (store s))))
                     (set_store (fun _ =>
                        set_product_objs (fun h => h ++
                          [{| p_id := id; p_name := name; p_price := price;
                              p_stock := stock; p_category_id := category_id;
                              p_description := description; p_metadata := ∅ |}])
                          (store s)) s))).
    { unfold ECommercePlatform_.add_product, _require_admin.
      rewrite Hrole. simpl String.eqb. unfold bind, gets, ret, modify, on_store,
        new_product. simpl. rewrite Hc.
      rewrite bool_decide_eq_true_2 by eauto. reflexivity. }
    rewrite E. cbn [fst snd]. exists (length (product_objs (store s))).
    split; [reflexivity |]. split; [| split].
    + cbn [products set_products]. rewrite odict_get_set, String.eqb_refl.
      reflexivity.
    + cbn [store set_store set_products product_objs set_product_objs].
      rewrite lookup_app_r by lia. rewrite Nat.sub_diag. reflexivity.
    + intros Hne.
      assert (Hget : odict.get k (odict.set id (length (product_objs (store s)))
                                    (products s))
                     = odict.get k (products s)).
      { rewrite odict_get_set.
        destruct (String.eqb_spec k id); [contradiction | reflexivity]. }
      split; [exact Hget |].
      unfold stock_of, stock_at.
      cbn [products store set_store set_products product_objs set_product_objs].
      rewrite Hget.
      destruct (odict.get k (products s)) as [a|] eqn:Ha; [| reflexivity].
      destruct Hwf as [[Hcat _ _ _] _]. rewrite Forall_forall in Hcat.
      specialize (Hcat a (odict_get_values _ _ _ Ha)).
      rewrite lookup_app_l by exact Hcat. reflexivity.
  - unfold ECommercePlatform_.add_product, _require_admin.
    rewrite Hrole. simpl String.eqb. unfold bind, gets, ret, raise. simpl.
    rewrite Hc. rewrite bool_decide_eq_false_2; [reflexivity |].
    intros [x Hx]. discriminate.
Qed.

Lemma add_product_by_admin_witness :
  role test_admin = Some "admin"%string /\
  wf test_shop /\
  exists a,
    (ECommercePlatform_.add_product "atlas" "Atlas" test_price (-3) "books"
       test_admin "" test_shop).1 = Ok a /\
    stock_of (ECommercePlatform_.add_product "atlas" "Atlas" test_price (-3)
                "books" test_admin "" test_shop).2 "novel"
    = stock_of test_shop "novel".
Proof.
  split; [reflexivity |]. split; [exact test_shop_wf |].
  pose proof (add_product_by_admin test_shop "atlas" "Atlas" test_price (-3)
                "books" test_admin "" "novel" eq_refl test_shop_wf) as H.
  change (categories test_shop !! "books"%string)
    with (Some {| cat_id := "books"; cat_name := "Books";
                  cat_description := "All books" |}) in H.
  destruct H as (a & H1 & _ & _ & H4). exists a.
  split; [exact H1 |]. apply H4. discriminate.
Defined.

(** ** Lines of a cart *)

(** [add_to_cart] for a product that the catalog does not have raises
    [NotFoundError]; for a quantity above the stock it raises
    [ValueError].  Either way nothing is changed, and no cart is
    created. *)
Theorem add_to_cart_refused (s : ECommercePlatform)
    (user_id product_id : string) (q : Z) :
  match odict.get product_id (products s) with
  | Some _ => exists z, stock_of s product_id = Some z /\ z < q
  | None => True
  end ->
  ECommercePlatform_.add_to_cart user_id product_id q s
  = (Raise (if odict.mem product_id (products s) then ValueError
            else NotFoundError), s).
Proof.
  unfold odict.mem, ECommercePlatform_.add_to_cart, bind, gets, raise.
  destruct (odict.get product_id (products s)) as [a|] eqn:Ha; [| reflexivity].
  intros (z & Hz & Hq).
  apply (add_to_cart_insufficient_stock s user_id product_id q z Hz) in Hq.
  unfold ECommercePlatform_.add_to_cart, bind, gets, raise in Hq.
  rewrite Ha in Hq. exact Hq.
Qed.

Lemma add_to_cart_refused_witness :
  (exists z, stock_of test_shop "novel" = Some z /\ z < 6) /\
  ECommercePlatform_.add_to_cart "alice" "novel" 6 test_shop
  = (Raise ValueError, test_shop).
Proof.
  assert (H : exists z, stock_of test_shop "novel" = Some z /\ z < 6).
  { exists 5. split; [reflexivity | lia]. }
  split; [exact H |].
  apply (add_to_cart_refused test_shop "alice" "novel" 6 H).
Defined.

Lemma add_to_cart_line (s : ECommercePlatform) (u pid : string) (q : Z)
    (a : nat) (p : Product) :
  wf s ->
  odict.get pid (products s) = Some a ->
  product_objs (store s) !! a = Some p ->
  p_id p = pid ->
  q <= p_stock p ->
  wp (ECommercePlatform_.add_to_cart u pid q) (fun r s1 =>
    r = Ok tt /\
    stock_of s1 pid = Some (p_stock p - q) /\
    line_quantity s1 u pid = Some (default 0 (line_quantity s u pid) + q)) s.
Proof.
  intros Hwf Ha Hp Hid Hq.
  unfold ECommercePlatform_.add_to_cart, Product_.adjust_stock,
    ECommercePlatform_.get_cart, ShoppingCart_.add_item, CartItem_.increment.
  wp_run; tidy; simpl in *; try lia;
    try (exfalso; eapply cart_item_live; eassumption); try congruence.
  all: split; [reflexivity |];
    unfold stock_of, stock_at, line_quantity, cart_of; simpl_state;
    rewrite Ha, ?lookup_insert_eq;
    rewrite (list_lookup_insert_eq _ a) by (eapply lookup_lt_Some; exact Hp);
    (split; [simpl; f_equal; lia |]);
    cbn [ShoppingCart_.with_items _items odict.get];
    rewrite ?odict_get_set, ?String.eqb_refl.
  - rewrite Heqo, Heqo1, Heqo2.
    rewrite list_lookup_insert_eq by (eapply lookup_lt_Some; exact Heqo2).
    reflexivity.
  - rewrite Heqo, Heqo1.
    rewrite lookup_app_r by lia. rewrite Nat.sub_diag. reflexivity.
  - rewrite Heqo.
    rewrite lookup_app_r by lia. rewrite Nat.sub_diag. reflexivity.
Qed.

Lemma remove_from_cart_line (s : ECommercePlatform) (u pid : string) (q n : Z)
    (a : nat) (p : Product) :
  wf s ->
  odict.get pid (products s) = Some a ->
  product_objs (store s) !! a = Some p ->
  line_quantity s u pid = Some n ->
  0 <= p_stock p + q ->
  wp (ECommercePlatform_.remove_from_cart u pid q) (fun r s2 =>
    r = Ok tt /\
    stock_of s2 pid = Some (p_stock p + q) /\
    line_quantity s2 u pid = (if n - q <=? 0 then None else Some (n - q))) s.
Proof.
  intros Hwf Ha Hp Hline Hq.
  unfold line_quantity, cart_of in Hline.
  destruct (carts s !! u) as [c|] eqn:Hc; [| discriminate].
  destruct (odict.get pid (_items c)) as [item|] eqn:Hitem; [| discriminate].
  destruct (item_objs (store s) !! item) as [i|] eqn:Hi; [| discriminate].
  injection Hline as <-.
  unfold ECommercePlatform_.remove_from_cart, Product_.adjust_stock,
    ECommercePlatform_.get_cart, ShoppingCart_.remove_item.
  wp_run; tidy; simpl in *; try lia; try congruence.
  all: split; [reflexivity |];
    unfold stock_of, stock_at, line_quantity, cart_of; simpl_state;
    rewrite Ha, ?lookup_insert_eq;
    rewrite (list_lookup_insert_eq _ a) by (eapply lookup_lt_Some; exact Hp);
    (split; [reflexivity |]);
    cbn [ShoppingCart_.with_items _items].
  - rewrite odict_get_del, String.eqb_refl.
    destruct (ci_quantity i - q <=? 0) eqn:E; [reflexivity |].
    apply Z.leb_gt in E. lia.
  - rewrite Hitem.
    rewrite list_lookup_insert_eq by (eapply lookup_lt_Some; exact Hi).
    destruct (ci_quantity i - q <=? 0) eqn:E; [| reflexivity].
    apply Z.leb_le in E. simpl in *. lia.
Qed.

Lemma exec_all_catalog_keyed (l : list op) (s : ECommercePlatform) :
  catalog_keyed s -> catalog_keyed (exec_all l s).
Proof.
  apply (exec_all_invariant catalog_keyed (fun _ => true)).
  - intros o _. apply run_catalog_keyed.
  - apply forallb_true.
Qed.

Lemma test_cart_wf : wf test_cart.
Proof. apply exec_all_wf, test_shop_wf. Qed.

Lemma test_cart_catalog_keyed : catalog_keyed test_cart.
Proof. apply exec_all_catalog_keyed, test_shop_catalog_keyed. Qed.

(** [add_to_cart] of a quantity that is not above the stock moves that
    quantity from the stock of the product to the line of the product in
    the cart of the user: the stock goes down by [q], and the line holds
    what it held before plus [q] (a new line of [q] if there was none).
    There is no lower bound on [q]. *)
Theorem add_to_cart_reserves (s : ECommercePlatform)
    (user_id product_id : string) (q z : Z) :
  wf s -> catalog_keyed s ->
  stock_of s product_id = Some z ->
  q <= z ->
  (ECommercePlatform_.add_to_cart user_id product_id q s).1 = Ok tt /\
  stock_of (ECommercePlatform_.add_to_cart user_id product_id q s).2 product_id
  = Some (z - q) /\
  line_quantity (ECommercePlatform_.add_to_cart user_id product_id q s).2
    user_id product_id
  = Some (default 0 (line_quantity s user_id product_id) + q).
Proof.
  intros Hwf Hcat Hz Hq.
  destruct (stock_of_inv s product_id z Hz) as (a & p & Ha & Hp & <-).
  destruct (keys_are_ids s Hcat product_id a (odict_get_elem _ _ _ Ha))
    as (p' & Hp' & Hid).
  assert (p' = p) by congruence. subst p'.
  exact (add_to_cart_line s user_id product_id q a p Hwf Ha Hp Hid Hq).
Qed.

Lemma add_to_cart_reserves_witness :
  wf test_cart /\ catalog_keyed test_cart /\
  stock_of test_cart "novel" = Some 3 /\ 1 <= 3 /\
  line_quantity test_cart "alice" "novel" = Some 2 /\
  line_quantity (ECommercePlatform_.add_to_cart "alice" "novel" 1 test_cart).2
    "alice" "novel" = Some 3.
Proof.
  assert (Hq : 1 <= 3) by lia.
  split; [exact test_cart_wf |]. split; [exact test_cart_catalog_keyed |].
  split; [reflexivity |]. split; [exact Hq |]. split; [reflexivity |].
  apply (add_to_cart_reserves test_cart "alice" "novel" 1 3 test_cart_wf
           test_cart_catalog_keyed eq_refl Hq).
Defined.

(** [remove_from_cart] for a product of the catalog that has a line of
    quantity [n] in the cart of the user: the stock goes up by [q]; the
    line holds [n - q] afterwards, and is deleted when that is not
    positive.  When [q] is above [n] the line is deleted all the same, and
    the stock has gained more than the line held. *)
Theorem remove_from_cart_releases (s : ECommercePlatform)
    (user_id product_id : string) (q z n : Z) :
  wf s ->
  stock_of s product_id = Some z ->
  line_quantity s user_id product_id = Some n ->
  0 <= z + q ->
  (ECommercePlatform_.remove_from_cart user_id product_id q s).1 = Ok tt /\
  stock_of (ECommercePlatform_.remove_from_cart user_id product_id q s).2
    product_id = Some (z + q) /\
  line_quantity (ECommercePlatform_.remove_from_cart user_id product_id q s).2
    user_id product_id
  = (if n - q <=? 0 then None else Some (n - q)).
Proof.
  intros Hwf Hz Hn Hq.
  destruct (stock_of_inv s product_id z Hz) as (a & p & Ha & Hp & <-).
  exact (remove_from_cart_line s user_id product_id q n a p Hwf Ha Hp Hn Hq).
Qed.

Lemma remove_from_cart_releases_witness :
  wf test_cart /\
  stock_of test_cart "novel" = Some 3 /\
  line_quantity test_cart "alice" "novel" = Some 2 /\
  0 <= 3 + 4 /\
  stock_of (ECommercePlatform_.remove_from_cart "alice" "novel" 4 test_cart).2
    "novel" = Some 7 /\
  line_quantity (ECommercePlatform_.remove_from_cart "alice" "novel" 4 test_cart).2
    "alice" "novel" = None.
Proof.
  assert (Hq : 0 <= 3 + 4) by lia.
  split; [exact test_cart_wf |].
  split; [reflexivity |]. split; [reflexivity |]. split; [exact Hq |].
  apply (remove_from_cart_releases test_cart "alice" "novel" 4 3 2 test_cart_wf
           eq_refl eq_refl Hq).
Defined.

(** ** The cart of one user and the operations of the others *)

Lemma cart_quantities_kept (s s' : ECommercePlatform) (v : string) :
  cart_of s' v = cart_of s v ->
  (forall b, b ∈ odict.values (cart_of s v) ->
     item_objs (store s') !! b = item_objs (store s) !! b) ->
  cart_quantities s' v = cart_quantities s v.
Proof.
  intros Ec Hb. unfold cart_quantities. rewrite Ec.
  apply map_ext_in. intros [k b] Hin. simpl. f_equal. f_equal. apply Hb.
  unfold odict.values. apply list_elem_of_In, in_map_iff. exists (k, b). auto.
Qed.

Lemma other_cart_item (s : ECommercePlatform) (u v k : string)
    (cu : ShoppingCart) (n b : nat) :
  wf s -> u <> v ->
  carts s !! u = Some cu -> odict.get k (_items cu) = Some n ->
  b ∈ odict.values (cart_of s v) -> n <> b.
Proof.
  intros [_ [Hapart _]] Hne Hu Hn Hb ->. unfold cart_of in Hb.
  destruct (carts s !! v) as [cv|] eqn:Hv;
    [| apply elem_of_nil in Hb; contradiction].
  apply (Hapart u v cu cv b Hu Hv Hne); [| exact Hb].
  apply (odict_get_values _ _ _ Hn).
Qed.

Lemma other_cart_live (s : ECommercePlatform) (v : string) (b : nat) :
  wf s -> b ∈ odict.values (cart_of s v) ->
  (b < length (item_objs (store s)))%nat.
Proof.
  intros [[_ _ Hk _] _] Hb. unfold cart_of in Hb.
  destruct (carts s !! v) as [cv|] eqn:Hv;
    [| apply elem_of_nil in Hb; contradiction].
  specialize (Hk v cv Hv). simpl in Hk. rewrite Forall_forall in Hk.
  apply Hk, Hb.
Qed.

Ltac other_cart_leaf :=
  apply cart_quantities_kept;
  [ unfold cart_of; simpl_state; rewrite ?lookup_insert_ne by assumption;
    reflexivity
  | let b := fresh "b" in
    let Hb := fresh "Hb" in
    intros b Hb; simpl_state;
    repeat match goal with
           | H : stock_changed _ ?st |- context [item_objs ?st] =>
               rewrite (same_items _ _ H); simpl_state
           end;
    first
      [ reflexivity
      | rewrite list_lookup_insert_ne;
        [reflexivity | eapply other_cart_item; eassumption]
      | apply lookup_app_l; eapply other_cart_live; eassumption ] ].

Lemma other_cart_add (s : ECommercePlatform) (u v : string) (pid : string) (q : Z) :
  wf s -> u <> v ->
  wp (ECommercePlatform_.add_to_cart u pid q)
     (fun _ s' => cart_quantities s' v = cart_quantities s v) s.
Proof.
  intros Hwf Hne.
  unfold ECommercePlatform_.add_to_cart, Product_.adjust_stock,
    ECommercePlatform_.get_cart, ShoppingCart_.add_item, CartItem_.increment.
  wp_run; first [other_cart_leaf | absurd_empty_cart].
Qed.

Lemma other_cart_remove (s : ECommercePlatform) (u v : string) (pid : string)
    (q : Z) :
  wf s -> u <> v ->
  wp (ECommercePlatform_.remove_from_cart u pid q)
     (fun _ s' => cart_quantities s' v = cart_quantities s v) s.
Proof.
  intros Hwf Hne.
  unfold ECommercePlatform_.remove_from_cart, Product_.adjust_stock,
    ECommercePlatform_.get_cart, ShoppingCart_.remove_item.
  wp_run; first [other_cart_leaf | absurd_empty_cart].
Qed.

Lemma other_cart_checkout (s : ECommercePlatform) (id : string) (e : Entropy)
    (u m v : string) :
  wf s -> u <> v ->
  wp (ECommercePlatform_.checkout id e u m)
     (fun _ s' => cart_quantities s' v = cart_quantities s v) s.
Proof.
  intros Hwf Hne.
  unfold ECommercePlatform_.checkout, ECommercePlatform_.get_cart,
    PaymentProcessor_.pay.
  wp_run; other_cart_leaf.
Qed.

Lemma other_cart_confirm (s : ECommercePlatform) (reference : string)
    (kw : gmap string pyval) (v : string) :
  wf s ->
  wp (ECommercePlatform_.confirm_payment reference kw)
     (fun _ s' => cart_quantities s' v = cart_quantities s v) s.
Proof.
  intros Hwf.
  unfold ECommercePlatform_.confirm_payment, PaymentProcessor_.complete.
  wp_run; other_cart_leaf.
Qed.

Lemma other_cart_delete_category (s : ECommercePlatform) (c : string)
    (a : User) (v : string) :
  wp (ECommercePlatform_.delete_category c a)
     (fun _ s' => cart_quantities s' v = cart_quantities s v) s.
Proof.
  unfold ECommercePlatform_.delete_category, _require_admin.
  wp_run; try reflexivity.
  all: eapply wp_mono;
    [ apply (wp_for_each (fun s2 => carts s2 = carts s /\ store s2 = store s));
      [split; reflexivity |];
      intros x s2 H2; wp_run; exact H2
    | intros r s2 [Hc Hs]; simpl in Hc, Hs;
      unfold cart_quantities, cart_of; rewrite Hc, Hs; reflexivity ].
Qed.

(** What the cart of a user shows, its lines and their quantities, is
    changed by no operation on the cart of another user, and by no
    operation on the catalog, the orders or the payments. *)
Theorem other_carts_untouched (o : op) (s : ECommercePlatform) (v : string) :
  wf s -> cart_user o <> Some v ->
  cart_quantities (exec o s) v = cart_quantities s v.
Proof.
  intros Hwf Huser. unfold exec.
  change (wp (run o) (fun _ s' => cart_quantities s' v = cart_quantities s v) s).
  destruct o; simpl in *; try apply wp_discard.
  - unfold ECommercePlatform_.create_category, _require_admin.
    wp_run; reflexivity.
  - apply other_cart_delete_category.
  - unfold ECommercePlatform_.add_product, _require_admin.
    wp_run; reflexivity.
  - unfold ECommercePlatform_.remove_product, _require_admin.
    wp_run; reflexivity.
  - match type of Huser with
    | Some ?u <> _ => assert (Hne : u <> v) by (intros E; apply Huser; f_equal; exact E)
    end.
    unfold ECommercePlatform_.get_cart. wp_run; other_cart_leaf.
  - apply other_cart_add; [exact Hwf | intros E; apply Huser; f_equal; exact E].
  - apply other_cart_remove; [exact Hwf | intros E; apply Huser; f_equal; exact E].
  - eapply wp_mono;
      [apply other_cart_checkout; [exact Hwf | intros E; apply Huser; f_equal; exact E]
      | intros [?|?] ? H; exact H].
  - unfold ECommercePlatform_.list_orders, _require_admin. wp_run; reflexivity.
  - eapply wp_mono;
      [apply other_cart_confirm; exact Hwf | intros [?|?] ? H; exact H].
  - unfold PaymentProcessor_.get_receipt. wp_run; reflexivity.
Qed.

Lemma other_carts_untouched_witness :
  wf test_cart /\
  cart_user (AddToCart "bob" "novel" 1) <> Some "alice"%string /\
  cart_quantities (exec (AddToCart "bob" "novel" 1) test_cart) "alice"
  = [("novel"%string, Some 2)].
Proof.
  assert (H : cart_user (AddToCart "bob" "novel" 1) <> Some "alice"%string)
    by discriminate.
  split; [exact test_cart_wf |]. split; [exact H |].
  apply (other_carts_untouched (AddToCart "bob" "novel" 1) test_cart "alice"
           test_cart_wf H).
Defined.

(** ** Checkout *)

Lemma checkout_places_order_wp (s : ECommercePlatform) (id : string)
    (e : Entropy) (u m : string) (c : ShoppingCart) (strat : PaymentStrategy)
    (amount : Decimal) :
  carts s !! u = Some c ->
  ShoppingCart_.is_empty c = false ->
  _strategies (payment_processor s) !! m = Some strat ->
  ShoppingCart_.total (store s) c = Ok amount ->
  r_status (strategy_pay strat e id amount) <> PaymentStatus.FAILED ->
  wp (ECommercePlatform_.checkout id e u m) (fun r s' =>
    r = Ok {| o_id := id; o_user_id := u; o_items := ShoppingCart_.items c;
              o_status :=
                (if PaymentStatus.eqb (r_status (strategy_pay strat e id amount))
                      PaymentStatus.SUCCESS
                 then OrderStatus.PAID else OrderStatus.CREATED);
              o_payment_reference :=
                Some (r_reference (strategy_pay strat e id amount)) |} /\
    s' = set_carts (fun m => <[u := ShoppingCart_.clear c]> m)
           (set_orders (odict.set id
              {| o_id := id; o_user_id := u; o_items := ShoppingCart_.items c;
                 o_status :=
                   (if PaymentStatus.eqb (r_status (strategy_pay strat e id amount))
                         PaymentStatus.SUCCESS
                    then OrderStatus.PAID else OrderStatus.CREATED);
                 o_payment_reference :=
                   Some (r_reference (strategy_pay strat e id amount)) |})
              (set_payment_processor
                 (PaymentProcessor_.set_transactions (fun t =>
                    <[r_reference (strategy_pay strat e id amount)
                      := strategy_pay strat e id amount]> t)) s))) s.
Proof.
  intros Hc Hne Hstrat Htotal Hstatus.
  assert (Hsub : forall st ref,
            Order_.subtotal (store s)
              {| o_id := id; o_user_id := u; o_items := ShoppingCart_.items c;
                 o_status := st; o_payment_reference := ref |} = Ok amount).
  { intros st ref. exact Htotal. }
  unfold ECommercePlatform_.checkout, ECommercePlatform_.get_cart,
    PaymentProcessor_.pay.
  wp_run;
    rewrite Hsub in *;
    repeat match goal with
           | H : Ok _ = Ok _ |- _ => injection H as H; subst
           | H : Ok _ = Raise _ |- _ => discriminate H
           end;
    cbn [o_id] in *;
    try (exfalso; apply Hstatus; assumption);
    match goal with
    | H : r_status _ = _ |- _ => rewrite H
    end;
    split; reflexivity.
Qed.

(** [checkout] of a cart that is not empty, by a registered payment
    method whose [pay] does not return a failed receipt: the call returns
    the new order, which holds the items of the cart, the reference of the
    receipt, and the status [PAID] if the receipt says [SUCCESS] and
    [CREATED] if it is pending.  The order is stored under its id and the
    receipt under its reference, the cart is empty afterwards, and the
    stock, the catalog, the other orders and the other carts are as
    before.  [amount], the total of the cart, is what the payment method
    is given. *)
Theorem checkout_places_order (s : ECommercePlatform) (id : string)
    (e : Entropy) (user_id payment_method : string) (c : ShoppingCart)
    (strat : PaymentStrategy) (amount : Decimal) (k v : string) :
  carts s !! user_id = Some c ->
  ShoppingCart_.is_empty c = false ->
  _strategies (payment_processor s) !! payment_method = Some strat ->
  ShoppingCart_.total (store s) c = Ok amount ->
  r_status (strategy_pay strat e id amount) <> PaymentStatus.FAILED ->
  (ECommercePlatform_.checkout id e user_id payment_method s).1
  = Ok (placed_order id user_id c (strategy_pay strat e id amount)) /\
  odict.get id
    (orders (ECommercePlatform_.checkout id e user_id payment_method s).2)
  = Some (placed_order id user_id c (strategy_pay strat e id amount)) /\
  _transactions
    (payment_processor
       (ECommercePlatform_.checkout id e user_id payment_method s).2)
    !! r_reference (strategy_pay strat e id amount)
  = Some (strategy_pay strat e id amount) /\
  cart_of (ECommercePlatform_.checkout id e user_id payment_method s).2 user_id
  = [] /\
  store (ECommercePlatform_.checkout id e user_id payment_method s).2 = store s /\
  products (ECommercePlatform_.checkout id e user_id payment_method s).2
  = products s /\
  (k <> id ->
   odict.get k
     (orders (ECommercePlatform_.checkout id e user_id payment_method s).2)
   = odict.get k (orders s)) /\
  (v <> user_id ->
   carts (ECommercePlatform_.checkout id e user_id payment_method s).2 !! v
   = carts s !! v).
Proof.
  intros Hc Hne Hstrat Htotal Hstatus.
  pose proof (checkout_places_order_wp s id e user_id payment_method c strat
                amount Hc Hne Hstrat Htotal Hstatus) as [Hr Hs].
  rewrite Hr, Hs. clear Hr Hs.
  unfold cart_of. simpl_state.
  rewrite odict_get_set, String.eqb_refl, !lookup_insert_eq.
  repeat split.
  - intros Hk. rewrite odict_get_set.
    destruct (String.eqb_spec k id); [contradiction | reflexivity].
  - intros Hv. apply lookup_insert_ne. congruence.
Qed.

Lemma checkout_places_order_witness :
  carts test_cart !! "alice" = Some test_alice_cart /\
  ShoppingCart_.is_empty test_alice_cart = false /\
  _strategies (payment_processor test_cart) !! "upi"
  = Some (UpiPayment.make "upi" "merchant@upi") /\
  ShoppingCart_.total (store test_cart) test_alice_cart = Ok test_total /\
  r_status (strategy_pay (UpiPayment.make "upi" "merchant@upi") test_entropy
              "order-1" test_total) <> PaymentStatus.FAILED /\
  (ECommercePlatform_.checkout "order-1" test_entropy "alice" "upi" test_cart).1
  = Ok {| o_id := "order-1"; o_user_id := "alice"; o_items := [0%nat];
          o_status := OrderStatus.PAID;
          o_payment_reference := Some "UPI-0123456789"%string |}.
Proof.
  assert (H : r_status (strategy_pay (UpiPayment.make "upi" "merchant@upi")
                          test_entropy "order-1" test_total)
              <> PaymentStatus.FAILED) by discriminate.
  repeat (split; [first [exact H | reflexivity] |]).
  apply (checkout_places_order test_cart "order-1" test_entropy "alice" "upi"
           test_alice_cart (UpiPayment.make "upi" "merchant@upi") test_total
           "order-0" "bob" eq_refl eq_refl eq_refl eq_refl H).
Defined.

(** What the arithmetic raises is one of the two signals. *)
Lemma dec_fix_raises (negative : bool) (c : N) (e : Z) (x : exn) :
  dec_fix negative c e = Raise x -> x = Overflow.
Proof.
  unfold dec_fix.
  repeat match goal with
         | |- context [if ?b then _ else _] => destruct b
         end; intros H; congruence.
Qed.

Lemma dec_check_nans_raises (a b : Decimal) (x : exn) :
  dec_check_nans a b = Some (Raise x) -> x = InvalidOperation.
Proof.
  destruct a as [? ? ?|?|? [] ?], b as [? ? ?|?|? [] ?]; simpl; congruence.
Qed.

Lemma dec_mul_raises (a b : Decimal) (x : exn) :
  dec_mul a b = Raise x -> decimal_signal x.
Proof.
  unfold dec_mul, decimal_signal.
  destruct (dec_check_nans a b) as [r|] eqn:Hn.
  - intros ->. right. exact (dec_check_nans_raises a b x Hn).
  - destruct a as [sa ca ea|sa|sa ga pa], b as [sb cb eb|sb|sb gb pb];
      try (intros H; left; exact (dec_fix_raises _ _ _ _ H));
      repeat match goal with
             | |- context [if ?c then _ else _] => destruct c
             end; intros H; first [discriminate H | right; congruence].
Qed.

Lemma dec_add_raises (a b : Decimal) (x : exn) :
  dec_add a b = Raise x -> decimal_signal x.
Proof.
  unfold dec_add, decimal_signal.
  destruct (dec_check_nans a b) as [r|] eqn:Hn.
  - intros ->. right. exact (dec_check_nans_raises a b x Hn).
  - destruct a as [sa ca ea|sa|sa ga pa], b as [sb cb eb|sb|sb gb pb];
      repeat match goal with
             | |- context [if ?c then _ else _] => destruct c
             end; intros H;
      first [ left; exact (dec_fix_raises _ _ _ _ H)
            | discriminate H | right; congruence ].
Qed.

(** In a well-formed state every line of a cart refers to a live item,
    and every item to a live product: if the total of the cart raises, it
    is a signal of the arithmetic. *)
Lemma sum_line_totals_raises (st : Store) (items : list nat) (acc : Decimal)
    (x : exn) :
  Forall (item_ref_ok st) items ->
  Forall (fun i => product_ref_ok st (ci_product i)) (item_objs st) ->
  sum_line_totals st acc items = Raise x -> decimal_signal x.
Proof.
  intros Hitems Hprods. revert acc.
  induction Hitems as [|a items Ha _ IH]; intros acc; simpl; [discriminate |].
  unfold CartItem_.line_total.
  destruct (lookup_lt_is_Some_2 _ _ Ha) as [i Hi]. rewrite Hi.
  rewrite Forall_forall in Hprods.
  assert (Hp : product_ref_ok st (ci_product i)).
  { apply Hprods. eapply list_elem_of_lookup_2, Hi. }
  destruct (lookup_lt_is_Some_2 _ _ Hp) as [p Hp']. rewrite Hp'.
  destruct (dec_mul_int (p_price p) (ci_quantity i)) as [d|y] eqn:Hm.
  - destruct (dec_add acc d) as [acc'|y] eqn:Hadd.
    + apply IH.
    + intros [= <-]. exact (dec_add_raises _ _ _ Hadd).
  - intros [= <-]. exact (dec_mul_raises _ _ _ Hm).
Qed.

Lemma cart_total_raises (s : ECommercePlatform) (u : string) (c : ShoppingCart)
    (x : exn) :
  wf s -> carts s !! u = Some c ->
  ShoppingCart_.total (store s) c = Raise x -> decimal_signal x.
Proof.
  intros [[_ Hi Hk _] _] Hc. apply sum_line_totals_raises.
  - apply (Hk u c Hc).
  - exact Hi.
Qed.

(** No operation of the core registers or removes a payment method. *)
Lemma run_keeps_registry (o : op) (s : ECommercePlatform) :
  _strategies (payment_processor (exec o s)) = _strategies (payment_processor s).
Proof.
  unfold exec.
  change (wp (run o) (fun _ s' => _strategies (payment_processor s')
                                  = _strategies (payment_processor s)) s).
  destruct o; simpl; try apply wp_discard.
  - unfold ECommercePlatform_.create_category, _require_admin. wp_run; reflexivity.
  - unfold ECommercePlatform_.delete_category, _require_admin.
    wp_run; try reflexivity.
    all: apply (wp_for_each (fun s2 => _strategies (payment_processor s2)
                                       = _strategies (payment_processor s)));
      [reflexivity |]; intros x s2 H2; wp_run; exact H2.
  - unfold ECommercePlatform_.add_product, _require_admin. wp_run; reflexivity.
  - unfold ECommercePlatform_.remove_product, _require_admin. wp_run; reflexivity.
  - unfold ECommercePlatform_.get_cart. wp_run; reflexivity.
  - unfold ECommercePlatform_.add_to_cart, Product_.adjust_stock,
      ECommercePlatform_.get_cart, ShoppingCart_.add_item, CartItem_.increment.
    wp_run; reflexivity.
  - unfold ECommercePlatform_.remove_from_cart, Product_.adjust_stock,
      ECommercePlatform_.get_cart, ShoppingCart_.remove_item.
    wp_run; reflexivity.
  - unfold ECommercePlatform_.checkout, ECommercePlatform_.get_cart,
      PaymentProcessor_.pay.
    wp_run; reflexivity.
  - unfold ECommercePlatform_.list_orders, _require_admin. wp_run; reflexivity.
  - unfold ECommercePlatform_.confirm_payment, PaymentProcessor_.complete.
    wp_run; reflexivity.
  - unfold PaymentProcessor_.get_receipt. wp_run; reflexivity.
Qed.

Lemma reachable_registry (l : list op) :
  _strategies (payment_processor (exec_all l ECommercePlatform_.bootstrap_platform))
  = _strategies (payment_processor ECommercePlatform_.bootstrap_platform).
Proof.
  apply (exec_all_invariant
           (fun s => _strategies (payment_processor s)
                     = _strategies (payment_processor
                                      ECommercePlatform_.bootstrap_platform))
           (fun _ => true)).
  - intros o _ s Hs. pose proof (run_keeps_registry o s) as H.
    unfold exec in H. rewrite H. exact Hs.
  - apply forallb_true.
  - reflexivity.
Qed.

(** The four payment methods that [bootstrap_platform] registers. *)
Lemma default_registry (m : string) :
  m ∈ ["card"; "bank_transfer"; "upi"; "cod"]%string ->
  exists strat,
    _strategies (payment_processor ECommercePlatform_.bootstrap_platform) !! m
    = Some strat /\
    strategy_name strat = m /\
    strategy_requires_confirmation strat = negb (String.eqb m "upi") /\
    forall e id amount,
      r_amount (strategy_pay strat e id amount) = amount /\
      r_order_id (strategy_pay strat e id amount) = id /\
      r_method (strategy_pay strat e id amount) = m /\
      r_status (strategy_pay strat e id amount)
      = (if String.eqb m "upi" then PaymentStatus.SUCCESS
         else PaymentStatus.PENDING).
Proof.
  intros Hm. repeat (apply elem_of_cons in Hm as [->|Hm]).
  - exists (CardPayment.make "card" "VISA" true). repeat split.
  - exists (BankTransferPayment.make "bank_transfer" "Demo Bank" true).
    repeat split.
  - exists (UpiPayment.make "upi" "merchant@upi"). repeat split.
  - exists (CashOnDeliveryPayment.make "cod" true). repeat split.
  - apply elem_of_nil in Hm. contradiction.
Qed.

(** In a state reached from [bootstrap_platform], [checkout] of a cart
    that is not empty by one of the four default methods.  The total of
    the cart is computed in the arithmetic of decimals.  When it has a
    value, [checkout] returns the order; the receipt stored for it carries
    the id of the order, the method and, as amount, that total; by ["upi"]
    the receipt is a success and the order [PAID] at once, by the other
    three the receipt is pending and the order [CREATED].  When the total
    raises a signal of the arithmetic ([Overflow] for a total beyond the
    exponents of the context, [InvalidOperation] for a signalling NaN),
    [checkout] raises it and nothing is changed. *)
Theorem checkout_by_default_method (l : list op) (s : ECommercePlatform)
    (id : string) (e : Entropy) (user_id payment_method : string)
    (c : ShoppingCart) :
  s = exec_all l ECommercePlatform_.bootstrap_platform ->
  carts s !! user_id = Some c ->
  ShoppingCart_.is_empty c = false ->
  payment_method ∈ ["card"; "bank_transfer"; "upi"; "cod"]%string ->
  match ShoppingCart_.total (store s) c with
  | Ok amount =>
      exists receipt,
        (ECommercePlatform_.checkout id e user_id payment_method s).1
        = Ok (placed_order id user_id c receipt) /\
        _transactions
          (payment_processor
             (ECommercePlatform_.checkout id e user_id payment_method s).2)
          !! r_reference receipt = Some receipt /\
        r_amount receipt = amount /\
        r_order_id receipt = id /\
        r_method receipt = payment_method /\
        r_status receipt
        = (if String.eqb payment_method "upi" then PaymentStatus.SUCCESS
           else PaymentStatus.PENDING) /\
        o_status (placed_order id user_id c receipt)
        = (if String.eqb payment_method "upi" then OrderStatus.PAID
           else OrderStatus.CREATED)
  | Raise signal =>
      decimal_signal signal /\
      ECommercePlatform_.checkout id e user_id payment_method s
      = (Raise signal, s)
  end.
Proof.
  intros Hs Hc Hne Hm.
  assert (Hwf : wf s).
  { rewrite Hs. apply exec_all_wf, bootstrap_platform_wf. }
  destruct (default_registry payment_method Hm)
    as (strat & Hstrat & _ & _ & Hpay).
  rewrite <- (reachable_registry l), <- Hs in Hstrat.
  destruct (ShoppingCart_.total (store s) c) as [amount|signal] eqn:Htotal.
  - destruct (Hpay e id amount) as (Hamount & Hid & Hmeth & Hstatus).
    assert (Hnf : r_status (strategy_pay strat e id amount)
                  <> PaymentStatus.FAILED).
    { rewrite Hstatus. destruct (String.eqb payment_method "upi"); discriminate. }
    destruct (checkout_places_order_wp s id e user_id payment_method c strat
                amount Hc Hne Hstrat Htotal Hnf) as [Hr Hs'].
    exists (strategy_pay strat e id amount).
    split; [exact Hr |]. split.
    { rewrite Hs'. simpl_state. apply lookup_insert_eq. }
    split; [exact Hamount |].
    split; [exact Hid |]. split; [exact Hmeth |]. split; [exact Hstatus |].
    unfold placed_order. cbn [o_status]. rewrite Hstatus.
    destruct (String.eqb payment_method "upi"); reflexivity.
  - split; [exact (cart_total_raises s user_id c signal Hwf Hc Htotal) |].
    unfold ECommercePlatform_.checkout, ECommercePlatform_.get_cart,
      Order_.subtotal, ShoppingCart_.items.
    unfold bind at 1. unfold bind at 1. unfold gets at 1. rewrite Hc.
    unfold ret at 1. rewrite Hne.
    unfold bind at 1. unfold gets at 1. cbn [o_items].
    change (sum_line_totals (store s) (dec_of_int 0) (odict.values (_items c)))
      with (ShoppingCart_.total (store s) c).
    rewrite Htotal.
    unfold bind at 1. unfold on_processor, PaymentProcessor_.pay.
    unfold bind at 1. unfold gets at 1. rewrite Hstrat.
    unfold bind at 1. unfold of_result.
    rewrite set_payment_processor_id. reflexivity.
Qed.

Lemma checkout_by_default_method_witness :
  carts test_cart !! "alice" = Some test_alice_cart /\
  ShoppingCart_.is_empty test_alice_cart = false /\
  ShoppingCart_.total (store test_cart) test_alice_cart = Ok test_total /\
  (exists receipt,
     (ECommercePlatform_.checkout "order-1" test_entropy "alice" "cod" test_cart).1
     = Ok (placed_order "order-1" "alice" test_alice_cart receipt) /\
     r_amount receipt = test_total) /\
  carts test_dear !! "alice" = Some test_dear_cart /\
  ShoppingCart_.total (store test_dear) test_dear_cart = Raise Overflow /\
  ECommercePlatform_.checkout "order-1" test_entropy "alice" "cod" test_dear
  = (Raise Overflow, test_dear).
Proof.
  assert (Hm : "cod"%string ∈ ["card"; "bank_transfer"; "upi"; "cod"]%string).
  { repeat first [apply list_elem_of_here | apply list_elem_of_further]. }
  assert (Ht : ShoppingCart_.total (store test_cart) test_alice_cart
               = Ok test_total) by reflexivity.
  assert (Hd : ShoppingCart_.total (store test_dear) test_dear_cart
               = Raise Overflow) by reflexivity.
  pose proof (checkout_by_default_method
                [CreateCategory "books" "Books" "All books" test_admin;
                 AddProduct "novel" "Novel" test_price 5 "books" test_admin "";
                 AddToCart "alice" "novel" 2]
                test_cart "order-1" test_entropy "alice" "cod" test_alice_cart
                eq_refl eq_refl eq_refl Hm) as H1.
  rewrite Ht in H1. destruct H1 as (receipt & H1 & _ & H3 & _).
  pose proof (checkout_by_default_method
                [CreateCategory "gems" "Gems" "" test_admin;
                 AddProduct "gem" "Gem" (Finite false 9 999999) 5 "gems"
                   test_admin "";
                 AddToCart "alice" "gem" 2]
                test_dear "order-1" test_entropy "alice" "cod" test_dear_cart
                eq_refl eq_refl eq_refl Hm) as H2.
  rewrite Hd in H2. destruct H2 as [_ H2].
  split; [reflexivity |]. split; [reflexivity |]. split; [exact Ht |].
  split; [exists receipt; split; [exact H1 | exact H3] |].
  split; [reflexivity |]. split; [exact Hd | exact H2].
Defined.

(** ** Confirming a payment *)

(** [confirm_payment] raises [PaymentError] and changes nothing when the
    reference is unknown, when the method of the receipt is not
    registered any more, and when the method does not ask for a
    confirmation (as UPI, whose receipt is a success from the start). *)
Theorem confirm_payment_refused (s : ECommercePlatform) (reference : string)
    (kw : gmap string pyval) :
  match _transactions (payment_processor s) !! reference with
  | None => True
  | Some receipt =>
      match _strategies (payment_processor s) !! r_method receipt with
      | None => True
      | Some strat => strategy_requires_confirmation strat = false
      end
  end ->
  ECommercePlatform_.confirm_payment reference kw s = (Raise PaymentError, s).
Proof.
  intros H.
  unfold ECommercePlatform_.confirm_payment, on_processor,
    PaymentProcessor_.complete, bind, gets, raise.
  destruct (_transactions (payment_processor s) !! reference) as [receipt|];
    simpl; [| rewrite set_payment_processor_id; reflexivity].
  destruct (_strategies (payment_processor s) !! r_method receipt) as [strat|];
    simpl; [| rewrite set_payment_processor_id; reflexivity].
  rewrite H. simpl. rewrite set_payment_processor_id. reflexivity.
Qed.

Lemma confirm_payment_refused_witness :
  order_status test_upi "order-1" = Some OrderStatus.PAID /\
  ECommercePlatform_.confirm_payment "UPI-0123456789" right_code test_upi
  = (Raise PaymentError, test_upi).
Proof.
  split; [reflexivity |].
  apply (confirm_payment_refused test_upi "UPI-0123456789" right_code).
  reflexivity.
Defined.

Section alter_first_facts.
Context {V : Type}.
Implicit Types (d : odict.t V) (P : V -> bool) (f : V -> V).

Lemma odict_find_alter_first P f d v :
  odict.find_value P d = Some v -> P (f v) = true ->
  odict.find_value P (odict.alter_first P f d) = Some (f v).
Proof.
  intros Hfind Hf. induction d as [|[k0 v0] d IH]; simpl in *; [discriminate |].
  destruct (P v0) eqn:E; simpl.
  - injection Hfind as ->. rewrite Hf. reflexivity.
  - rewrite E. apply IH, Hfind.
Qed.

Lemma odict_alter_first_keys P f d :
  (odict.alter_first P f d).*1 = d.*1.
Proof.
  induction d as [|[k0 v0] d IH]; [reflexivity |].
  cbn [odict.alter_first]. destruct (P v0); [reflexivity |].
  rewrite !fmap_cons, IH. reflexivity.
Qed.

Lemma odict_get_alter_first_other P f d k v :
  odict.get k d = Some v -> P v = false ->
  odict.get k (odict.alter_first P f d) = Some v.
Proof.
  induction d as [|[k0 v0] d IH]; simpl; [discriminate |].
  destruct (P v0) eqn:E; simpl; destruct (String.eqb k k0); intros H Hv;
    try exact H; try (apply IH; assumption).
  injection H as ->. congruence.
Qed.
End alter_first_facts.

(** What [confirm_payment] does up to the point where the status of the
    updated receipt is looked at. *)
Lemma confirm_payment_completes (s : ECommercePlatform) (reference : string)
    (kw : gmap string pyval) (receipt updated : PaymentReceipt)
    (strat : PaymentStrategy) (order : Order) :
  _transactions (payment_processor s) !! reference = Some receipt ->
  _strategies (payment_processor s) !! r_method receipt = Some strat ->
  strategy_requires_confirmation strat = true ->
  strategy_complete strat receipt kw = Ok updated ->
  odict.find_value (has_reference reference) (orders s) = Some order ->
  ECommercePlatform_.confirm_payment reference kw s
  = (if PaymentStatus.eqb (r_status updated) PaymentStatus.SUCCESS then
       (modify (set_orders (odict.alter_first (has_reference reference)
                              (fun o => Order_.mark_paid o reference))) ;;;
        ret (Order_.mark_paid order reference))
     else
       (modify (set_orders (odict.alter_first (has_reference reference)
                              (fun o => Order_.with_status o OrderStatus.FAILED))) ;;;
        on_store (for_each (o_items order) restock_item) ;;;
        ret (Order_.with_status order OrderStatus.FAILED)))
      (set_payment_processor
         (PaymentProcessor_.set_transactions (fun t => <[reference := updated]> t))
         s).
Proof.
  intros Hr Hs Hc Hu Ho.
  unfold ECommercePlatform_.confirm_payment.
  unfold bind at 1. unfold on_processor, PaymentProcessor_.complete.
  unfold bind at 1. unfold gets at 1. rewrite Hr.
  unfold bind at 1. unfold gets at 1. rewrite Hs, Hc. simpl negb. cbv iota.
  rewrite Hu. unfold bind at 1. unfold modify at 1. unfold ret at 1.
  unfold bind at 1. unfold gets at 1.
  cbn [negb]. cbv beta iota zeta. simpl_state. rewrite Ho.
  reflexivity.
Qed.

(** A confirmation that the payment method accepts: the first order that
    carries the reference is returned with status [PAID]; it is found
    under the reference as before, the updated receipt is stored, the
    orders keep their keys and their order, an order with another
    reference is not changed, and neither are stock and carts. *)
Theorem confirm_payment_marks_paid (s : ECommercePlatform) (reference : string)
    (kw : gmap string pyval) (receipt updated : PaymentReceipt)
    (strat : PaymentStrategy) (order : Order) :
  _transactions (payment_processor s) !! reference = Some receipt ->
  _strategies (payment_processor s) !! r_method receipt = Some strat ->
  strategy_requires_confirmation strat = true ->
  strategy_complete strat receipt kw = Ok updated ->
  r_status updated = PaymentStatus.SUCCESS ->
  odict.find_value (has_reference reference) (orders s) = Some order ->
  (ECommercePlatform_.confirm_payment reference kw s).1
  = Ok (Order_.mark_paid order reference) /\
  odict.find_value (has_reference reference)
    (orders (ECommercePlatform_.confirm_payment reference kw s).2)
  = Some (Order_.mark_paid order reference) /\
  _transactions
    (payment_processor (ECommercePlatform_.confirm_payment reference kw s).2)
    !! reference = Some updated /\
  (orders (ECommercePlatform_.confirm_payment reference kw s).2).*1
  = (orders s).*1 /\
  (forall k other,
     odict.get k (orders s) = Some other ->
     has_reference reference other = false ->
     odict.get k (orders (ECommercePlatform_.confirm_payment reference kw s).2)
     = Some other) /\
  store (ECommercePlatform_.confirm_payment reference kw s).2 = store s /\
  carts (ECommercePlatform_.confirm_payment reference kw s).2 = carts s.
Proof.
  intros Hr Hs Hc Hu Hst Ho.
  rewrite (confirm_payment_completes s reference kw receipt updated strat order
             Hr Hs Hc Hu Ho).
  rewrite Hst. simpl PaymentStatus.eqb. cbv iota.
  unfold bind, modify, ret. simpl_state.
  split; [reflexivity |]. split.
  { apply (odict_find_alter_first (has_reference reference)
             (fun o => Order_.mark_paid o reference) (orders s) order Ho).
    unfold has_reference. apply bool_decide_eq_true_2. reflexivity. }
  split; [apply lookup_insert_eq |].
  split; [apply odict_alter_first_keys |].
  split; [intros k other Hk Hother;
          apply odict_get_alter_first_other; assumption |].
  split; reflexivity.
Qed.

Lemma confirm_payment_marks_paid_witness :
  _transactions (payment_processor test_cod) !! "COD-01234"
  = Some (CashOnDeliveryPayment.pay "cod" test_entropy "order-1" test_total) /\
  _strategies (payment_processor test_cod) !! "cod"
  = Some (CashOnDeliveryPayment.make "cod" true) /\
  odict.find_value (has_reference "COD-01234") (orders test_cod)
  = Some (placed_order "order-1" "alice" test_alice_cart
            (CashOnDeliveryPayment.pay "cod" test_entropy "order-1" test_total)) /\
  order_status test_cod "order-1" = Some OrderStatus.CREATED /\
  (ECommercePlatform_.confirm_payment "COD-01234"
     (<["delivered" := PyBool true]> ∅) test_cod).1
  = Ok {| o_id := "order-1"; o_user_id := "alice"; o_items := [0%nat];
          o_status := OrderStatus.PAID;
          o_payment_reference := Some "COD-01234"%string |}.
Proof.
  repeat (split; [reflexivity |]).
  assert (H4 : strategy_complete (CashOnDeliveryPayment.make "cod" true)
                 (CashOnDeliveryPayment.pay "cod" test_entropy "order-1" test_total)
                 (<["delivered" := PyBool true]> ∅)
               = Ok (with_receipt_status
                       (CashOnDeliveryPayment.pay "cod" test_entropy "order-1"
                          test_total)
                       PaymentStatus.SUCCESS)) by reflexivity.
  apply (confirm_payment_marks_paid test_cod "COD-01234"
           (<["delivered" := PyBool true]> ∅)
           (CashOnDeliveryPayment.pay "cod" test_entropy "order-1" test_total)
           (with_receipt_status
              (CashOnDeliveryPayment.pay "cod" test_entropy "order-1" test_total)
              PaymentStatus.SUCCESS)
           (CashOnDeliveryPayment.make "cod" true)
           (placed_order "order-1" "alice" test_alice_cart
              (CashOnDeliveryPayment.pay "cod" test_entropy "order-1" test_total))
           eq_refl eq_refl eq_refl H4 eq_refl eq_refl).
Defined.

(** ** Restocking *)

Lemma with_stock_twice (p : Product) (n m : Z) :
  with_stock (with_stock p n) m = with_stock p m.
Proof. reflexivity. Qed.

(** The restocking loop over items with quantities that are not negative
    returns, and adds to the stock of each product the quantities of its
    items. *)
Lemma restock_loop (items : list nat) (st : Store) :
  stock_nonneg_store st ->
  Forall (fun item => exists i,
            item_objs st !! item = Some i /\ 0 <= ci_quantity i /\
            product_ref_ok st (ci_product i)) items ->
  exists st',
    for_each items restock_item st = (Ok tt, st') /\
    item_objs st' = item_objs st /\
    forall a p,
      product_objs st !! a = Some p ->
      product_objs st' !! a
      = Some (with_stock p (p_stock p + restocked (item_objs st) items a)).
Proof.
  revert st. induction items as [|item items IH]; intros st Hnn Hitems.
  - exists st. split; [reflexivity |]. split; [reflexivity |].
    intros a p Hp. simpl. rewrite Z.add_0_r, <- with_stock_same. exact Hp.
  - apply Forall_cons in Hitems as [(i & Hi & Hq & Hb) Hitems].
    destruct (lookup_lt_is_Some_2 _ _ Hb) as [pb Hpb].
    assert (Hpb0 : 0 <= p_stock pb).
    { unfold stock_nonneg_store in Hnn. rewrite Forall_forall in Hnn.
      apply Hnn. eapply list_elem_of_lookup_2, Hpb. }
    set (st1 := set_product_objs (fun h =>
                  <[ci_product i := with_stock pb (p_stock pb + ci_quantity i)]> h)
                  st).
    assert (E1 : restock_item item st = (Ok tt, st1)).
    { unfold restock_item, Product_.adjust_stock, bind, load_item, load_product.
      rewrite Hi. simpl. rewrite Hpb. simpl.
      destruct (p_stock pb + ci_quantity i <? 0) eqn:E;
        [apply Z.ltb_lt in E; lia | reflexivity]. }
    destruct (IH st1) as (st' & Eloop & Eitems & Hstock).
    + unfold stock_nonneg_store, st1. simpl. apply Forall_insert; [exact Hnn |].
      simpl. lia.
    + eapply Forall_impl; [exact Hitems |].
      intros x (ix & Hix & Hqx & Hbx). exists ix.
      split; [exact Hix |]. split; [exact Hqx |].
      unfold product_ref_ok, st1 in *. simpl. rewrite length_insert. exact Hbx.
    + exists st'. split; [| split].
      * cbn [for_each]. unfold bind at 1. rewrite E1. exact Eloop.
      * rewrite Eitems. reflexivity.
      * intros a p Hp. cbn [restocked]. rewrite Hi.
        change (item_objs st1) with (item_objs st) in Hstock.
        destruct (Nat.eqb_spec (ci_product i) a) as [<-|Hne].
        -- assert (p = pb) by congruence. subst p.
           rewrite (Hstock (ci_product i)
                      (with_stock pb (p_stock pb + ci_quantity i))).
           ++ rewrite with_stock_twice. simpl. do 2 f_equal. lia.
           ++ unfold st1. simpl. apply list_lookup_insert_eq.
              eapply lookup_lt_Some, Hpb.
        -- rewrite (Hstock a p).
           ++ do 2 f_equal.
           ++ unfold st1. simpl. rewrite list_lookup_insert_ne by exact Hne.
              exact Hp.
Qed.

(** A confirmation that the payment method turns down: the first order
    that carries the reference is returned with status [FAILED], and the
    quantity of each of its items goes back to the stock of the product
    of the item.  Items and carts are as before.  The quantities of the
    items are to be non-negative, as is the stock. *)
Theorem confirm_payment_failure_restocks (s : ECommercePlatform)
    (reference : string) (kw : gmap string pyval)
    (receipt updated : PaymentReceipt) (strat : PaymentStrategy)
    (order : Order) :
  wf s -> stock_nonneg s ->
  _transactions (payment_processor s) !! reference = Some receipt ->
  _strategies (payment_processor s) !! r_method receipt = Some strat ->
  strategy_requires_confirmation strat = true ->
  strategy_complete strat receipt kw = Ok updated ->
  r_status updated <> PaymentStatus.SUCCESS ->
  odict.find_value (has_reference reference) (orders s) = Some order ->
  Forall (fun item => forall i,
            item_objs (store s) !! item = Some i -> 0 <= ci_quantity i)
         (o_items order) ->
  (ECommercePlatform_.confirm_payment reference kw s).1
  = Ok (Order_.with_status order OrderStatus.FAILED) /\
  odict.find_value (has_reference reference)
    (orders (ECommercePlatform_.confirm_payment reference kw s).2)
  = Some (Order_.with_status order OrderStatus.FAILED) /\
  (forall a z,
     stock_at s a = Some z ->
     stock_at (ECommercePlatform_.confirm_payment reference kw s).2 a
     = Some (z + restocked (item_objs (store s)) (o_items order) a)) /\
  item_objs (store (ECommercePlatform_.confirm_payment reference kw s).2)
  = item_objs (store s) /\
  carts (ECommercePlatform_.confirm_payment reference kw s).2 = carts s.
Proof.
  intros Hwf Hnn Hr Hs Hc Hu Hst Ho Hq.
  rewrite (confirm_payment_completes s reference kw receipt updated strat order
             Hr Hs Hc Hu Ho).
  assert (E : PaymentStatus.eqb (r_status updated) PaymentStatus.SUCCESS = false).
  { destruct (r_status updated); try reflexivity. contradiction. }
  rewrite E.
  destruct (restock_loop (o_items order) (store s) Hnn) as (st' & El & Ei & Hp).
  { destruct Hwf as [[_ Hitems _ Hord] _].
    rewrite Forall_forall in Hord.
    specialize (Hord order (proj1 (odict_find_value_values _ _ _ Ho))).
    rewrite Forall_forall in Hord. rewrite Forall_forall in Hq.
    rewrite Forall_forall in Hitems. apply Forall_forall.
    intros item Hin. destruct (lookup_lt_is_Some_2 _ _ (Hord item Hin)) as [i Hi].
    exists i. split; [exact Hi |]. split; [apply (Hq item Hin i Hi) |].
    apply Hitems. eapply list_elem_of_lookup_2, Hi. }
  cbv iota.
  match goal with
  | |- (?r).1 = _ /\ _ =>
      assert (Efin : r = (Ok (Order_.with_status order OrderStatus.FAILED),
                          set_store (fun _ => st')
                            (set_orders
                               (odict.alter_first (has_reference reference)
                                  (fun o => Order_.with_status o OrderStatus.FAILED))
                               (set_payment_processor
                                  (PaymentProcessor_.set_transactions
                                     (fun t => <[reference := updated]> t)) s))))
  end.
  { unfold bind, modify, on_store, ret. simpl_state. rewrite El. reflexivity. }
  rewrite Efin. simpl_state.
  split; [reflexivity |]. split.
  { apply (odict_find_alter_first (has_reference reference)
             (fun o => Order_.with_status o OrderStatus.FAILED) (orders s) order Ho).
    exact (proj2 (odict_find_value_values _ _ _ Ho)). }
  split.
  { intros a z Hz. unfold stock_at in *. simpl_state.
    destruct (product_objs (store s) !! a) as [p|] eqn:Hpa; [| discriminate].
    injection Hz as <-. rewrite (Hp a p Hpa). reflexivity. }
  split; [exact Ei | reflexivity].
Qed.

Lemma test_cod_wf : wf test_cod.
Proof. apply (run_wf (Checkout "order-1" test_entropy "alice" "cod")), test_cart_wf. Qed.

Lemma confirm_payment_failure_restocks_witness :
  wf test_cod /\ stock_nonneg test_cod /\
  r_status (with_receipt_status
              (CashOnDeliveryPayment.pay "cod" test_entropy "order-1" test_total)
              PaymentStatus.FAILED) <> PaymentStatus.SUCCESS /\
  stock_at test_cod 0 = Some 3 /\
  stock_at (ECommercePlatform_.confirm_payment "COD-01234" ∅ test_cod).2 0
  = Some 5.
Proof.
  assert (Hnn : stock_nonneg test_cod).
  { repeat constructor. simpl. lia. }
  assert (Hst : r_status (with_receipt_status
                  (CashOnDeliveryPayment.pay "cod" test_entropy "order-1" test_total)
                  PaymentStatus.FAILED) <> PaymentStatus.SUCCESS) by discriminate.
  assert (Hu : strategy_complete (CashOnDeliveryPayment.make "cod" true)
                 (CashOnDeliveryPayment.pay "cod" test_entropy "order-1" test_total) ∅
               = Ok (with_receipt_status
                       (CashOnDeliveryPayment.pay "cod" test_entropy "order-1"
                          test_total)
                       PaymentStatus.FAILED)) by reflexivity.
  assert (Hq : Forall (fun item => forall i,
                         item_objs (store test_cod) !! item = Some i ->
                         0 <= ci_quantity i)
                      (o_items (placed_order "order-1" "alice" test_alice_cart
                                  (CashOnDeliveryPayment.pay "cod" test_entropy
                                     "order-1" test_total)))).
  { apply Forall_cons. split; [| apply Forall_nil; exact I].
    intros i Hi. vm_compute in Hi. injection Hi as <-. simpl. lia. }
  split; [exact test_cod_wf |]. split; [exact Hnn |]. split; [exact Hst |].
  split; [reflexivity |].
  pose proof (confirm_payment_failure_restocks test_cod "COD-01234" ∅
           (CashOnDeliveryPayment.pay "cod" test_entropy "order-1" test_total)
           (with_receipt_status
              (CashOnDeliveryPayment.pay "cod" test_entropy "order-1" test_total)
              PaymentStatus.FAILED)
           (CashOnDeliveryPayment.make "cod" true)
           (placed_order "order-1" "alice" test_alice_cart
              (CashOnDeliveryPayment.pay "cod" test_entropy "order-1" test_total))
           test_cod_wf Hnn eq_refl eq_refl eq_refl Hu Hst eq_refl Hq)
    as (_ & _ & H & _).
  exact (H 0%nat 3 eq_refl).
Defined.

(** ** The payment processor *)

(** A payment by a method that has just been registered (under a new
    name, or in the place of the method that had the name) is made by
    that method; the receipt it returns is the one that [get_receipt]
    gives for its reference afterwards, and the receipts under other
    references are as before. *)
Theorem registered_method_pays (pp : PaymentProcessor) (strat : PaymentStrategy)
    (e : Entropy) (order_id : string) (amount : Decimal) (reference : string) :
  reference <> r_reference (strategy_pay strat e order_id amount) ->
  (PaymentProcessor_.pay e (strategy_name strat) order_id (Ok amount)
     (PaymentProcessor_.register strat pp).2).1
  = Ok (strategy_pay strat e order_id amount) /\
  (PaymentProcessor_.get_receipt
     (r_reference (strategy_pay strat e order_id amount))
     (PaymentProcessor_.pay e (strategy_name strat) order_id (Ok amount)
        (PaymentProcessor_.register strat pp).2).2).1
  = Ok (strategy_pay strat e order_id amount) /\
  _transactions
    (PaymentProcessor_.pay e (strategy_name strat) order_id (Ok amount)
       (PaymentProcessor_.register strat pp).2).2 !! reference
  = _transactions pp !! reference.
Proof.
  intros Hne.
  unfold PaymentProcessor_.register, PaymentProcessor_.pay,
    PaymentProcessor_.get_receipt, bind, gets, modify, ret, deref.
  simpl. rewrite lookup_insert_eq. simpl. rewrite lookup_insert_eq.
  split; [reflexivity |]. split; [reflexivity |].
  apply lookup_insert_ne. congruence.
Qed.

Lemma registered_method_pays_witness :
  "VISA-00000000"%string
  <> r_reference (strategy_pay (UpiPayment.make "upi" "merchant@upi")
                    test_entropy "order-1" test_total) /\
  (PaymentProcessor_.pay test_entropy "upi" "order-1" (Ok test_total)
     (PaymentProcessor_.register (UpiPayment.make "upi" "merchant@upi")
        PaymentProcessor_.init).2).1
  = Ok (UpiPayment.pay "upi" "merchant@upi" test_entropy "order-1" test_total).
Proof.
  assert (H : "VISA-00000000"%string
              <> r_reference (strategy_pay (UpiPayment.make "upi" "merchant@upi")
                                test_entropy "order-1" test_total))
    by discriminate.
  split; [exact H |].
  apply (registered_method_pays PaymentProcessor_.init
           (UpiPayment.make "upi" "merchant@upi") test_entropy "order-1"
           test_total "VISA-00000000" H).
Defined.

(** Once a payment method is removed, a payment by it is refused with
    [PaymentError], and so is the confirmation of a receipt that the
    method has issued before; the receipt itself can still be read.
    Nothing is changed by the refused calls. *)
Theorem removed_method_is_refused (pp : PaymentProcessor) (name : string)
    (e : Entropy) (order_id : string) (subtotal : result Decimal)
    (reference : string) (receipt : PaymentReceipt) (kw : gmap string pyval) :
  _transactions pp !! reference = Some receipt ->
  r_method receipt = name ->
  PaymentProcessor_.pay e name order_id subtotal (PaymentProcessor_.remove name pp).2
  = (Raise PaymentError, (PaymentProcessor_.remove name pp).2) /\
  PaymentProcessor_.complete reference kw (PaymentProcessor_.remove name pp).2
  = (Raise PaymentError, (PaymentProcessor_.remove name pp).2) /\
  PaymentProcessor_.get_receipt reference (PaymentProcessor_.remove name pp).2
  = (Ok receipt, (PaymentProcessor_.remove name pp).2).
Proof.
  intros Hr Hm.
  unfold PaymentProcessor_.remove, PaymentProcessor_.pay,
    PaymentProcessor_.complete, PaymentProcessor_.get_receipt,
    bind, gets, modify, raise, ret.
  simpl. rewrite Hr. simpl.
  rewrite Hm, lookup_delete_eq. repeat split.
Qed.

Lemma removed_method_is_refused_witness :
  _transactions (payment_processor test_cod) !! "COD-01234"
  = Some (CashOnDeliveryPayment.pay "cod" test_entropy "order-1" test_total) /\
  PaymentProcessor_.complete "COD-01234" (<["delivered" := PyBool true]> ∅)
    (PaymentProcessor_.remove "cod" (payment_processor test_cod)).2
  = (Raise PaymentError,
     (PaymentProcessor_.remove "cod" (payment_processor test_cod)).2).
Proof.
  split; [reflexivity |].
  apply (removed_method_is_refused (payment_processor test_cod) "cod"
           test_entropy "order-2" (Ok test_total) "COD-01234"
           (CashOnDeliveryPayment.pay "cod" test_entropy "order-1" test_total)
           (<["delivered" := PyBool true]> ∅) eq_refl eq_refl).
Defined.

(** ** Two orders with one payment reference *)

Section odict_append.
Context {V : Type}.
Implicit Types (d l : odict.t V) (P : V -> bool) (f : V -> V).

Lemma odict_set_absent k v d :
  odict.get k d = None -> odict.set k v d = d ++ [(k, v)].
Proof.
  induction d as [|[k0 v0] d IH]; simpl; [reflexivity |].
  destruct (String.eqb k k0); [discriminate |].
  intros H. rewrite (IH H). reflexivity.
Qed.

Lemma odict_get_app k d l :
  odict.get k (d ++ l)
  = match odict.get k d with Some v => Some v | None => odict.get k l end.
Proof.
  induction d as [|[k0 v0] d IH]; simpl; [reflexivity |].
  destruct (String.eqb k k0); [reflexivity | exact IH].
Qed.

Lemma odict_find_value_app P d l :
  odict.find_value P (d ++ l)
  = match odict.find_value P d with
    | Some v => Some v
    | None => odict.find_value P l
    end.
Proof.
  induction d as [|[k0 v0] d IH]; simpl; [reflexivity |].
  destruct (P v0); [reflexivity | exact IH].
Qed.

Lemma odict_alter_first_app P f d l :
  odict.find_value P d = None ->
  odict.alter_first P f (d ++ l) = d ++ odict.alter_first P f l.
Proof.
  induction d as [|[k0 v0] d IH]; simpl; [reflexivity |].
  destruct (P v0); [discriminate |].
  intros H. rewrite (IH H). reflexivity.
Qed.
End odict_append.

(** The reference of a payment on delivery is ["COD-"] and the first five
    hexadecimal digits of a fresh uuid.  When two checkouts, of carts
    whose totals have a value, draw uuids
    with the same five digits, both orders carry the same reference; the
    receipt of the second order takes the place of the receipt of the
    first; and the confirmation of the delivery under that reference pays
    the first order, while the second stays [CREATED]. *)
Theorem cod_reference_collision (s : ECommercePlatform) (id1 id2 : string)
    (e1 e2 : Entropy) (u1 u2 : string) (c1 c2 : ShoppingCart)
    (a1 a2 : Decimal) (kw : gmap string pyval) :
  _strategies (payment_processor s) !! "cod"
  = Some (CashOnDeliveryPayment.make "cod" true) ->
  carts s !! u1 = Some c1 -> carts s !! u2 = Some c2 -> u1 <> u2 ->
  ShoppingCart_.is_empty c1 = false -> ShoppingCart_.is_empty c2 = false ->
  ShoppingCart_.total (store s) c1 = Ok a1 ->
  ShoppingCart_.total (store s) c2 = Ok a2 ->
  id1 <> id2 ->
  odict.get id1 (orders s) = None -> odict.get id2 (orders s) = None ->
  String.substring 0 5 (uuid_hex e1) = String.substring 0 5 (uuid_hex e2) ->
  odict.find_value
    (has_reference ("COD-" +:+ String.substring 0 5 (uuid_hex e1))) (orders s)
  = None ->
  py_truthy (kw_get_default "delivered" (PyBool false) kw) = true ->
  let reference := "COD-" +:+ String.substring 0 5 (uuid_hex e1) in
  let s1 := (ECommercePlatform_.checkout id1 e1 u1 "cod" s).2 in
  let s2 := (ECommercePlatform_.checkout id2 e2 u2 "cod" s1).2 in
  let s3 := (ECommercePlatform_.confirm_payment reference kw s2).2 in
  o_payment_reference <$> odict.get id1 (orders s2) = Some (Some reference) /\
  o_payment_reference <$> odict.get id2 (orders s2) = Some (Some reference) /\
  r_order_id <$> _transactions (payment_processor s2) !! reference = Some id2 /\
  match (ECommercePlatform_.confirm_payment reference kw s2).1 with
  | Ok order => o_id order = id1
  | Raise _ => False
  end /\
  order_status s3 id1 = Some OrderStatus.PAID /\
  order_status s3 id2 = Some OrderStatus.CREATED.
Proof.
  intros Hstrat Hc1 Hc2 Hu Hne1 Hne2 Ht1 Ht2 Hid Hg1 Hg2 Hpre Hfresh Hkw
    reference s1 s2 s3.
  assert (Eref : reference = "COD-" +:+ String.substring 0 5 (uuid_hex e1))
    by reflexivity.
  assert (Es1 : s1 = (ECommercePlatform_.checkout id1 e1 u1 "cod" s).2)
    by reflexivity.
  assert (Es2 : s2 = (ECommercePlatform_.checkout id2 e2 u2 "cod" s1).2)
    by reflexivity.
  assert (Es3 : s3 = (ECommercePlatform_.confirm_payment reference kw s2).2)
    by reflexivity.
  rewrite <- Eref in Hfresh. clearbody reference s1 s2 s3.
  pose (strat := CashOnDeliveryPayment.make "cod" true).
  pose (r1 := strategy_pay strat e1 id1 a1).
  pose (r2 := strategy_pay strat e2 id2 a2).
  pose (o1 := placed_order id1 u1 c1 r1).
  pose (o2 := placed_order id2 u2 c2 r2).
  assert (Er1 : r_reference r1 = reference) by (rewrite Eref; reflexivity).
  assert (Er2 : r_reference r2 = reference).
  { rewrite Eref, Hpre. reflexivity. }
  assert (Em2 : r_method r2 = "cod"%string) by reflexivity.
  assert (Ei2 : r_order_id r2 = id2) by reflexivity.
  assert (Hcomplete : strategy_complete strat r2 kw
                      = Ok (with_receipt_status r2 PaymentStatus.SUCCESS)).
  { unfold strat. simpl. unfold CashOnDeliveryPayment.complete.
    rewrite Hkw. reflexivity. }
  assert (Hpend1 : r_status r1 <> PaymentStatus.FAILED) by discriminate.
  assert (Hpend2 : r_status r2 <> PaymentStatus.FAILED) by discriminate.
  assert (Hconfirmable : strategy_requires_confirmation strat = true)
    by reflexivity.
  assert (Eo1 : o_payment_reference o1 = Some reference).
  { unfold o1, placed_order. cbn [o_payment_reference]. rewrite Er1.
    reflexivity. }
  assert (Eo2 : o_payment_reference o2 = Some reference).
  { unfold o2, placed_order. cbn [o_payment_reference]. rewrite Er2.
    reflexivity. }
  assert (Eid1 : o_id o1 = id1) by reflexivity.
  assert (Est2 : o_status o2 = OrderStatus.CREATED) by reflexivity.
  (* the first checkout *)
  assert (Hs1 : s1 = set_carts (fun m => <[u1 := ShoppingCart_.clear c1]> m)
                       (set_orders (odict.set id1 o1)
                          (set_payment_processor
                             (PaymentProcessor_.set_transactions
                                (fun t => <[r_reference r1 := r1]> t)) s))).
  { rewrite Es1.
    exact (proj2 (checkout_places_order_wp s id1 e1 u1 "cod" c1 strat a1
                    Hc1 Hne1 Hstrat Ht1 Hpend1)). }
  (* the second checkout *)
  assert (Hc2' : carts s1 !! u2 = Some c2).
  { rewrite Hs1. cbn [carts set_carts]. rewrite lookup_insert_ne by exact Hu.
    exact Hc2. }
  assert (Hstrat' : _strategies (payment_processor s1) !! "cod"%string
                    = Some strat).
  { rewrite Hs1. exact Hstrat. }
  assert (Ht2' : ShoppingCart_.total (store s1) c2 = Ok a2).
  { rewrite Hs1. exact Ht2. }
  assert (Hs2 : s2 = set_carts (fun m => <[u2 := ShoppingCart_.clear c2]> m)
                       (set_orders (odict.set id2 o2)
                          (set_payment_processor
                             (PaymentProcessor_.set_transactions
                                (fun t => <[r_reference r2 := r2]> t)) s1))).
  { rewrite Es2.
    exact (proj2 (checkout_places_order_wp s1 id2 e2 u2 "cod" c2 strat a2
                    Hc2' Hne2 Hstrat' Ht2' Hpend2)). }
  clearbody strat r1 r2 o1 o2.
  assert (Eorders : orders s2 = (orders s ++ [(id1, o1)]) ++ [(id2, o2)]).
  { rewrite Hs2, Hs1. cbn [orders set_orders set_carts set_payment_processor].
    rewrite (odict_set_absent id1 o1 (orders s) Hg1).
    apply odict_set_absent. rewrite odict_get_app, Hg2. simpl.
    destruct (String.eqb_spec id2 id1); [congruence | reflexivity]. }
  assert (Etrans : _transactions (payment_processor s2) !! reference = Some r2).
  { rewrite Hs2.
    cbn [payment_processor set_orders set_carts set_payment_processor
         _transactions PaymentProcessor_.set_transactions].
    rewrite Er2. apply lookup_insert_eq. }
  assert (Hstrat2 : _strategies (payment_processor s2) !! r_method r2 = Some strat).
  { rewrite Em2, Hs2. exact Hstrat'. }
  (* the confirmation *)
  assert (Hp1 : has_reference reference o1 = true).
  { unfold has_reference. apply bool_decide_eq_true_2. exact Eo1. }
  assert (Hfind : odict.find_value (has_reference reference) (orders s2) = Some o1).
  { rewrite Eorders, !odict_find_value_app, Hfresh. simpl. rewrite Hp1.
    reflexivity. }
  pose proof (confirm_payment_completes s2 reference kw r2
                (with_receipt_status r2 PaymentStatus.SUCCESS) strat o1
                Etrans Hstrat2 Hconfirmable Hcomplete Hfind) as Hconf.
  cbn [r_status with_receipt_status PaymentStatus.eqb] in Hconf.
  unfold bind, modify, ret in Hconf. cbv beta iota zeta in Hconf.
  assert (Eorders3 : orders s3
                     = orders s ++ [(id1, Order_.mark_paid o1 reference); (id2, o2)]).
  { rewrite Es3, Hconf. cbn [snd orders set_orders set_payment_processor].
    rewrite Eorders, <- app_assoc.
    rewrite odict_alter_first_app by exact Hfresh.
    simpl. rewrite Hp1. reflexivity. }
  split; [| split; [| split; [| split; [| split]]]].
  - rewrite Eorders, !odict_get_app, Hg1. simpl. rewrite String.eqb_refl.
    simpl. rewrite Eo1. reflexivity.
  - rewrite Eorders, !odict_get_app, Hg2. simpl.
    destruct (String.eqb_spec id2 id1); [congruence |].
    rewrite String.eqb_refl. simpl. rewrite Eo2. reflexivity.
  - rewrite Etrans. simpl. rewrite Ei2. reflexivity.
  - rewrite Hconf. exact Eid1.
  - unfold order_status. rewrite Eorders3, odict_get_app, Hg1. simpl.
    rewrite String.eqb_refl. reflexivity.
  - unfold order_status. rewrite Eorders3, odict_get_app, Hg2. simpl.
    destruct (String.eqb_spec id2 id1); [congruence |].
    rewrite String.eqb_refl. simpl. rewrite Est2. reflexivity.
Qed.



Lemma cod_reference_collision_witness :
  carts test_two_carts !! "alice" = Some test_alice_cart /\
  carts test_two_carts !! "bob" = Some test_bob_cart /\
  ShoppingCart_.total (store test_two_carts) test_alice_cart = Ok test_total /\
  ShoppingCart_.total (store test_two_carts) test_bob_cart = Ok test_price /\
  String.substring 0 5 (uuid_hex test_entropy)
  = String.substring 0 5 (uuid_hex test_entropy_again) /\
  order_status
    (ECommercePlatform_.confirm_payment "COD-01234" delivered
       (ECommercePlatform_.checkout "order-2" test_entropy_again "bob" "cod"
          (ECommercePlatform_.checkout "order-1" test_entropy "alice" "cod"
             test_two_carts).2).2).2 "order-1"
  = Some OrderStatus.PAID /\
  order_status
    (ECommercePlatform_.confirm_payment "COD-01234" delivered
       (ECommercePlatform_.checkout "order-2" test_entropy_again "bob" "cod"
          (ECommercePlatform_.checkout "order-1" test_entropy "alice" "cod"
             test_two_carts).2).2).2 "order-2"
  = Some OrderStatus.CREATED.
Proof.
  assert (Hu : "alice"%string <> "bob"%string) by discriminate.
  assert (Hid : "order-1"%string <> "order-2"%string) by discriminate.
  pose proof (cod_reference_collision test_two_carts "order-1" "order-2"
                test_entropy test_entropy_again "alice" "bob"
                test_alice_cart test_bob_cart test_total test_price delivered
                eq_refl eq_refl eq_refl Hu eq_refl eq_refl eq_refl eq_refl
                Hid eq_refl eq_refl eq_refl eq_refl eq_refl)
    as (_ & _ & _ & _ & H5 & H6).
  split; [reflexivity |]. split; [reflexivity |]. split; [reflexivity |].
  split; [reflexivity |]. split; [reflexivity |].
  split; [exact H5 | exact H6].
Defined.

(** ** From registration to login *)

(** A user made by [from_plain_password] and registered under a free name
    without an acting user, as [bootstrap_platform] registers the
    administrator: the registration is accepted for every class,
    [AdminUser] too; the user then logs in with the password, the session
    holds the id of the user, and a password with another digest is
    refused and counted as one failure. *)
Theorem register_then_login (sha256_hexdigest : string -> string)
    (s : AuthService) (cls : user_class)
    (salt id name full_name password wrong token : string) (now now' : Z) :
  no_dollar salt = true ->
  _users s !! name = None ->
  sha256_hexdigest (salt +:+ ":" +:+ wrong)
  <> sha256_hexdigest (salt +:+ ":" +:+ password) ->
  (register_user cls
     (from_plain_password sha256_hexdigest salt id cls name full_name password)
     None s).1 = Ok tt /\
  (login sha256_hexdigest now now' token name password
     (register_user cls
        (from_plain_password sha256_hexdigest salt id cls name full_name password)
        None s).2).1 = Ok token /\
  _sessions
    (login sha256_hexdigest now now' token name password
       (register_user cls
          (from_plain_password sha256_hexdigest salt id cls name full_name
             password)
          None s).2).2 !! token = Some id /\
  (login sha256_hexdigest now now' token name wrong
     (register_user cls
        (from_plain_password sha256_hexdigest salt id cls name full_name password)
        None s).2).1 = Raise AuthenticationError /\
  failed_attempts <$>
    _users
      (login sha256_hexdigest now now' token name wrong
         (register_user cls
            (from_plain_password sha256_hexdigest salt id cls name full_name
               password)
            None s).2).2 !! name = Some 1.
Proof.
  intros Hsalt Hfree Hwrong.
  set (u := from_plain_password sha256_hexdigest salt id cls name full_name
              password).
  assert (E : register_user cls u None s
              = (Ok tt, set_users (fun m => <[name := u]> m) s)).
  { unfold register_user, bind, gets, modify, ret.
    destruct cls; simpl; rewrite Hfree;
      rewrite bool_decide_eq_false_2 by (intros [? ?]; discriminate);
      reflexivity. }
  rewrite E. cbn [fst snd].
  assert (Hu : _users (set_users (fun m => <[name := u]> m) s) !! name = Some u)
    by apply lookup_insert_eq.
  split; [reflexivity |].
  rewrite (login_right_password sha256_hexdigest _ name u now now' token password
             Hu eq_refl eq_refl
             (hash_then_verify sha256_hexdigest salt password Hsalt)).
  cbn [fst snd _sessions set_sessions set_users].
  split; [reflexivity |]. split; [apply lookup_insert_eq |].
  assert (Hv : verify_password sha256_hexdigest u wrong = Ok false).
  { unfold verify_password, _verify_password, u, from_plain_password,
      _hash_password. cbn [_password_hash].
    rewrite (split_dollar_salt salt _ Hsalt).
    destruct (String.eqb_spec (sha256_hexdigest (salt +:+ ":" +:+ wrong))
                (sha256_hexdigest (salt +:+ ":" +:+ password)));
      [contradiction | reflexivity]. }
  rewrite (login_wrong_password sha256_hexdigest _ name u now now' token wrong
             Hu eq_refl eq_refl Hv).
  cbn [fst snd _users set_users]. split; [reflexivity |].
  rewrite lookup_insert_eq. reflexivity.
Qed.

Lemma register_then_login_witness :
  no_dollar "a1b2" = true /\
  _users test_auth !! "carol" = None /\
  test_sha ("a1b2" +:+ ":" +:+ "guess") <> test_sha ("a1b2" +:+ ":" +:+ "hunter2") /\
  (login test_sha 0 0 "token" "carol" "hunter2"
     (register_user AdminUser
        (from_plain_password test_sha "a1b2" "carol-id" AdminUser "carol"
           "Carol Admin" "hunter2")
        None test_auth).2).1 = Ok "token"%string.
Proof.
  assert (H : test_sha ("a1b2" +:+ ":" +:+ "guess")
              <> test_sha ("a1b2" +:+ ":" +:+ "hunter2")) by discriminate.
  split; [reflexivity |]. split; [reflexivity |]. split; [exact H |].
  apply (register_then_login test_sha test_auth AdminUser "a1b2" "carol-id"
           "carol" "Carol Admin" "hunter2" "guess" "token" 0 0
           eq_refl eq_refl H).
Defined.
